(* ===== verification/_CoqProject ===== *)
-Q . S2P
Prelude.v
Store.v
Entities.v
Mixin.v
Reference.v
Variant.v
Queries.v
Indexes.v
Schemas.v
Credentials.v
Token.v
Gate.v
Service.v
App.v
Flows.v
