(* ===== verification/Prelude.v ===== *)
(** * A verification library for the e-commerce API data layer

    The repository (Python, Flask + pymodm/MongoDB + bcrypt + PyJWT) is a
    backend data layer with an authentication gate in front of it.  Its
    parts, and how they interact:

    - the entity store (pymodm over MongoDB, [src/src/models.py] line 23
      [connect(...)]): collections of documents keyed by primary key,
      queried with [Model.objects.raw(filter)], [.count()], [.first()],
      written with [save()];
    - the reference resolver ([ReferenceField.dereference_if_needed],
      models.py 27-55): turns the stored primary key of a reference field
      into the referenced document on access, leniently;
    - the entities (models.py 75-425): [User], [Currency], [Price], ...
      with their field declarations, defaults and required flags;
    - the credential and token lifecycle ([User.set_password],
      [User.check_password], [User.auth_token], models.py 98-149) with
      bcrypt and PyJWT;
    - the generic CRUD service factory ([ServiceFactory.create_service],
      used by [src/src/services/product.py]) and [ProductService.register];
    - the authentication gate ([AuthMiddleware], installed in [src/app.py]
      with its allow-list of paths).

    A request passes the gate (allow-listed path, or a valid token), reaches
    a handler, which calls a service, which calls the store and, for
    reference fields, the resolver.

    ** Files of the development, in dependency order

    - [Prelude.v] (this file): the Python exception type [exn], the
      result type [res], the exception-and-state monad [PyM] with its
      notation in [py_scope], the hint database [pyrun] and the tactic
      [pysimp] that runs the monad.
    - [Store.v]: primary keys ([pkey]: ObjectId or string, with
      [EqDecision] and [Countable]), dynamic Python values ([pyval]), the
      ObjectId text form (Module [ObjectId]: [to_str]/[of_str], 24 hex
      digits), the environment of the process ([Env]: clock, UTC offset,
      store availability, ObjectId counter, salt seed, log of round trips),
      the class [Document] (with laws [DocumentOk]) every stored entity
      implements, and the store operations ([raw_by_id], [q_count],
      [q_first], [save], [delete_doc]) with the collection invariant
      [coll_wf] that [save] preserves.
    - [Entities.v]: one Module per model class of models.py ([User],
      [Address], [Person], [Currency], [Price], [Category], [SubCategory],
      [Country], [Location], [ProductStat], [EmbeddedAttribute],
      [ProductVariant], [Product]): a Record [t] of the declared fields,
      the field table [fields] (required, primary key) and [full_clean];
      the [Document] instances of the stored ones; [ProductVariant]'s
      [__hash__], [__eq__] and [pk].
    - [Mixin.v]: the classes of models.py with their attributes (declared
      fields, class-body methods, [AppMixin], pymodm's API), Python's
      [getattr], and [AppMixin.to_dict] (models.py 58-72).
    - [Reference.v]: [dereference_if_needed] (models.py 32-55), its
      contract [resolve_spec] and round-trip count [resolve_trips], and
      the refinement theorem [deref_refines]; examples on [Price.currency].
    - [Variant.v]: [ProductVariant.price] (models.py 388-397): the reads
      of reference fields through pymodm's [ReferenceField.__get__]
      ([get_ref]), the [for] loop [price_loop], the recursion [price] with
      the interpreter's recursion budget, and its contract [price_spec].
    - [Queries.v]: documents as MongoDB stores them (class [SonView],
      [to_son] of [Product], [SubCategory], [User]), equality filters with
      MongoDB's [None] rule ([field_matches]), [raw_where]/[count_where]/
      [find_where], and the query properties [sub_categories],
      [category_product_count], [location_product_count].
    - [Indexes.v]: MongoDB indexes ([index]: keys, unique, partial
      filter), [Location]'s stored form and [Meta.indexes], and
      [save_indexed], the save a unique index can refuse with
      [ConflictError].
    - [Schemas.v]: the field tables of every schema of
      [src/src/schemas.py], marshmallow's [load] with [unknown = EXCLUDE]
      ([load_fields]) and [LoginSchema] with its [validate_email] store
      count ([load_login]); marshmallow's [dump] ([dump_fields]).
    - [Credentials.v]: UTF-8 encoding of [str], the class [Bcrypt] with
      its laws [BcryptOk] (a key is its first 72 bytes), the state
      [UserSt] (environment, user collection, [self]) and
      [set_password]/[check_password] (models.py 98-135); a model
      [ToyBcrypt] showing the laws are satisfiable.
    - [Token.v]: the class [Jwt] of signatures, [auth_token]
      (models.py 138-149) and [validate] (what [jwt.decode] answers:
      [Valid], [Expired], [Invalid]).
    - [Gate.v]: [auth_middleware] (AuthMiddleware, from the spec: its
      source is not among the sources), its contract [authorized], and
      [app_wsgi], the gate [src/app.py] lines 8-10 installs.
    - [Service.v]: the class [Entity] a service's model implements, the
      CRUD operations [create], [read], [update], [delete], [list_docs] of
      [ServiceFactory.create_service] (from the spec), [register]
      ([ProductService.register]), the step relation [svc_step] and the
      invariant [svc_wf]; the [Entity] instance of [Product].
    - [App.v]: the routes [app.py] adds ([app_routes]) and the
      serializers of [ProductResource], composed with the gate and with
      [ProductService.register].
    - [Flows.v]: the login flow composed from the parts above:
      [set_password], [LoginSchema]'s [load_login], [check_password],
      [auth_token] and the gate of [app.py], the state threaded from one
      step to the next.

    ** What the theorems show

    - Resolver (Reference.v): the lenient branch refines [resolve_spec];
      dangling keys yield the coerced key; resolution is idempotent and
      read-only, with at most two round trips ([count()] then [first()],
      both for a found key), one with auto-dereferencing, where the
      dangling case raises.
    - [to_dict] (Mixin.v): raises [AttributeError] on every model
      instance, for [to_custom_son] (defined nowhere), or for [to_dict]
      itself on a [ProductStat].
    - Credentials (Credentials.v): after [set_password p],
      [check_password q] is whether [p] and [q] share their first 72 UTF-8
      bytes; the guard's [ValueError]; a bytes password, or a user with no
      password, raises [AttributeError]; a failed save leaves [self]
      changed.
    - Tokens and gate (Token.v, Gate.v): a token of a saved user validates
      to its claims until [clock + tz_offset + 3600 * hours], the local
      clock read as UTC, and is never [Invalid]; an unsaved user gets no
      token; a request without a token reaches the app exactly on the
      five paths [app.py] exempts.
    - Services (Service.v): delete-then-read, register-then-read, update
      and the errors on absent keys; [update] merges the keyword
      arguments field by field; [list_docs] returns exactly the
      stored documents its filter keeps and can be restarted; every state
      reachable by any sequence of calls (listing included), outages and
      clock ticks satisfies [svc_wf]; [last_updated] of a key never
      decreases.
    - [ProductVariant.price] (Variant.v): refines [price_spec] on every
      branch; with no price in the default currency it never returns (the
      recursion ends in [RecursionError] whatever the budget); a dangling
      currency key makes [.code] raise [AttributeError]; when every
      currency resolves, the loop returns [List.find]'s answer.
      [ProductVariant.__eq__] with a [str] compares [str(self.sku)], so a
      variant without [sku] equals ["None"], and with [bytes] is [False].
    - Queries (Queries.v): [Category.product_count] is always 0 (it filters
      on fields [Product] does not have); an unsaved [Location] counts the
      products without location; [sub_categories] is exactly the
      sub-categories referencing the category.
    - Indexes (Indexes.v): two locations with the same string [domain]
      cannot both be saved, whatever their users, since the unique index
      on [(domain, instance_id)] meets a model without [instance_id].
    - Schemas (Schemas.v): a key no field declares never changes what
      [load] answers and never appears in its result ([unknown =
      EXCLUDE]); [LoginSchema]
      accepts the email of a stored user and refuses any other with
      "Invalid email", before any password check; the user response
      never carries the password hash and its [pk] parses back.
    - Application (App.v): every route [app.py] adds is allow-listed;
      [ProductRequestSchema] loads every request to [{}], on which
      [ProductService.register] raises [ValidationError].
    - Login (Flows.v): after [set_password(p)] succeeds, a login with the
      user's email and [p] is loaded by [LoginSchema], passes
      [check_password], and the token [auth_token] then issues passes the
      gate on a protected path with the user's identity attached.
    - [ObjectId.of_str_to_str]: the printed id parses back exactly for
      12-byte ids.

    ** Bounds and fuel

    ObjectIds are 96-bit numbers, printed as 24 hex digits; the round trip
    holds exactly for [n < 2^96] (the text keeps [n mod 2^96]).  The only
    unbounded recursion of the code, [return self.price], is modelled with
    the interpreter's recursion budget [depth] (Python's limit, 1000 by
    default): at 0 Python raises [RecursionError], so the model is total
    and its theorems hold for every budget.  No other definition uses
    fuel: every modelled operation is structurally recursive or loop-free.

    ** Not modelled

    Flask's dispatch, the resource base class (not among the sources),
    [connect()] and [app.run] are I/O or wiring outside the data layer.
    Non-unique indexes only speed queries up and are not modelled, nor is
    pymodm's caching of resolved references in the instance, nor MongoDB
    comparisons of list or embedded fields (no filter of the code makes
    them).
*)

From stdpp Require Export base gmap strings list countable.
From Stdlib Require Export ZArith NArith.

Declare Scope py_scope.
Delimit Scope py_scope with py.

(** ** Python exceptions raised by the modelled code and its libraries *)

Inductive exn :=
  | ValueError (msg : string)
  | AttributeError (msg : string)
  | RecursionError
  | DoesNotExist
  | ValidationError (msg : string)
  | PersistenceError
  | AuthError (msg : string)
  | NotFoundError
  (** [marshmallow.ValidationError]: the messages by field, in order *)
  | SchemaValidationError (messages : list (string * string))
  (** [pymongo.errors.DuplicateKeyError]: a unique index refused a write *)
  | ConflictError.

#[export] Instance exn_eqdec : EqDecision exn.
Proof. solve_decision. Defined.

(** The outcome of a Python call: a returned value or a raised exception. *)
Inductive res (A : Type) :=
  | Ok (a : A)
  | Err (e : exn).
Arguments Ok {A} a.
Arguments Err {A} e.

(** Python code that threads a state [S]: an exception does not roll the
    state back. *)
Definition PyM (S A : Type) := S -> res A * S.

Definition py_ret {S A} (a : A) : PyM S A := fun s => (Ok a, s).
Definition py_raise {S A} (e : exn) : PyM S A := fun s => (Err e, s).
Definition py_bind {S A B} (m : PyM S A) (k : A -> PyM S B) : PyM S B :=
  fun s => match m s with
           | (Ok a, s') => k a s'
           | (Err e, s') => (Err e, s')
           end.
Definition py_get {S} : PyM S S := fun s => (Ok s, s).
Definition py_put {S} (s : S) : PyM S unit := fun _ => (Ok tt, s).
Definition py_modify {S} (f : S -> S) : PyM S unit := fun s => (Ok tt, f s).

Notation "x <- m ;; k" := (py_bind m (fun x => k))
  (at level 100, m at level 99, right associativity) : py_scope.
Notation "m ;;; k" := (py_bind m (fun _ => k))
  (at level 100, right associativity) : py_scope.

Open Scope py_scope.

(** ** Running the monad *)

Lemma py_bind_ret {S A B} (a : A) (k : A -> PyM S B) s :
  py_bind (py_ret a) k s = k a s.
Proof. reflexivity. Qed.

Lemma py_bind_raise {S A B} e (k : A -> PyM S B) s :
  py_bind (py_raise e) k s = (Err e, s).
Proof. reflexivity. Qed.

Lemma py_bind_ok {S A B} (m : PyM S A) (k : A -> PyM S B) s a s' :
  m s = (Ok a, s') -> py_bind m k s = k a s'.
Proof. unfold py_bind. by intros ->. Qed.

Lemma py_bind_err {S A B} (m : PyM S A) (k : A -> PyM S B) s e s' :
  m s = (Err e, s') -> py_bind m k s = (Err e, s').
Proof. unfold py_bind. by intros ->. Qed.

Lemma py_bind_assoc {S A B C} (m : PyM S A) (k : A -> PyM S B) (h : B -> PyM S C) s :
  py_bind (py_bind m k) h s = py_bind m (fun a => py_bind (k a) h) s.
Proof. unfold py_bind. by destruct (m s) as [[a|e] s']. Qed.

Create HintDb pyrun.
Create Rewrite HintDb pyrun.
#[export] Hint Rewrite @py_bind_ret @py_bind_raise @py_bind_assoc : pyrun.
#[export] Hint Unfold py_ret py_raise py_get py_put py_modify : pyrun.

(** [pysimp] runs the straight-line part of a monadic computation. *)
Ltac pysimp :=
  repeat (autounfold with pyrun; autorewrite with pyrun; cbn [fst snd]).

(** ** Results *)

Definition is_ok {A} (r : res A) : bool :=
  match r with Ok _ => true | Err _ => false end.

Definition res_map {A B} (f : A -> B) (r : res A) : res B :=
  match r with Ok a => Ok (f a) | Err e => Err e end.

Lemma Ok_inj {A} (a b : A) : Ok a = Ok b -> a = b.
Proof. by intros [= ->]. Qed.

Lemma Ok_Err_neq {A} (a : A) e : Ok a <> Err e.
Proof. discriminate. Qed.
#[export] Hint Resolve Ok_Err_neq : pyrun.

(** ** Strings *)

Lemma string_length_app (s1 s2 : string) :
  String.length (s1 +:+ s2) = (String.length s1 + String.length s2)%nat.
Proof. induction s1 as [|c s1 IH]; simpl; [done | by rewrite IH]. Qed.
#[export] Hint Rewrite string_length_app : pyrun.
