(* ===== verification/Store.v ===== *)
(** * The entity store: keys, values, documents and MongoDB round trips

    Models the boundary the code calls through pymodm ([connect] at
    [src/src/models.py] line 23; [Model.objects.raw], [QuerySet.count],
    [QuerySet.first], [Model.save], [Model.delete]).  The store itself is
    library code: it is modelled from its documented behaviour, and every
    call to it is one round trip appended to [trips]. *)

From S2P Require Import Prelude.
From Stdlib Require Import Ascii.

Open Scope N_scope.

(** ** ObjectId and its 24-digit hexadecimal text form ([str(ObjectId)]) *)

Module ObjectId.

Definition hex_digit (d : N) : ascii :=
  match d with
  | 0 => "0" | 1 => "1" | 2 => "2" | 3 => "3" | 4 => "4" | 5 => "5"
  | 6 => "6" | 7 => "7" | 8 => "8" | 9 => "9" | 10 => "a" | 11 => "b"
  | 12 => "c" | 13 => "d" | 14 => "e" | _ => "f"
  end%char.

(** [k] hexadecimal digits of [n], most significant first. *)
Fixpoint hex_fixed (k : nat) (n : N) : string :=
  match k with
  | O => EmptyString
  | S k' => hex_fixed k' (n / 16) +:+ String (hex_digit (n mod 16)) EmptyString
  end.

(** [bytes.fromhex] accepts both cases of the letters. *)
Definition hex_val (c : ascii) : option N :=
  let n := N_of_ascii c in
  if (48 <=? n) && (n <=? 57) then Some (n - 48)
  else if (97 <=? n) && (n <=? 102) then Some (n - 87)
  else if (65 <=? n) && (n <=? 70) then Some (n - 55)
  else None.

Fixpoint parse_hex (s : string) (acc : N) : option N :=
  match s with
  | EmptyString => Some acc
  | String c s' => d ← hex_val c; parse_hex s' (acc * 16 + d)
  end.

(** [str(oid)]: 12 bytes rendered as 24 lowercase hex digits. *)
Definition to_str (n : N) : string := hex_fixed 24 n.

(** [ObjectId(s)] on a string: exactly 24 hex digits, else [InvalidId]. *)
Definition of_str (s : string) : option N :=
  if (String.length s =? 24)%nat then parse_hex s 0 else None.

Lemma hex_val_digit d : d < 16 -> hex_val (hex_digit d) = Some d.
Proof.
  intros Hd. rewrite <- (N2Nat.id d).
  assert (Hn : (N.to_nat d < 16)%nat) by lia.
  revert Hn. generalize (N.to_nat d) as n. intros n Hn.
  do 16 (destruct n as [|n]; [reflexivity|]). lia.
Qed.

Lemma parse_hex_app s1 s2 acc :
  parse_hex (s1 +:+ s2) acc = (a ← parse_hex s1 acc; parse_hex s2 a).
Proof.
  revert acc. induction s1 as [|c s1 IH]; intros acc; [done|].
  simpl. destruct (hex_val c); simpl; [apply IH|done].
Qed.

Lemma hex_fixed_length k n : String.length (hex_fixed k n) = k.
Proof.
  revert n. induction k as [|k IH]; intros n; [done|].
  cbn. rewrite string_length_app, IH. cbn. lia.
Qed.

(** Printing keeps the last [k] digits, and parsing reads them back. *)
Lemma parse_hex_fixed k n acc :
  parse_hex (hex_fixed k n) acc = Some (acc * 16 ^ N.of_nat k + n mod 16 ^ N.of_nat k).
Proof.
  revert n acc. induction k as [|k IH]; intros n acc.
  - cbn. f_equal. rewrite N.mod_1_r. lia.
  - cbn [hex_fixed]. rewrite parse_hex_app, IH.
    cbn. rewrite hex_val_digit by (apply N.mod_lt; lia).
    simpl. f_equal. rewrite Nat2N.inj_succ, N.pow_succ_r', N.Div0.mod_mul_r. lia.
Qed.

(** [ObjectId(str(oid))] is [oid] modulo [2^96]: the id itself for every
    12-byte id. *)
Lemma of_str_to_str_mod n : of_str (to_str n) = Some (n mod 2 ^ 96).
Proof.
  unfold of_str, to_str. rewrite hex_fixed_length. cbn -[hex_fixed].
  rewrite parse_hex_fixed. done.
Qed.

(** Printing an ObjectId with [str()] (24 lowercase hex digits) and
    parsing the text back with [ObjectId(...)] gives the same id exactly
    for the ids that fit in 12 bytes, the ObjectIds. *)
Lemma of_str_to_str n : of_str (to_str n) = Some n <-> n < 2 ^ 96.
Proof.
  rewrite of_str_to_str_mod. split.
  - intros [= Hn]. rewrite <- Hn. apply N.mod_lt. lia.
  - intros Hn. by rewrite N.mod_small.
Qed.

End ObjectId.

Close Scope N_scope.

(** ** Primary keys and the dynamic values a reference field may hold *)

(** A document's [_id]: an [ObjectId] (the default primary key) or a
    string ([CharField(primary_key=True)], e.g. [Currency.code]). *)
Inductive pkey := KOid (n : N) | KStr (s : string).

#[export] Instance pkey_eqdec : EqDecision pkey.
Proof. solve_decision. Defined.

Definition pkey_encode (k : pkey) : N + string :=
  match k with KOid n => inl n | KStr s => inr s end.
Definition pkey_decode (x : N + string) : pkey :=
  match x with inl n => KOid n | inr s => KStr s end.
Lemma pkey_decode_encode k : pkey_decode (pkey_encode k) = k.
Proof. by destruct k. Qed.

#[export] Instance pkey_countable : Countable pkey :=
  inj_countable' pkey_encode pkey_decode pkey_decode_encode.

(** A Python value that is not a model instance. *)
Inductive pyval :=
  | PNone
  | PBool (b : bool)
  | PInt (z : Z)
  | PStr (s : string)
  | PBytes (bs : list Byte.byte)
  | POid (n : N).

#[export] Instance byte_eqdec : EqDecision Byte.byte := Byte.byte_eq_dec.

#[export] Instance pyval_eqdec : EqDecision pyval.
Proof. solve_decision. Defined.

(** Python truthiness, as used by [if not x]. *)
Definition truthy (v : pyval) : bool :=
  match v with
  | PNone => false
  | PBool b => b
  | PInt z => negb (z =? 0)%Z
  | PStr s => negb (String.eqb s "")
  | PBytes bs => negb (bool_decide (bs = []))
  | POid _ => true
  end.

Definition pyval_of_pkey (k : pkey) : pyval :=
  match k with KOid n => POid n | KStr s => PStr s end.

(** The key a filter [{"_id": v}] can match: MongoDB compares BSON values,
    so only an ObjectId or a string equal to a stored [_id] matches. *)
Definition pkey_of_pyval (v : pyval) : option pkey :=
  match v with POid n => Some (KOid n) | PStr s => Some (KStr s) | _ => None end.

Lemma pkey_of_pyval_of_pkey k : pkey_of_pyval (pyval_of_pkey k) = Some k.
Proof. by destruct k. Qed.

(** [str(pk)] *)
Definition pkey_str (k : pkey) : string :=
  match k with KOid n => ObjectId.to_str n | KStr s => s end.

(** The in-memory value of a reference field: the raw stored key, or the
    materialised instance of the related model. *)
Inductive refval (E : Type) := Raw (v : pyval) | Inst (e : E).
Arguments Raw {E} v.
Arguments Inst {E} e.

(** ** The process environment and the log of store round trips *)

(** A round trip: a query on [_id] or on a filter of (field, value)
    conditions, a save or a delete. *)
Inductive trip :=
  | TCount (coll : string) (id : pyval)
  | TFind (coll : string) (id : pyval)
  | TCountWhere (coll : string) (filter : list (string * pyval))
  | TFindWhere (coll : string) (filter : list (string * pyval))
  | TSave (coll : string) (k : pkey)
  | TDelete (coll : string) (k : pkey).

Record Env := mkEnv {
  clock : Z;          (** [datetime.utcnow()], in seconds *)
  tz_offset : Z;      (** [datetime.now() - datetime.utcnow()], in seconds *)
  store_up : bool;    (** whether MongoDB answers *)
  next_oid : N;       (** the next ObjectId the driver generates *)
  salt_seed : N;      (** the source of [bcrypt.gensalt()] *)
  trips : list trip   (** round trips to MongoDB, oldest first *)
}.

Definition log_trip (t : trip) (env : Env) : Env :=
  {| clock := clock env; tz_offset := tz_offset env; store_up := store_up env;
     next_oid := next_oid env; salt_seed := salt_seed env;
     trips := trips env ++ [t] |}.

(** ** Documents: what pymodm's [MongoModel] gives every entity *)

Class Document (E : Type) := {
  collection_name : string;
  (** [self.pk]: [None] until saved for an auto [_id] *)
  pk : E -> option pkey;
  (** the driver stores a generated ObjectId into [_id] *)
  set_pk : N -> E -> E;
  (** [related_model._mongometa.pk.to_python] *)
  pk_to_python : pyval -> refval E;
  (** [full_clean()]: [Some msg] raises [ValidationError(msg)] *)
  full_clean : E -> option string
}.

Class DocumentOk (E : Type) `{Document E} := {
  (** the driver fills in [_id] of a valid document that has none *)
  pk_set_pk n e : full_clean e = None -> pk e = None -> pk (set_pk n e) = Some (KOid n);
  pk_to_python_idem v v' : pk_to_python v = Raw v' -> pk_to_python v' = Raw v'
}.

(** ** Store operations *)

Definition bump_oid (env : Env) : Env :=
  {| clock := clock env; tz_offset := tz_offset env; store_up := store_up env;
     next_oid := N.succ (next_oid env); salt_seed := salt_seed env;
     trips := trips env |}.

(** One round trip to MongoDB: answered with [a] when the server is up,
    [PersistenceError] (pymongo's [ServerSelectionTimeoutError]) else. *)
Definition store_call {A} (t : trip) (a : A) : PyM Env A :=
  fun env => if store_up env then (Ok a, log_trip t env) else (Err PersistenceError, env).

(** [datetime.utcnow()] and [datetime.now()] *)
Definition utcnow : PyM Env Z := fun env => (Ok (clock env), env).
Definition now_local : PyM Env Z := fun env => (Ok (clock env + tz_offset env)%Z, env).

Section Queries.
Context `{Document E}.
Implicit Types (coll : gmap pkey E) (e : E).

(** [Model.objects.raw({"_id": v})]: at most one document, since [_id]
    is unique. *)
Definition raw_by_id coll (v : pyval) : list E :=
  match pkey_of_pyval v with
  | Some k => match coll !! k with Some e => [e] | None => [] end
  | None => []
  end.

(** [QuerySet.count()]: one round trip. *)
Definition q_count coll (v : pyval) : PyM Env nat :=
  store_call (TCount collection_name v) (length (raw_by_id coll v)).

(** [QuerySet.first()]: one round trip; [DoesNotExist] on no match. *)
Definition q_first coll (v : pyval) : PyM Env E :=
  rs <- store_call (TFind collection_name v) (raw_by_id coll v) ;;
  match rs with
  | e :: _ => py_ret e
  | [] => py_raise DoesNotExist
  end.

(** [Model.save()]: [full_clean()], then an insert that lets the driver
    generate an ObjectId when [pk] is unset, or an upsert on [pk]. *)
Definition save e : PyM (Env * gmap pkey E) E :=
  fun '(env, coll) =>
    match full_clean e with
    | Some msg => (Err (ValidationError msg), (env, coll))
    | None =>
        if store_up env then
          match pk e with
          | Some k => (Ok e, (log_trip (TSave collection_name k) env, <[k := e]> coll))
          | None =>
              let n := next_oid env in
              (Ok (set_pk n e),
               (log_trip (TSave collection_name (KOid n)) (bump_oid env),
                <[KOid n := set_pk n e]> coll))
          end
        else (Err PersistenceError, (env, coll))
    end.

(** [Model.delete()]: [delete_one({"_id": pk})]. *)
Definition delete_doc (k : pkey) : PyM (Env * gmap pkey E) unit :=
  fun '(env, coll) =>
    if store_up env then (Ok tt, (log_trip (TDelete collection_name k) env, delete k coll))
    else (Err PersistenceError, (env, coll)).

(** The store invariant: every document is filed under its own primary
    key, and every ObjectId in use is below the driver's counter. *)
Definition coll_wf (env : Env) coll : Prop :=
  map_Forall (fun k e => pk e = Some k /\ forall n, k = KOid n -> (n < next_oid env)%N) coll.

(** A document may be saved under its own ObjectId only if that id is
    one the driver has already issued. *)
Definition pk_issued (env : Env) e : Prop :=
  forall n, pk e = Some (KOid n) -> (n < next_oid env)%N.
End Queries.

(** ** Lemmas on round trips *)

Lemma store_call_up {A} t (a : A) env :
  store_up env = true -> store_call t a env = (Ok a, log_trip t env).
Proof. unfold store_call. by intros ->. Qed.

Lemma store_call_down {A} t (a : A) env :
  store_up env = false -> store_call t a env = (Err PersistenceError, env).
Proof. unfold store_call. by intros ->. Qed.

Lemma log_trip_store_up t env : store_up (log_trip t env) = store_up env.
Proof. done. Qed.

Lemma log_trip_trips t env : trips (log_trip t env) = trips env ++ [t].
Proof. done. Qed.

Lemma log_trip_next_oid t env : next_oid (log_trip t env) = next_oid env.
Proof. done. Qed.

Lemma log_trip_clock t env : clock (log_trip t env) = clock env.
Proof. done. Qed.

#[export] Hint Rewrite log_trip_store_up log_trip_trips log_trip_next_oid log_trip_clock : pyrun.
#[export] Hint Rewrite @store_call_up using assumption : pyrun.

Section StoreLemmas.
Context `{DocumentOk E}.
Implicit Types (coll : gmap pkey E) (e : E).

Lemma raw_by_id_length coll v : (length (raw_by_id coll v) <= 1)%nat.
Proof.
  unfold raw_by_id. destruct (pkey_of_pyval v); [|cbn; lia].
  destruct (coll !! p); cbn; lia.
Qed.

Lemma raw_by_id_key coll k :
  raw_by_id coll (pyval_of_pkey k) = match coll !! k with Some e => [e] | None => [] end.
Proof. unfold raw_by_id. by rewrite pkey_of_pyval_of_pkey. Qed.

Lemma coll_wf_bump env coll : coll_wf env coll -> coll_wf (bump_oid env) coll.
Proof.
  unfold coll_wf. intros Hwf. eapply map_Forall_impl; [exact Hwf|]. intros k e [Hk Hn].
  split; [done|]. intros n ->. specialize (Hn n eq_refl). cbn. lia.
Qed.

Lemma coll_wf_log env coll t : coll_wf env coll -> coll_wf (log_trip t env) coll.
Proof. done. Qed.

Lemma coll_wf_insert env coll k e :
  coll_wf env coll -> pk e = Some k -> pk_issued env e ->
  coll_wf env (<[k := e]> coll).
Proof.
  intros Hwf Hk Hiss. apply map_Forall_insert_2; [|done].
  split; [done|]. intros n ->. by apply Hiss.
Qed.

(** The driver's next ObjectId is not in use. *)
Lemma coll_wf_fresh env coll :
  coll_wf env coll -> coll !! KOid (next_oid env) = None.
Proof.
  intros Hwf. destruct (coll !! KOid (next_oid env)) as [e|] eqn:Hl; [|done].
  destruct (Hwf _ _ Hl) as [_ Hn]. specialize (Hn _ eq_refl). lia.
Qed.

(** [save] keeps the store invariant, and the saved object may be saved
    again. *)
Theorem save_preserves_wf env coll e e' env' coll' :
  coll_wf env coll -> pk_issued env e ->
  save e (env, coll) = (Ok e', (env', coll')) ->
  coll_wf env' coll' /\ pk_issued env' e' /\ pk e' <> None.
Proof.
  intros Hwf Hiss Hsave. unfold save in Hsave.
  destruct (full_clean e) eqn:Hfc; [done|].
  destruct (store_up env); [|done].
  destruct (pk e) as [k|] eqn:Hk; simplify_eq.
  - split_and!; [|done|congruence].
    apply coll_wf_log, coll_wf_insert; done.
  - split_and!.
    + apply coll_wf_log, coll_wf_insert; [by apply coll_wf_bump|by apply pk_set_pk|].
      intros n. rewrite pk_set_pk by done. intros [= <-]. cbn. lia.
    + intros n. rewrite pk_set_pk by done. intros [= <-]. cbn. lia.
    + by rewrite pk_set_pk.
Qed.

(** Inserting an unsaved document never overwrites a stored one: it is
    filed under a fresh ObjectId. *)
Theorem save_insert_fresh env coll e e' env' coll' :
  coll_wf env coll -> pk e = None ->
  save e (env, coll) = (Ok e', (env', coll')) ->
  exists n, pk e' = Some (KOid n) /\ coll !! KOid n = None /\
            coll' = <[KOid n := e']> coll /\ e' = set_pk n e.
Proof.
  intros Hwf Hk Hsave. unfold save in Hsave.
  destruct (full_clean e) eqn:Hfc; [done|]. destruct (store_up env); [|done].
  rewrite Hk in Hsave. simplify_eq.
  exists (next_oid env). split_and!; [by apply pk_set_pk|by apply coll_wf_fresh|done|done].
Qed.

(** What a call to [save] can do: keep the clock and the server state,
    and either fail with the collection unchanged or file the saved
    object (the argument, possibly with a generated ObjectId) under its
    primary key. *)
Lemma save_effect e env coll r env' coll' :
  save e (env, coll) = (r, (env', coll')) ->
  clock env' = clock env /\ store_up env' = store_up env /\
  (next_oid env <= next_oid env')%N /\
  ((coll' = coll /\ exists x, r = Err x) \/
   (exists k e', r = Ok e' /\ pk e' = Some k /\ coll' = <[k := e']> coll /\
                 (e' = e \/ exists n, e' = set_pk n e))).
Proof.
  unfold save. destruct (full_clean e) eqn:Hfc; [intros [= <- <- <-]; split_and!; eauto; lia|].
  destruct (store_up env) eqn:Hup; [|intros [= <- <- <-]; split_and!; eauto; lia].
  destruct (pk e) as [k|] eqn:Hk; intros [= <- <- <-]; (split_and!; [done|done| |]).
  - cbn. lia.
  - right. eauto 10.
  - cbn. lia.
  - right. exists (KOid (next_oid env)), (set_pk (next_oid env) e).
    split_and!; eauto. by apply pk_set_pk.
Qed.

Lemma coll_wf_next_oid env env' coll :
  (next_oid env <= next_oid env')%N -> coll_wf env coll -> coll_wf env' coll.
Proof.
  intros Hle Hwf. eapply map_Forall_impl; [exact Hwf|]. intros k e [Hk Hn].
  split; [done|]. intros n Hn'. specialize (Hn n Hn'). lia.
Qed.

(** [save] keeps the store invariant, whether it succeeds or fails. *)
Lemma save_wf env coll e r env' coll' :
  coll_wf env coll -> pk_issued env e ->
  save e (env, coll) = (r, (env', coll')) -> coll_wf env' coll'.
Proof.
  intros Hwf Hiss Hsave. destruct r as [e'|x].
  - by destruct (save_preserves_wf _ _ _ _ _ _ Hwf Hiss Hsave).
  - destruct (save_effect _ _ _ _ _ _ Hsave) as (_ & _ & Hle & [[-> _]|(? & ? & ? & _)]); [|done].
    by eapply coll_wf_next_oid.
Qed.
End StoreLemmas.
