(* ===== verification/Entities.v ===== *)
(** * The entities of [src/src/models.py]

    Each pymodm model is a [Module] with its fields as a [Record t] (the
    source's field names, [_id] written [id]), the constructor [new] that
    applies the field defaults ([default=datetime.utcnow], [default=True],
    ...), its field table [fields] (required flags, as declared) and its
    [Document] instance.  Float fields are rationals [Q] (no arithmetic is
    done on them); reference fields hold a [refval]. *)

From S2P Require Import Prelude Store.
From Stdlib Require Import QArith.

(** ** Field declarations and [full_clean] *)

(** [fields.XField(required=..., primary_key=...)] *)
Record field_spec := mkField {
  fname : string;
  required : bool;
  primary_key : bool
}.

(** pymodm's emptiness test ([None], [""], [[]]). *)
Definition is_blank (v : pyval) : bool :=
  match v with
  | PNone => true
  | PStr s => String.eqb s ""
  | PBytes bs => bool_decide (bs = [])
  | _ => false
  end.

Definition ref_blank {E} (r : refval E) : bool :=
  match r with Raw v => is_blank v | Inst _ => false end.

Definition ostr (o : option string) : pyval :=
  match o with Some s => PStr s | None => PNone end.

(** [Model.full_clean()]: the first required (or primary-key) field that
    is blank raises [ValidationError("<field>: field is required.")]. *)
Fixpoint clean_fields (fs : list (field_spec * bool)) : option string :=
  match fs with
  | [] => None
  | (f, blank) :: fs' =>
      if (required f || primary_key f) && blank then Some (fname f) else clean_fields fs'
  end.

(** [ObjectIdField.to_python]: [ObjectId(value)], or the value itself
    when bson refuses it ([except Exception: return value]). *)
Fixpoint bytes_be (bs : list Byte.byte) (acc : N) : N :=
  match bs with
  | [] => acc
  | b :: bs' => bytes_be bs' (acc * 256 + Byte.to_N b)%N
  end.

Definition oid_to_python {E} (v : pyval) : refval E :=
  match v with
  | POid n => Raw (POid n)
  | PStr s => match ObjectId.of_str s with Some n => Raw (POid n) | None => Raw v end
  | PBytes bs => if (length bs =? 12)%nat then Raw (POid (bytes_be bs 0)) else Raw v
  | _ => Raw v
  end.

Lemma oid_to_python_idem {E} v v' :
  @oid_to_python E v = Raw v' -> @oid_to_python E v' = Raw v'.
Proof.
  destruct v as [| | |s|bs|n]; cbn; intros Hv; simplify_eq; try done.
  - destruct (ObjectId.of_str s) eqn:Hs; simplify_eq; cbn; [done|by rewrite Hs].
  - destruct (length bs =? 12)%nat eqn:Hl; simplify_eq; cbn; [done|by rewrite Hl].
Qed.

(** ** Keyword arguments of a model's constructor

    [Model( **kwargs)] sets each declared field from its keyword argument
    and applies the field's default when it is absent; unknown keywords
    are ignored ([ignore_unknown_fields = True]).  Values of a type the
    field does not hold are not modelled: the field keeps its default. *)

Abbreviation kwargs := (gmap string pyval).

Definition kstr (k : string) (kw : kwargs) : option string :=
  match kw !! k with Some (PStr s) => Some s | _ => None end.

Definition kint (k : string) (kw : kwargs) (dflt : option Z) : option Z :=
  match kw !! k with Some (PInt z) => Some z | Some PNone => None | _ => dflt end.

Definition kbool (k : string) (kw : kwargs) (dflt : bool) : bool :=
  match kw !! k with Some (PBool b) => b | _ => dflt end.

Definition kref {E} (k : string) (kw : kwargs) : refval E :=
  match kw !! k with Some v => Raw v | None => Raw PNone end.

Definition ostr_blank (o : option string) : bool := is_blank (ostr o).

(** A field with no value. *)
Definition oblank {A} (o : option A) : bool := match o with Some _ => false | None => true end.

(** ** [User] (models.py 75-96) *)

Module User.
Record t := mk {
  id : option N;
  email : option string;
  first_name : option string;
  password : option string;
  last_name : option string;
  date_created : Z;
  last_updated : Z
}.

(** [User(email=..., first_name=..., last_name=...)]: both timestamps
    default to [datetime.utcnow()]. *)
Definition new (now : Z) (email first_name last_name : option string) : t :=
  mk None email first_name None last_name now now.

Definition fields : list field_spec :=
  [ mkField "email" false false; mkField "first_name" false false;
    mkField "password" false false; mkField "last_name" false false;
    mkField "date_created" true false; mkField "last_updated" true false ].

Definition full_clean (u : t) : option string :=
  clean_fields (zip fields
    [ is_blank (ostr (email u)); is_blank (ostr (first_name u));
      is_blank (ostr (password u)); is_blank (ostr (last_name u)); false; false ]).

Definition with_id (n : N) (u : t) : t :=
  mk (Some n) (email u) (first_name u) (password u) (last_name u)
     (date_created u) (last_updated u).
End User.

#[export] Instance User_Document : Document User.t := {
  collection_name := "user";
  pk u := KOid <$> User.id u;
  set_pk := User.with_id;
  pk_to_python := oid_to_python;
  full_clean := User.full_clean
}.

#[export] Instance User_DocumentOk : DocumentOk User.t.
Proof. split; [done|apply oid_to_python_idem]. Qed.

(** ** [Currency] (models.py 165-170): [code] is the primary key *)

Module Currency.
Record t := mk {
  code : option string;
  name : option string;
  symbol : option string;
  date_created : Z;
  last_updated : Z
}.

Definition new (now : Z) (code name symbol : option string) : t :=
  mk code name symbol now now.

Definition fields : list field_spec :=
  [ mkField "code" false true; mkField "name" false false;
    mkField "symbol" false false; mkField "date_created" true false;
    mkField "last_updated" true false ].

Definition full_clean (c : t) : option string :=
  clean_fields (zip fields
    [ is_blank (ostr (code c)); is_blank (ostr (name c));
      is_blank (ostr (symbol c)); false; false ]).
End Currency.

(** [CharField.to_python] keeps a string as it is. *)
Definition str_to_python {E} (v : pyval) : refval E := Raw v.

#[export] Instance Currency_Document : Document Currency.t := {
  collection_name := "currency";
  pk c := KStr <$> Currency.code c;
  set_pk _ c := c;
  pk_to_python := str_to_python;
  full_clean := Currency.full_clean
}.

#[export] Instance Currency_DocumentOk : DocumentOk Currency.t.
Proof.
  split.
  - intros n [[code|] ? ? ? ?]; cbn; [discriminate|]. unfold Currency.full_clean. cbn.
    discriminate.
  - by intros v v' [= ->].
Qed.

(** ** [Price] (models.py 173-190), an embedded document *)

Module Price.
Record t := mk {
  value : option Q;
  cost_value : option Q;
  selling_value : option Q;
  discount_value : option Q;
  currency : refval Currency.t;
  mrsp_value : option Q;
  profit_margin : option Q
}.

Definition fields : list field_spec :=
  [ mkField "value" true false; mkField "cost_value" false false;
    mkField "selling_value" false false; mkField "discount_value" false false;
    mkField "currency" true false; mkField "mrsp_value" false false;
    mkField "profit_margin" false false ].

Definition full_clean (p : t) : option string :=
  clean_fields (zip fields
    [ oblank (value p); oblank (cost_value p); oblank (selling_value p);
      oblank (discount_value p); ref_blank (currency p); oblank (mrsp_value p);
      oblank (profit_margin p) ]).
End Price.

(** ** [Address] and [Person] (models.py 152-162), embedded documents *)

Module Address.
Record t := mk {
  street : option string;
  street_line_2 : option string;
  state : option string;
  country : option string
}.

Definition fields : list field_spec :=
  [ mkField "street" true false; mkField "street_line_2" false false;
    mkField "state" true false; mkField "country" true false ].

Definition full_clean (a : t) : option string :=
  clean_fields (zip fields
    [ ostr_blank (street a); ostr_blank (street_line_2 a);
      ostr_blank (state a); ostr_blank (country a) ]).
End Address.

Module Person.
Record t := mk { name : option string; email : option string; phone : option string }.

Definition fields : list field_spec :=
  [ mkField "name" true false; mkField "email" true false; mkField "phone" true false ].

Definition full_clean (p : t) : option string :=
  clean_fields (zip fields [ ostr_blank (name p); ostr_blank (email p); ostr_blank (phone p) ]).
End Person.

(** ** [Category] (models.py 193-208) *)

Module Category.
Record t := mk {
  id : option N;
  code : option string;
  name : option string;
  description : option string;
  instance_id : option string;
  entity_id : option string;
  visible : bool;
  eligible : bool;
  relevance : option Z;
  commission : option Q;
  date_created : Z;
  last_updated : Z
}.

(** [visible] and [eligible] default to [True], [commission] to [None]. *)
Definition new (now : Z) (code name description instance_id entity_id : option string) : t :=
  mk None code name description instance_id entity_id true true None None now now.

Definition fields : list field_spec :=
  [ mkField "code" true false; mkField "name" true false;
    mkField "description" false false; mkField "instance_id" true false ].

Definition full_clean (c : t) : option string :=
  clean_fields (zip fields
    [ ostr_blank (code c); ostr_blank (name c);
      ostr_blank (description c); ostr_blank (instance_id c) ]).
End Category.

#[export] Instance Category_Document : Document Category.t := {
  collection_name := "category";
  pk c := KOid <$> Category.id c;
  set_pk n c := Category.mk (Some n) (Category.code c) (Category.name c) (Category.description c)
                  (Category.instance_id c) (Category.entity_id c) (Category.visible c)
                  (Category.eligible c) (Category.relevance c) (Category.commission c)
                  (Category.date_created c) (Category.last_updated c);
  pk_to_python := oid_to_python;
  full_clean := Category.full_clean
}.

(** ** [SubCategory] (models.py 229-244) *)

Module SubCategory.
Record t := mk {
  id : option N;
  code : option string;
  name : option string;
  description : option string;
  category : refval Category.t;
  instance_id : option string;
  entity_id : option string;
  category_code : option string;
  visible : bool;
  eligible : bool;
  date_created : Z;
  last_updated : Z
}.

Definition fields : list field_spec :=
  [ mkField "code" true false; mkField "name" true false;
    mkField "category" true false; mkField "instance_id" true false ].

Definition full_clean (c : t) : option string :=
  clean_fields (zip fields
    [ ostr_blank (code c); ostr_blank (name c); ref_blank (category c); ostr_blank (instance_id c) ]).
End SubCategory.

#[export] Instance SubCategory_Document : Document SubCategory.t := {
  collection_name := "sub_category";
  pk c := KOid <$> SubCategory.id c;
  set_pk n c := SubCategory.mk (Some n) (SubCategory.code c) (SubCategory.name c)
                  (SubCategory.description c) (SubCategory.category c) (SubCategory.instance_id c)
                  (SubCategory.entity_id c) (SubCategory.category_code c) (SubCategory.visible c)
                  (SubCategory.eligible c) (SubCategory.date_created c) (SubCategory.last_updated c);
  pk_to_python := oid_to_python;
  full_clean := SubCategory.full_clean
}.

(** ** [Country] (models.py 247-255): [code] is the primary key *)

Module Country.
Record t := mk {
  code : option string;
  name : option string;
  slug : option string;
  phone_code : bool;
  enabled : bool;
  requires_post_code : bool;
  date_created : Z;
  last_updated : Z
}.

(** The three flags default to [False]. *)
Definition new (now : Z) (code name slug : option string) : t :=
  mk code name slug false false false now now.

Definition fields : list field_spec :=
  [ mkField "code" false true; mkField "name" true false; mkField "slug" false false ].

Definition full_clean (c : t) : option string :=
  clean_fields (zip fields [ ostr_blank (code c); ostr_blank (name c); ostr_blank (slug c) ]).
End Country.

#[export] Instance Country_Document : Document Country.t := {
  collection_name := "country";
  pk c := KStr <$> Country.code c;
  set_pk _ c := c;
  pk_to_python := str_to_python;
  full_clean := Country.full_clean
}.

(** ** [Location] (models.py 258-296) *)

Module Location.
Record t := mk {
  id : option N;
  first_name : option string;
  last_name : option string;
  name : option string;
  phone : option string;
  email : option string;
  city : option string;
  state : option string;
  domain : option string;
  (** the lenient [ReferenceField] of models.py *)
  country : refval Country.t;
  street : option string;
  street_line_2 : option string;
  post_code : option string;
  lat : option Q;
  lng : option Q;
  default : bool;
  user_id : option string;
  (** pymodm's own [fields.ReferenceField], not the lenient one *)
  user : refval User.t;
  date_created : Z;
  last_updated : Z
}.

Definition fields : list field_spec :=
  [ mkField "phone" true false; mkField "user" true false ].

Definition full_clean (l : t) : option string :=
  clean_fields (zip fields [ ostr_blank (phone l); ref_blank (user l) ]).
End Location.

#[export] Instance Location_Document : Document Location.t := {
  collection_name := "location";
  pk l := KOid <$> Location.id l;
  set_pk n l := Location.mk (Some n) (Location.first_name l) (Location.last_name l) (Location.name l)
                  (Location.phone l) (Location.email l) (Location.city l) (Location.state l)
                  (Location.domain l) (Location.country l) (Location.street l)
                  (Location.street_line_2 l) (Location.post_code l) (Location.lat l) (Location.lng l)
                  (Location.default l) (Location.user_id l) (Location.user l)
                  (Location.date_created l) (Location.last_updated l);
  pk_to_python := oid_to_python;
  full_clean := Location.full_clean
}.

(** ** [ProductStat] (models.py 307-316), embedded *)

Module ProductStat.
Record t := mk {
  units_sold : option Z;
  total_amount : option Q;
  likes : option Z;
  views : option Z;
  first_sale_date : Z;
  last_sale_date : Z
}.

(** Both dates default to [datetime.utcnow()]. *)
Definition new (now : Z) : t := mk None None None None now now.
End ProductStat.

(** ** [EmbeddedAttribute] (models.py 319-340), embedded *)

Module EmbeddedAttribute.
Record t := mk {
  name : option string;
  code : option string;
  category : refval Category.t;
  sub_category : refval SubCategory.t;
  values : list pyval;
  instance_id : option string;
  date_created : Z;
  last_updated : Z
}.

Definition fields : list field_spec :=
  [ mkField "name" true false; mkField "category" true false; mkField "instance_id" true false ].

Definition full_clean (a : t) : option string :=
  clean_fields (zip fields [ ostr_blank (name a); ref_blank (category a); ostr_blank (instance_id a) ]).
End EmbeddedAttribute.

(** ** [ProductVariant] (models.py 343-386), embedded *)

Module ProductVariant.
Record t := mk {
  id : option string;
  name : option string;
  sku : option string;
  prices : list Price.t;
  quantity : option Z;
  attributes : list pyval;
  available : option bool;
  default_currency : refval Currency.t
}.

Definition fields : list field_spec := [ mkField "quantity" true false ].

Definition full_clean (v : t) : option string :=
  match clean_fields (zip fields [ oblank (quantity v) ]) with
  | Some f => Some f
  | None => foldr (fun p acc => match Price.full_clean p with Some f => Some f | None => acc end)
                  None (prices v)
  end.

(** [str(x)] of an optional string: [str(None)] is ["None"]. *)
Definition py_str (o : option string) : string := match o with Some s => s | None => "None" end.

(** The right operand of [==]: another variant or any other value. *)
Inductive operand := OVariant (w : t) | OValue (v : pyval).

Section Eq.
(** Python's [hash] on the [sku] field ([str] or [None]). *)
Variable py_hash : option string -> Z.

(** [ProductVariant.__hash__] (364-366) *)
Definition __hash__ (v : t) : Z := py_hash (sku v).

(** [ProductVariant.__eq__] (368-377): [None] is the implicit [return
    None] when no branch applies. *)
Definition __eq__ (v : t) (other : operand) : option bool :=
  match other with
  | OVariant w => Some (bool_decide (__hash__ v = __hash__ w))
  | OValue (PStr s) => Some (String.eqb (py_str (sku v)) s)
  | OValue (PBytes _) => Some false
  | OValue _ => None
  end.
End Eq.

(** [ProductVariant.pk] (379-386) *)
Definition pk (v : t) : option string := id v.
End ProductVariant.

(** ** [Product] (models.py 400-425) *)

Module Product.
Record t := mk {
  id : option N;
  name : option string;
  sku : option string;
  code : option string;
  description : option string;
  caption : option string;
  category : refval Category.t;
  sub_category : refval SubCategory.t;
  discount_price : option Price.t;
  images : list pyval;
  price : option Price.t;
  location : refval Location.t;
  quantity : option Z;
  unlimited_stock : bool;
  (** pymodm's own [fields.ReferenceField] *)
  user : refval User.t;
  tags : list string;
  attributes : list EmbeddedAttribute.t;
  variants : list ProductVariant.t;
  options : list pyval;
  stats : option ProductStat.t;
  allow_modification : option bool;
  visible : bool;
  has_variations : bool;
  supplier : list (string * pyval);
  date_created : Z;
  last_updated : Z
}.

(** [Product( **kwargs)] at UTC time [now]: [quantity] defaults to 1,
    [unlimited_stock] and [has_variations] to [False], [visible] to
    [True], [tags] to [[]], the timestamps to [now].  Embedded documents
    and lists are not read from keyword arguments. *)
Definition from_kwargs (now : Z) (kw : kwargs) : t :=
  mk None (kstr "name" kw) (kstr "sku" kw) (kstr "code" kw) (kstr "description" kw)
     (kstr "caption" kw) (kref "category" kw) (kref "sub_category" kw) None [] None
     (kref "location" kw) (kint "quantity" kw (Some 1%Z)) (kbool "unlimited_stock" kw false)
     (kref "user" kw) [] [] [] [] None
     (match kw !! "allow_modification" with Some (PBool b) => Some b | _ => None end)
     (kbool "visible" kw true) (kbool "has_variations" kw false) [] now now.

Definition fields : list field_spec :=
  [ mkField "name" true false; mkField "quantity" true false; mkField "user" true false ].

Definition first_error (l : list (option string)) : option string :=
  foldr (fun o acc => match o with Some f => Some f | None => acc end) None l.

(** Required fields first, then the embedded documents. *)
Definition full_clean (p : t) : option string :=
  first_error
    (clean_fields (zip fields [ ostr_blank (name p); oblank (quantity p);
                                ref_blank (user p) ]) ::
     (match discount_price p with Some d => Price.full_clean d | None => None end) ::
     (match price p with Some d => Price.full_clean d | None => None end) ::
     (EmbeddedAttribute.full_clean <$> attributes p) ++
     (ProductVariant.full_clean <$> variants p)).

Definition with_id (n : N) (p : t) : t :=
  mk (Some n) (name p) (sku p) (code p) (description p) (caption p) (category p) (sub_category p)
     (discount_price p) (images p) (price p) (location p) (quantity p) (unlimited_stock p) (user p)
     (tags p) (attributes p) (variants p) (options p) (stats p) (allow_modification p) (visible p)
     (has_variations p) (supplier p) (date_created p) (last_updated p).

Definition with_last_updated (t0 : Z) (p : t) : t :=
  mk (id p) (name p) (sku p) (code p) (description p) (caption p) (category p) (sub_category p)
     (discount_price p) (images p) (price p) (location p) (quantity p) (unlimited_stock p) (user p)
     (tags p) (attributes p) (variants p) (options p) (stats p) (allow_modification p) (visible p)
     (has_variations p) (supplier p) (date_created p) t0.
End Product.

#[export] Instance Product_Document : Document Product.t := {
  collection_name := "product";
  pk p := KOid <$> Product.id p;
  set_pk := Product.with_id;
  pk_to_python := oid_to_python;
  full_clean := Product.full_clean
}.

#[export] Instance Product_DocumentOk : DocumentOk Product.t.
Proof. split; [done|apply oid_to_python_idem]. Qed.
