(* ===== verification/Mixin.v ===== *)
(** * [AppMixin.to_dict] and attribute lookup on the model classes

    [AppMixin.to_dict] (models.py 58-72) serialises a model instance with
    [self.to_custom_son(exclude=exclude).to_dict()].  Whether that call
    can run is a question of Python's attribute lookup: an instance's
    attribute is one of its declared fields, a method or property of its
    class body, of [AppMixin] when the class mixes it in, or of pymodm's
    [MongoModel] / [EmbeddedMongoModel] (their public API: [to_son],
    [full_clean], [save], ...).  [attrs] lists them per class of
    models.py; [getattr] raises [AttributeError] with Python's message for
    any other name. *)

From S2P Require Import Prelude Store Entities.

(** The classes of models.py. *)
Inductive model_class :=
  | CUser | CAddress | CPerson | CCurrency | CPrice | CCategory | CSubCategory
  | CCountry | CLocation | CProductStat | CEmbeddedAttribute | CProductVariant | CProduct.

#[export] Instance model_class_eqdec : EqDecision model_class.
Proof. solve_decision. Defined.

Definition class_name (c : model_class) : string :=
  match c with
  | CUser => "User" | CAddress => "Address" | CPerson => "Person" | CCurrency => "Currency"
  | CPrice => "Price" | CCategory => "Category" | CSubCategory => "SubCategory"
  | CCountry => "Country" | CLocation => "Location" | CProductStat => "ProductStat"
  | CEmbeddedAttribute => "EmbeddedAttribute" | CProductVariant => "ProductVariant"
  | CProduct => "Product"
  end.

(** Whether the class derives from [MongoModel] (else from
    [EmbeddedMongoModel]); every class of models.py is one or the other. *)
Definition is_document (c : model_class) : bool :=
  match c with
  | CUser | CCurrency | CCategory | CSubCategory | CCountry | CLocation | CProduct => true
  | _ => false
  end.

(** [class X(..., AppMixin)]: all but [ProductStat]. *)
Definition has_mixin (c : model_class) : bool :=
  match c with CProductStat => false | _ => true end.

(** The declared fields. *)
Definition declared_fields (c : model_class) : list string :=
  match c with
  | CUser => ["email"; "first_name"; "password"; "last_name"; "date_created"; "last_updated"]
  | CAddress => ["street"; "street_line_2"; "state"; "country"]
  | CPerson => ["name"; "email"; "phone"]
  | CCurrency => ["code"; "name"; "symbol"; "date_created"; "last_updated"]
  | CPrice => ["value"; "cost_value"; "selling_value"; "discount_value"; "currency";
               "mrsp_value"; "profit_margin"]
  | CCategory => ["code"; "name"; "description"; "instance_id"; "entity_id"; "visible";
                  "eligible"; "relevance"; "commission"; "date_created"; "last_updated"]
  | CSubCategory => ["code"; "name"; "description"; "category"; "instance_id"; "entity_id";
                     "category_code"; "visible"; "eligible"; "date_created"; "last_updated"]
  | CCountry => ["code"; "name"; "slug"; "phone_code"; "enabled"; "requires_post_code";
                 "date_created"; "last_updated"]
  | CLocation => ["first_name"; "last_name"; "name"; "phone"; "email"; "city"; "state"; "domain";
                  "country"; "street"; "street_line_2"; "post_code"; "lat"; "lng"; "default";
                  "user_id"; "user"; "date_created"; "last_updated"]
  | CProductStat => ["units_sold"; "total_amount"; "likes"; "views"; "first_sale_date";
                     "last_sale_date"]
  | CEmbeddedAttribute => ["name"; "code"; "category"; "sub_category"; "values"; "instance_id";
                           "date_created"; "last_updated"]
  | CProductVariant => ["id"; "name"; "sku"; "prices"; "quantity"; "attributes"; "available";
                        "default_currency"]
  | CProduct => ["name"; "sku"; "code"; "description"; "caption"; "category"; "sub_category";
                 "discount_price"; "images"; "price"; "location"; "quantity"; "unlimited_stock";
                 "user"; "tags"; "attributes"; "variants"; "options"; "stats";
                 "allow_modification"; "visible"; "has_variations"; "supplier";
                 "date_created"; "last_updated"]
  end.

(** Methods and properties of the class bodies. *)
Definition own_methods (c : model_class) : list string :=
  match c with
  | CUser => ["set_password"; "check_password"; "auth_token"]
  | CCategory => ["sub_categories"; "product_count"]
  | CLocation => ["product_count"]
  | CProductVariant => ["__hash__"; "__eq__"; "pk"; "price"]
  | _ => []
  end.

(** [AppMixin]'s methods. *)
Definition mixin_methods : list string := ["to_dict"].

(** pymodm's public API: [EmbeddedMongoModel] and, for documents,
    [MongoModel]'s persistence methods and manager. *)
Definition pymodm_methods (c : model_class) : list string :=
  ["to_son"; "from_document"; "clean"; "clean_fields"; "full_clean"] ++
  (if is_document c then ["pk"; "save"; "delete"; "refresh_from_db"; "is_valid"; "objects"] else []).

Definition attrs (c : model_class) : list string :=
  declared_fields c ++ own_methods c ++ (if has_mixin c then mixin_methods else []) ++
  pymodm_methods c.

Definition no_such_attr (c : model_class) (name : string) : exn :=
  AttributeError (String.append "'" (String.append (class_name c)
    (String.append "' object has no attribute '" (String.append name "'")))).

(** [getattr(obj, name)] on an instance of [c]: [Ok tt] when found. *)
Definition getattr (c : model_class) (name : string) : res unit :=
  if decide (name ∈ attrs c) then Ok tt else Err (no_such_attr c name).

(** [obj.to_dict(exclude, do_dump)]: the method lookup, then its body.
    Every class is a [MongoModel] or [EmbeddedMongoModel], so the body
    takes its first branch and looks [to_custom_son] up; [custom_son]
    stands for what that call would give, were it found. *)
Definition to_dict (c : model_class) (custom_son : gmap string pyval) : res (gmap string pyval) :=
  match getattr c "to_dict" with
  | Err x => Err x
  | Ok _ => match getattr c "to_custom_son" with
            | Ok _ => Ok custom_son
            | Err x => Err x
            end
  end.

(** ** Theorems *)

Lemma to_custom_son_missing c : "to_custom_son" ∉ attrs c.
Proof. destruct c; vm_compute; set_solver. Qed.

(** C17: [to_dict] never serialises: on an instance of any class of
    models.py that mixes [AppMixin] in it raises [AttributeError] for
    [to_custom_son], which neither the class, [AppMixin] nor pymodm
    defines; on a [ProductStat], which does not mix it in, the call
    itself raises [AttributeError] for [to_dict]. *)
Theorem to_dict_attribute_error c custom_son :
  to_dict c custom_son =
    Err (no_such_attr c (if has_mixin c then "to_custom_son" else "to_dict")).
Proof.
  unfold to_dict, getattr. rewrite (decide_False _ _ (to_custom_son_missing c)).
  destruct c; vm_compute; reflexivity.
Qed.
