(* ===== verification/Reference.v ===== *)
(** * The reference resolver: [ReferenceField.dereference_if_needed]

    [src/src/models.py] lines 27-55.  A reference field holds either the
    raw primary key read from MongoDB or the referenced instance.  On
    access, pymodm calls [dereference_if_needed]:
    - an instance of the related model is returned as it is (41-42);
    - when the owner model auto-dereferences, [dereference_id] fetches the
      target with [raw({"_id": value}).first()], which raises
      [DoesNotExist] on a dangling key (43-45);
    - otherwise the value is coerced by the related model's primary key
      field, counted with [raw({"_id": ...}).count()] and, if present,
      fetched with [.first()]; a dangling key is returned as the coerced
      key, not raised (46-55).

    [resolve_spec] is what the resolver promises (the referenced document
    when there is one, else the coerced key) and [resolve_trips] the round
    trips it makes; [deref_refines] proves the code implements both. *)

From S2P Require Import Prelude Store Entities.
From Stdlib Require Import QArith.

Section Resolver.
Context `{DocumentOk E}.
Implicit Types (coll : gmap pkey E) (e : E) (value : refval E).

(** [pymodm.dereference.dereference_id(related_model, value)] *)
Definition dereference_id coll (v : pyval) : PyM Env E := q_first coll v.

(** [ReferenceField.dereference_if_needed], with the owner model's
    [_mongometa._auto_dereference] flag and the related collection. *)
Definition dereference_if_needed (auto_dereference : bool) coll value
  : PyM Env (refval E) :=
  match value with
  | Inst e => py_ret (Inst e)
  | Raw v =>
      if auto_dereference then
        e <- dereference_id coll v ;; py_ret (Inst e)
      else
        match pk_to_python v with
        | Raw value_stick =>
            check_count <- q_count coll value_stick ;;
            if (check_count <? 1)%nat then py_ret (pk_to_python v)
            else e <- q_first coll value_stick ;; py_ret (Inst e)
        | Inst _ => py_ret (pk_to_python v)
        end
  end.

(** ** The contract of the lenient path *)

(** The value the resolver promises: the referenced document if the
    store has one, else the coerced raw key. *)
Definition resolve_spec coll value : refval E :=
  match value with
  | Inst e => Inst e
  | Raw v =>
      match pk_to_python v with
      | Raw stick => match raw_by_id coll stick with e :: _ => Inst e | [] => Raw stick end
      | Inst e => Inst e
      end
  end.

(** The round trips it makes: a count, and a find when the count is
    not zero. *)
Definition resolve_trips coll value : list trip :=
  match value with
  | Inst _ => []
  | Raw v =>
      match pk_to_python v with
      | Raw stick =>
          TCount collection_name stick ::
          match raw_by_id coll stick with [] => [] | _ :: _ => [TFind collection_name stick] end
      | Inst _ => []
      end
  end.
End Resolver.

Definition log_trips (ts : list trip) (env : Env) : Env := foldl (flip log_trip) env ts.

(** Logging round trips only appends them to [trips]. *)
Lemma log_trips_eq ts env :
  log_trips ts env = mkEnv (clock env) (tz_offset env) (store_up env) (next_oid env)
                           (salt_seed env) (trips env ++ ts).
Proof.
  revert env. induction ts as [|t ts IH]; intros env; [destruct env; cbn; by rewrite app_nil_r|].
  change (log_trips (t :: ts) env) with (log_trips ts (log_trip t env)).
  rewrite IH. cbn. by rewrite <- app_assoc.
Qed.

Lemma log_trips_trips ts env : trips (log_trips ts env) = trips env ++ ts.
Proof. by rewrite log_trips_eq. Qed.

Lemma log_trips_store_up ts env : store_up (log_trips ts env) = store_up env.
Proof. by rewrite log_trips_eq. Qed.

Lemma log_trips_clock ts env : clock (log_trips ts env) = clock env.
Proof. by rewrite log_trips_eq. Qed.

Lemma log_trips_next_oid ts env : next_oid (log_trips ts env) = next_oid env.
Proof. by rewrite log_trips_eq. Qed.

Lemma log_trips_app ts1 ts2 env : log_trips ts2 (log_trips ts1 env) = log_trips (ts1 ++ ts2) env.
Proof. unfold log_trips. by rewrite foldl_app. Qed.

#[export] Hint Rewrite log_trips_store_up log_trips_clock log_trips_next_oid log_trips_app : pyrun.

Ltac unfold_store := unfold dereference_id, q_first, q_count, store_call, py_bind in *.

Section ResolverTheorems.
Context `{DocumentOk E}.
Implicit Types (coll : gmap pkey E) (e : E) (value : refval E).

(** With the store up, the lenient path answers [resolve_spec] and its
    only effect is to append [resolve_trips] to the log. *)
Lemma deref_lenient_run coll value env :
  store_up env = true ->
  dereference_if_needed false coll value env =
    (Ok (resolve_spec coll value), log_trips (resolve_trips coll value) env).
Proof.
  intros Hup. destruct value as [v|e]; [|done].
  unfold dereference_if_needed, resolve_spec, resolve_trips.
  destruct (pk_to_python v) as [stick|e] eqn:Hp; [|done].
  unfold_store. rewrite Hup.
  destruct (raw_by_id coll stick) as [|e l]; cbn; [done|].
  by rewrite Hup.
Qed.

(** C1: The lenient path implements its contract on every branch: it
    returns [resolve_spec] (the referenced document, or the coerced key
    when there is none) after the round trips [resolve_trips]; when the
    store is down it raises [PersistenceError], with nothing logged,
    exactly when it needs a round trip. *)
Theorem deref_refines coll value env :
  dereference_if_needed false coll value env =
    if store_up env || bool_decide (resolve_trips coll value = []) then
      (Ok (resolve_spec coll value), log_trips (resolve_trips coll value) env)
    else (Err PersistenceError, env).
Proof.
  destruct (store_up env) eqn:Hup; [by apply deref_lenient_run|].
  destruct value as [v|e]; [|done]. cbn.
  unfold dereference_if_needed, resolve_spec, resolve_trips.
  destruct (pk_to_python v) as [stick|e]; [|done].
  rewrite bool_decide_false by done. unfold_store. by rewrite Hup.
Qed.

Lemma resolve_spec_idem coll value :
  resolve_spec coll (resolve_spec coll value) = resolve_spec coll value.
Proof.
  destruct value as [v|e]; [|done]. unfold resolve_spec.
  destruct (pk_to_python v) as [stick|e] eqn:Hp; [|done].
  destruct (raw_by_id coll stick) as [|e l] eqn:Hr; [|done].
  by rewrite (pk_to_python_idem _ _ Hp), Hr.
Qed.

(** C3: Resolution is idempotent: with the store up,
    resolving the value a first resolution returned gives that value
    back, whether it was a document or a dangling key. *)
Theorem deref_idempotent coll value env r env' :
  store_up env = true ->
  dereference_if_needed false coll value env = (Ok r, env') ->
  dereference_if_needed false coll r env' = (Ok r, log_trips (resolve_trips coll r) env').
Proof.
  intros Hup Hd. rewrite deref_lenient_run in Hd by done. simplify_eq.
  rewrite deref_lenient_run by (by rewrite log_trips_store_up).
  by rewrite resolve_spec_idem.
Qed.

(** An already materialised reference is returned as the
    same instance, with no round trip, whatever the auto-dereference flag
    and even when the store is down. *)
Lemma deref_instance auto coll e env :
  dereference_if_needed auto coll (Inst e) env = (Ok (Inst e), env) /\
  resolve_trips coll (Inst e) = [].
Proof. done. Qed.

(** C2: A dangling reference does not raise: the
    resolver answers the coerced key after one count round trip. *)
Theorem deref_dangling_lenient coll v stick env :
  store_up env = true -> pk_to_python v = Raw stick -> raw_by_id coll stick = [] ->
  dereference_if_needed false coll (Raw v) env =
    (Ok (Raw stick), log_trip (TCount collection_name stick) env).
Proof.
  intros Hup Hp Hr. rewrite deref_lenient_run by done.
  unfold resolve_spec, resolve_trips. by rewrite Hp, Hr.
Qed.

(** C23: A key with a target resolves to that
    target, and costs two round trips ([count()] then [first()]). *)
Theorem deref_found_two_trips coll v stick k e env :
  store_up env = true -> pk_to_python v = Raw stick ->
  pkey_of_pyval stick = Some k -> coll !! k = Some e ->
  dereference_if_needed false coll (Raw v) env =
    (Ok (Inst e), log_trips [TCount collection_name stick; TFind collection_name stick] env).
Proof.
  intros Hup Hp Hk He. rewrite deref_lenient_run by done.
  unfold resolve_spec, resolve_trips, raw_by_id. by rewrite Hp, Hk, He.
Qed.

(** C25: The lenient path raises nothing but
    [PersistenceError], only when the store is down, and then leaves the
    environment as it was. *)
Theorem deref_lenient_errors coll value env x env' :
  dereference_if_needed false coll value env = (Err x, env') ->
  x = PersistenceError /\ store_up env = false /\ env' = env.
Proof.
  destruct (store_up env) eqn:Hup.
  { rewrite deref_lenient_run by done. discriminate. }
  destruct value as [v|e]; [|done]. unfold dereference_if_needed.
  destruct (pk_to_python v); [|done].
  unfold_store. rewrite Hup. by intros [= <- <-].
Qed.

(** C24: With auto-dereferencing on, the resolver makes
    one [first()] round trip and raises [DoesNotExist] on a dangling key:
    the leniency holds only with auto-dereferencing off. *)
Theorem deref_auto_spec coll v env :
  store_up env = true ->
  dereference_if_needed true coll (Raw v) env =
    (match raw_by_id coll v with e :: _ => Ok (Inst e) | [] => Err DoesNotExist end,
     log_trip (TFind collection_name v) env).
Proof.
  intros Hup. unfold dereference_if_needed. unfold_store. rewrite Hup.
  by destruct (raw_by_id coll v).
Qed.

Lemma resolve_trips_length coll value : (length (resolve_trips coll value) <= 2)%nat.
Proof.
  destruct value as [v|e]; cbn; [|lia].
  destruct (pk_to_python v); cbn; [|lia]. destruct (raw_by_id coll _); cbn; lia.
Qed.

(** C18: Resolution only reads, and boundedly: its sole effect is to log
    at most two round trips ([count()] and [first()]), one with
    auto-dereferencing; the spec's bound of one round trip per unresolved
    access holds only for the auto-dereferencing path. *)
Theorem deref_trips_bound auto coll value env :
  exists ts, snd (dereference_if_needed auto coll value env) = log_trips ts env /\
             (length ts <= if auto then 1 else 2)%nat.
Proof.
  destruct (store_up env) eqn:Hup.
  - destruct auto.
    + destruct value as [v|e]; [|exists []; cbn; split; [done|lia]].
      unfold dereference_if_needed. unfold_store. rewrite Hup.
      exists [TFind collection_name v]. split; [by destruct (raw_by_id coll v)|cbn; lia].
    + rewrite deref_lenient_run by done. eexists. split; [done|apply resolve_trips_length].
  - exists []. split; [|cbn; lia]. destruct value as [v|e]; [|done]. unfold dereference_if_needed.
    destruct auto; [unfold_store; by rewrite Hup|].
    destruct (pk_to_python v); [|done]. unfold_store. by rewrite Hup.
Qed.
End ResolverTheorems.

(** ** The resolver on concrete data *)

Module ResolverExamples.
Definition env0 : Env := mkEnv 0 0 true 0 0 [].
Definition env_down : Env := mkEnv 0 0 false 0 0 [].
Definition usd : Currency.t := Currency.new 100 (Some "USD") (Some "US Dollar") (Some "$").
Definition no_currency : gmap pkey Currency.t := ∅.
Definition with_usd : gmap pkey Currency.t := <[KStr "USD" := usd]> ∅.
Definition usd_price : Price.t := Price.mk (Some 10%Q) None None None (Raw (PStr "USD")) None None.

(** A [Price] whose currency key is ["USD"]
    resolves to ["USD"] itself while no such [Currency] exists, and to
    the saved [Currency] once [save] has stored it. *)
Example price_currency_scenario :
  dereference_if_needed false no_currency (Price.currency usd_price) env0 =
    (Ok (Raw (PStr "USD")), log_trip (TCount "currency" (PStr "USD")) env0) /\
  match save usd (env0, no_currency) with
  | (Ok c, (env1, coll1)) =>
      fst (dereference_if_needed false coll1 (Price.currency usd_price) env1) = Ok (Inst c)
  | _ => False
  end.
Proof. split; vm_compute; reflexivity. Qed.

Lemma deref_idempotent_witness :
  dereference_if_needed false with_usd (Inst usd) (log_trips [TCount "currency" (PStr "USD"); TFind "currency" (PStr "USD")] env0) =
    (Ok (Inst usd), log_trips (resolve_trips with_usd (Inst usd))
                       (log_trips [TCount "currency" (PStr "USD"); TFind "currency" (PStr "USD")] env0)).
Proof. apply (deref_idempotent with_usd (Raw (PStr "USD")) env0); reflexivity. Defined.

Lemma deref_dangling_lenient_witness :
  dereference_if_needed false no_currency (Raw (PStr "USD")) env0 =
    (Ok (Raw (PStr "USD")), log_trip (TCount "currency" (PStr "USD")) env0).
Proof.
  refine (deref_dangling_lenient (E:=Currency.t) no_currency (PStr "USD") (PStr "USD") env0 _ _ _);
    reflexivity.
Defined.

Lemma deref_found_two_trips_witness :
  dereference_if_needed false with_usd (Raw (PStr "USD")) env0 =
    (Ok (Inst usd), log_trips [TCount "currency" (PStr "USD"); TFind "currency" (PStr "USD")] env0).
Proof.
  refine (deref_found_two_trips (E:=Currency.t) with_usd (PStr "USD") (PStr "USD") (KStr "USD")
            usd env0 _ _ _ _);
    reflexivity.
Defined.

Lemma deref_lenient_errors_witness :
  PersistenceError = PersistenceError /\ store_up env_down = false /\ env_down = env_down.
Proof. apply (deref_lenient_errors no_currency (Raw (PStr "USD")) env_down). reflexivity. Defined.

Lemma deref_auto_spec_witness :
  dereference_if_needed true no_currency (Raw (PStr "USD")) env0 =
    (Err DoesNotExist, log_trip (TFind "currency" (PStr "USD")) env0).
Proof. refine (deref_auto_spec (E:=Currency.t) no_currency (PStr "USD") env0 _). reflexivity. Defined.
End ResolverExamples.
