(* ===== verification/Variant.v ===== *)
(** * [ProductVariant.price] and [ProductVariant.__eq__]

    [ProductVariant.price] (models.py 388-397) reads the variant's
    [default_currency] reference, walks its [prices] and returns the first
    one whose currency has the same [code]; when none has, it returns
    [self.price], which calls itself again.  Every reference read goes
    through pymodm's [ReferenceField.__get__], which hands a blank stored
    value back as it is and resolves any other with
    [dereference_if_needed] (Reference.v).  The recursion is modelled with
    the interpreter's remaining recursion budget [depth]: at [0] Python
    raises [RecursionError].

    [__eq__] (368-377) compares two variants by the hash of their [sku],
    and a variant with a text by [str(self.sku)]. *)

From S2P Require Import Prelude Store Entities Reference.
From Stdlib Require Import QArith.

(** ** Attribute access on a resolved reference *)

(** [type(v).__name__] of a raw value. *)
Definition py_type_name (v : pyval) : string :=
  match v with
  | PNone => "NoneType" | PBool _ => "bool" | PInt _ => "int"
  | PStr _ => "str" | PBytes _ => "bytes" | POid _ => "ObjectId"
  end.

Definition no_attribute (v : pyval) (attr : string) : exn :=
  AttributeError (String.append "'" (String.append (py_type_name v)
    (String.append "' object has no attribute '" (String.append attr "'")))).

(** pymodm's [ReferenceField.__get__]: a blank value ([None]) is returned
    as it is; any other stored value is resolved. *)
Definition get_ref `{DocumentOk E} (auto : bool) (coll : gmap pkey E) (r : refval E)
  : PyM Env (refval E) :=
  if ref_blank r then py_ret r else dereference_if_needed auto coll r.

(** [x.code] on what a [Currency] reference resolved to: a [Currency] has
    one; a raw key (the lenient answer) or [None] raises [AttributeError]. *)
Definition currency_code (r : refval Currency.t) : res (option string) :=
  match r with
  | Inst c => Ok (Currency.code c)
  | Raw v => Err (no_attribute v "code")
  end.

Definition py_res {S A} (r : res A) : PyM S A :=
  match r with Ok a => py_ret a | Err x => py_raise x end.

(** ** [ProductVariant.price] *)

Section Price.
Context (auto : bool) (currencies : gmap pkey Currency.t).

(** The [for] loop of lines 393-395, with the already read
    [default_currency]: [None] when it runs to its end. *)
Fixpoint price_loop (dc : refval Currency.t) (ps : list Price.t)
  : PyM Env (option Price.t) :=
  match ps with
  | [] => py_ret None
  | p :: ps' =>
      cur <- get_ref auto currencies (Price.currency p) ;;
      c1 <- py_res (currency_code cur) ;;
      c2 <- py_res (currency_code dc) ;;
      if bool_decide (c1 = c2) then py_ret (Some p) else price_loop dc ps'
  end.

(** The property itself; [depth] is the recursion budget left. *)
Fixpoint price (depth : nat) (v : ProductVariant.t) : PyM Env Price.t :=
  match depth with
  | O => py_raise RecursionError
  | S d =>
      dc <- get_ref auto currencies (ProductVariant.default_currency v) ;;
      r <- price_loop dc (ProductVariant.prices v) ;;
      match r with Some p => py_ret p | None => price d v end
  end.
End Price.

(** ** What [price] answers, with the store up and auto-dereferencing off *)

Section PriceSpec.
Context (currencies : gmap pkey Currency.t).

(** What a reference read gives: [resolve_spec] of a non-blank value. *)
Definition read_ref (r : refval Currency.t) : refval Currency.t :=
  if ref_blank r then r else resolve_spec currencies r.

Definition read_trips (r : refval Currency.t) : list trip :=
  if ref_blank r then [] else resolve_trips currencies r.

Fixpoint price_loop_spec (dc : refval Currency.t) (ps : list Price.t) : res (option Price.t) :=
  match ps with
  | [] => Ok None
  | p :: ps' =>
      match currency_code (read_ref (Price.currency p)), currency_code dc with
      | Err x, _ | Ok _, Err x => Err x
      | Ok c1, Ok c2 => if bool_decide (c1 = c2) then Ok (Some p) else price_loop_spec dc ps'
      end
  end.

(** The first price in the default currency; an exception of the loop;
    or, when the loop finds nothing, the [RecursionError] the unbounded
    recursion ends in. *)
Definition price_spec (v : ProductVariant.t) : res Price.t :=
  match price_loop_spec (read_ref (ProductVariant.default_currency v)) (ProductVariant.prices v) with
  | Ok (Some p) => Ok p
  | Ok None => Err RecursionError
  | Err x => Err x
  end.
(** The reference search: a price whose currency resolves to a
    [Currency] with [c]'s code. *)
Definition in_currency (c : Currency.t) (p : Price.t) : bool :=
  match read_ref (Price.currency p) with
  | Inst c' => bool_decide (Currency.code c' = Currency.code c)
  | Raw _ => false
  end.
End PriceSpec.

(** ** [price] implements [price_spec] *)

Section PriceTheorems.
Context (currencies : gmap pkey Currency.t).
Implicit Types (env : Env) (r dc : refval Currency.t) (ps : list Price.t) (v : ProductVariant.t).

Lemma py_res_run {S A} (x : res A) (s : S) : py_res x s = (x, s).
Proof. by destruct x. Qed.

Lemma get_ref_run r env :
  store_up env = true ->
  get_ref false currencies r env = (Ok (read_ref currencies r), log_trips (read_trips currencies r) env).
Proof.
  intros Hup. unfold get_ref, read_ref, read_trips.
  destruct (ref_blank r); [done|]. by apply deref_lenient_run.
Qed.

(** The loop reads the references it needs and answers [price_loop_spec];
    its only effect is to log round trips. *)
Lemma price_loop_run dc ps env :
  store_up env = true ->
  exists ts, price_loop false currencies dc ps env = (price_loop_spec currencies dc ps, log_trips ts env).
Proof.
  revert env. induction ps as [|p ps IH]; intros env Hup; [by exists []|].
  cbn [price_loop price_loop_spec]. unfold py_bind at 1. rewrite get_ref_run by done.
  unfold py_bind. rewrite !py_res_run.
  destruct (currency_code (read_ref currencies (Price.currency p))) as [c1|x];
    [|by exists (read_trips currencies (Price.currency p))].
  destruct (currency_code dc) as [c2|x]; [|by exists (read_trips currencies (Price.currency p))].
  case_bool_decide; [by exists (read_trips currencies (Price.currency p))|].
  destruct (IH (log_trips (read_trips currencies (Price.currency p)) env)) as [ts Hts];
    [by rewrite log_trips_store_up|].
  rewrite Hts, log_trips_app. eauto.
Qed.

(** One call of [price]: the loop, then the recursive call if needed. *)
Lemma price_unfold d v env :
  store_up env = true ->
  exists ts, price false currencies (S d) v env =
    match price_loop_spec currencies (read_ref currencies (ProductVariant.default_currency v))
            (ProductVariant.prices v) with
    | Ok (Some p) => (Ok p, log_trips ts env)
    | Ok None => price false currencies d v (log_trips ts env)
    | Err x => (Err x, log_trips ts env)
    end.
Proof.
  intros Hup. cbn [price]. unfold py_bind at 1. rewrite get_ref_run by done. unfold py_bind.
  destruct (price_loop_run (read_ref currencies (ProductVariant.default_currency v))
              (ProductVariant.prices v) (log_trips (read_trips currencies (ProductVariant.default_currency v)) env))
    as [ts Hts]; [by rewrite log_trips_store_up|].
  rewrite Hts, log_trips_app. eexists. by destruct (price_loop_spec _ _ _) as [[p|]|x].
Qed.

(** [price] with some recursion budget left answers [price_spec], with
    no effect but logged round trips. *)
Lemma price_run d v env :
  store_up env = true ->
  exists ts, price false currencies (S d) v env = (price_spec currencies v, log_trips ts env).
Proof.
  revert env. induction d as [|d IH]; intros env Hup;
    [destruct (price_unfold 0 v env Hup) as [ts ->]|destruct (price_unfold (S d) v env Hup) as [ts ->]];
    unfold price_spec; destruct (price_loop_spec _ _ _) as [[p|]|x] eqn:Hl; eauto.
  destruct (IH (log_trips ts env)) as [ts' Hts']; [by rewrite log_trips_store_up|].
  unfold price_spec in Hts'. rewrite Hl in Hts'. rewrite Hts', log_trips_app. eauto.
Qed.

(** The loop returns the first price in [dc]'s currency, past prices whose
    currency resolves to another [Currency]. *)
Lemma price_loop_spec_found dc c ps1 p c' ps2 :
  dc = Inst c ->
  Forall (fun q => exists cq, read_ref currencies (Price.currency q) = Inst cq /\
                              Currency.code cq <> Currency.code c) ps1 ->
  read_ref currencies (Price.currency p) = Inst c' -> Currency.code c' = Currency.code c ->
  price_loop_spec currencies dc (ps1 ++ p :: ps2) = Ok (Some p).
Proof.
  intros -> Hps1 Hp Hc. induction Hps1 as [|q ps1 (cq & Hq & Hne) _ IH]; cbn.
  - rewrite Hp. cbn [currency_code]. by rewrite bool_decide_true.
  - rewrite Hq. cbn [currency_code]. by rewrite bool_decide_false.
Qed.

(** C11: [ProductVariant.price] on every branch: with the store up and
    auto-dereferencing off, it answers [price_spec] (the first price in
    the default currency, the [AttributeError] of a [.code] on an
    unresolved currency, or [RecursionError] when no price matches), and
    its only effect is to log round trips; with no recursion budget left
    Python raises [RecursionError] at the call. *)
Theorem price_refines depth v env :
  store_up env = true ->
  exists ts, price false currencies depth v env =
    (match depth with O => Err RecursionError | S _ => price_spec currencies v end, log_trips ts env).
Proof. intros Hup. destruct depth as [|d]; [by exists []|]. by apply price_run. Qed.

(** C12: When no price of the variant is in its default currency (in
    particular when it has no prices), [price] never returns: whatever
    the recursion budget, the [return self.price] of line 397 recurses
    until Python raises [RecursionError]. *)
Theorem price_no_match_recursion depth v env :
  store_up env = true ->
  price_loop_spec currencies (read_ref currencies (ProductVariant.default_currency v))
    (ProductVariant.prices v) = Ok None ->
  fst (price false currencies depth v env) = Err RecursionError.
Proof.
  intros Hup Hnone. destruct depth as [|d]; [done|].
  destruct (price_run d v env Hup) as [ts ->]. unfold price_spec. by rewrite Hnone.
Qed.

(** A variant whose default currency resolves to a [Currency] gets
    the first of its prices whose currency resolves to a [Currency] with
    the same [code], provided the prices before it resolve to currencies
    with other codes. *)
Lemma price_found d v env c ps1 p c' ps2 :
  store_up env = true ->
  read_ref currencies (ProductVariant.default_currency v) = Inst c ->
  ProductVariant.prices v = ps1 ++ p :: ps2 ->
  Forall (fun q => exists cq, read_ref currencies (Price.currency q) = Inst cq /\
                              Currency.code cq <> Currency.code c) ps1 ->
  read_ref currencies (Price.currency p) = Inst c' -> Currency.code c' = Currency.code c ->
  fst (price false currencies (S d) v env) = Ok p.
Proof.
  intros Hup Hdc Hps Hps1 Hp Hc. destruct (price_run d v env Hup) as [ts ->].
  unfold price_spec. rewrite Hdc, Hps. by rewrite (price_loop_spec_found _ c ps1 p c' ps2).
Qed.

(** C35: The resolver's leniency reaches [price]: when the first price's
    currency key names no [Currency], the reference reads back as the key
    itself, a [str], and [price.currency.code] raises [AttributeError]. *)
Theorem price_dangling_currency d v env p ps s :
  store_up env = true ->
  ProductVariant.prices v = p :: ps -> Price.currency p = Raw (PStr s) ->
  currencies !! KStr s = None -> s <> "" ->
  fst (price false currencies (S d) v env) =
    Err (AttributeError "'str' object has no attribute 'code'").
Proof.
  intros Hup Hps Hp Hnone Hs. destruct (price_run d v env Hup) as [ts ->].
  unfold price_spec. rewrite Hps. cbn. unfold read_ref at 1. rewrite Hp. cbn.
  rewrite (proj2 (String.eqb_neq s "") Hs). cbn. by rewrite Hnone.
Qed.
(** When every price's currency resolves, the contract of the loop is
    [List.find] of the first price in the given currency's code. *)
Lemma price_loop_spec_find c ps :
  Forall (fun p => exists c', read_ref currencies (Price.currency p) = Inst c') ps ->
  price_loop_spec currencies (Inst c) ps = Ok (List.find (in_currency currencies c) ps).
Proof.
  induction 1 as [|p ps (c' & Hp) _ IH]; [done|]. cbn. unfold in_currency at 1.
  rewrite Hp. cbn [currency_code]. by case_bool_decide.
Qed.

(** C19: The [for] loop of [ProductVariant.price] (models.py 393-395),
    run with the store up on a resolved default currency [c] and prices
    whose currencies all resolve, returns [List.find] of the first price
    whose currency has [c]'s code ([None] when there is none), and only
    logs its round trips. *)
Theorem price_loop_find c ps env :
  store_up env = true ->
  Forall (fun p => exists c', read_ref currencies (Price.currency p) = Inst c') ps ->
  exists ts, price_loop false currencies (Inst c) ps env =
               (Ok (List.find (in_currency currencies c) ps), log_trips ts env).
Proof.
  intros Hup Hps. destruct (price_loop_run (Inst c) ps env Hup) as [ts ->].
  exists ts. by rewrite price_loop_spec_find.
Qed.
End PriceTheorems.

(** ** [ProductVariant.__eq__] *)

(** C39: [variant == s] for a [str] [s] is
    [str(self.sku) == s]: true exactly when the [sku] is [s], or when the
    variant has no [sku] and [s] is the text ["None"]; [variant == b]
    for [bytes] [b] is always [False], since a [str] never equals
    [bytes] in Python 3, even when they spell the same [sku]. *)
Theorem variant_eq_text (py_hash : option string -> Z) v s bs :
  ProductVariant.__eq__ py_hash v (ProductVariant.OValue (PStr s)) =
    Some (bool_decide (ProductVariant.sku v = Some s \/ (ProductVariant.sku v = None /\ s = "None"))) /\
  ProductVariant.__eq__ py_hash v (ProductVariant.OValue (PBytes bs)) = Some false.
Proof.
  split; [|done]. unfold ProductVariant.__eq__, ProductVariant.py_str. f_equal.
  destruct (ProductVariant.sku v) as [s'|]; case_bool_decide; [apply String.eqb_eq|apply String.eqb_neq|apply String.eqb_eq|apply String.eqb_neq];
    naive_solver.
Qed.

(** ** The property on concrete data *)

Module VariantExamples.
Definition env0 : Env := mkEnv 0 0 true 0 0 [].
Definition usd : Currency.t := Currency.new 0 (Some "USD") (Some "US Dollar") (Some "$").
Definition currencies : gmap pkey Currency.t := <[KStr "USD" := usd]> ∅.
Definition price_in (code : string) (value : Q) : Price.t :=
  Price.mk (Some value) None None None (Raw (PStr code)) None None.
Definition variant (dc : refval Currency.t) (ps : list Price.t) : ProductVariant.t :=
  ProductVariant.mk (Some "v1") (Some "44-red") (Some "sku-001") ps (Some 3%Z) [] None dc.

(** Python's default recursion limit. *)
Definition recursion_limit : nat := 1000.

Definition in_usd : ProductVariant.t := variant (Raw (PStr "USD")) [price_in "USD" 10%Q].
Definition unpriced : ProductVariant.t := variant (Raw (PStr "USD")) [].
Definition in_eur : ProductVariant.t := variant (Raw (PStr "USD")) [price_in "EUR" 9%Q; price_in "USD" 10%Q].

Lemma price_refines_witness :
  exists ts, price false currencies recursion_limit in_usd env0 =
    (match recursion_limit with O => Err RecursionError | S _ => price_spec currencies in_usd end,
     log_trips ts env0).
Proof. apply price_refines. reflexivity. Defined.

Lemma price_no_match_recursion_witness :
  fst (price false currencies recursion_limit unpriced env0) = Err RecursionError.
Proof. apply price_no_match_recursion; reflexivity. Defined.

Lemma price_found_witness :
  fst (price false currencies 999 in_usd env0) = Ok (price_in "USD" 10%Q).
Proof. refine (price_found currencies 998 in_usd env0 usd [] _ usd [] _ _ _ _ _ _); try reflexivity. constructor. Defined.

Lemma price_dangling_currency_witness :
  fst (price false currencies 999 in_eur env0) =
    Err (AttributeError "'str' object has no attribute 'code'").
Proof. refine (price_dangling_currency currencies 998 in_eur env0 (price_in "EUR" 9%Q) _ "EUR" _ _ _ _ _); try reflexivity. done. Defined.
Lemma price_loop_find_witness :
  exists ts, price_loop false currencies (Inst usd) [price_in "USD" 10%Q; price_in "USD" 12%Q] env0 =
    (Ok (List.find (in_currency currencies usd) [price_in "USD" 10%Q; price_in "USD" 12%Q]),
     log_trips ts env0).
Proof. apply price_loop_find; [reflexivity|]. repeat constructor; eexists; reflexivity. Defined.
End VariantExamples.
