(* ===== verification/Queries.v ===== *)
(** * Queries by field: [Category.sub_categories], [Category.product_count]
      and [Location.product_count]

    These properties of models.py (210-226, 298-304) ask MongoDB for the
    documents of another collection whose stored fields equal given
    values.  A document is seen as MongoDB stores it: the dictionary
    [to_son] of its declared fields ([SonView]), a reference field stored
    as the key it holds ([stored_key]).  A filter [{"f": v}] matches a
    document whose field [f] equals [v], or, when [v] is [None], a document
    that stores no [f] (MongoDB's rule).  Lists, embedded documents and
    dates are opaque: no filter of the code compares them.  Each [count()]
    or iteration is one round trip. *)

From S2P Require Import Prelude Store Entities.

(** ** Stored documents and filters *)

(** A stored field value: a scalar, or a value no filter of the code
    compares (a list, an embedded document, a date). *)
Inductive sonval := SScalar (v : pyval) | SOpaque.

(** [Model.to_son()]: the stored fields of a document. *)
Class SonView (E : Type) := to_son : E -> list (string * sonval).

Definition son_field `{SonView E} (e : E) (f : string) : option sonval :=
  (fun '(_, (_, v)) => v) <$> list_find (fun gv => gv.1 = f) (to_son e).

(** [self.pk] as a stored value. *)
Definition pk_val `{Document E} (e : E) : pyval :=
  match pk e with Some k => pyval_of_pkey k | None => PNone end.

(** [ReferenceField.to_mongo]: the key of the referenced document, the
    raw value coerced by the related model's primary key field. *)
Definition stored_key `{Document E} (r : refval E) : pyval :=
  match r with
  | Raw v => match pk_to_python v with Raw v' => v' | Inst e => pk_val e end
  | Inst e => pk_val e
  end.

Definition oint (o : option Z) : pyval := match o with Some z => PInt z | None => PNone end.
Definition obool (o : option bool) : pyval := match o with Some b => PBool b | None => PNone end.

Abbreviation filter_t := (list (string * pyval)).

(** One condition [{"f": v}] of a filter on a stored field. *)
Definition field_matches (sv : option sonval) (v : pyval) : bool :=
  match sv with
  | Some (SScalar v') => bool_decide (v' = v)
  | Some SOpaque => false
  | None => bool_decide (v = PNone)
  end.

Definition matches `{SonView E} (flt : filter_t) (e : E) : bool :=
  forallb (fun '(f, v) => field_matches (son_field e f) v) flt.

Section Where.
Context `{Document E, SonView E}.
Implicit Types (coll : gmap pkey E) (flt : filter_t).

(** [Model.objects.raw(filter)]: the matching documents, in key order. *)
Definition raw_where coll flt : list E :=
  List.filter (matches flt) (snd <$> map_to_list coll).

(** [.count()] on it: one round trip. *)
Definition count_where coll flt : PyM Env nat :=
  store_call (TCountWhere collection_name flt) (length (raw_where coll flt)).

(** Iterating it: one round trip. *)
Definition find_where coll flt : PyM Env (list E) :=
  store_call (TFindWhere collection_name flt) (raw_where coll flt).
End Where.

(** ** The stored form of the queried models *)

(** [Product.to_son()] (models.py 401-425). *)
#[export] Instance Product_SonView : SonView Product.t := fun p =>
  (match Product.id p with Some n => [("_id", SScalar (POid n))] | None => [] end) ++
  [ ("name", SScalar (ostr (Product.name p)));
    ("sku", SScalar (ostr (Product.sku p)));
    ("code", SScalar (ostr (Product.code p)));
    ("description", SScalar (ostr (Product.description p)));
    ("caption", SScalar (ostr (Product.caption p)));
    ("category", SScalar (stored_key (Product.category p)));
    ("sub_category", SScalar (stored_key (Product.sub_category p)));
    ("discount_price", SOpaque); ("images", SOpaque); ("price", SOpaque);
    ("location", SScalar (stored_key (Product.location p)));
    ("quantity", SScalar (oint (Product.quantity p)));
    ("unlimited_stock", SScalar (PBool (Product.unlimited_stock p)));
    ("user", SScalar (stored_key (Product.user p)));
    ("tags", SOpaque); ("attributes", SOpaque); ("variants", SOpaque);
    ("options", SOpaque); ("stats", SOpaque);
    ("allow_modification", SScalar (obool (Product.allow_modification p)));
    ("visible", SScalar (PBool (Product.visible p)));
    ("has_variations", SScalar (PBool (Product.has_variations p)));
    ("supplier", SOpaque); ("date_created", SOpaque); ("last_updated", SOpaque) ].

(** [SubCategory.to_son()] (models.py 234-244). *)
#[export] Instance SubCategory_SonView : SonView SubCategory.t := fun c =>
  (match SubCategory.id c with Some n => [("_id", SScalar (POid n))] | None => [] end) ++
  [ ("code", SScalar (ostr (SubCategory.code c)));
    ("name", SScalar (ostr (SubCategory.name c)));
    ("description", SScalar (ostr (SubCategory.description c)));
    ("category", SScalar (stored_key (SubCategory.category c)));
    ("instance_id", SScalar (ostr (SubCategory.instance_id c)));
    ("entity_id", SScalar (ostr (SubCategory.entity_id c)));
    ("category_code", SScalar (ostr (SubCategory.category_code c)));
    ("visible", SScalar (PBool (SubCategory.visible c)));
    ("eligible", SScalar (PBool (SubCategory.eligible c)));
    ("date_created", SOpaque); ("last_updated", SOpaque) ].

(** [User.to_son()] (models.py 80-85). *)
#[export] Instance User_SonView : SonView User.t := fun u =>
  (match User.id u with Some n => [("_id", SScalar (POid n))] | None => [] end) ++
  [ ("email", SScalar (ostr (User.email u)));
    ("first_name", SScalar (ostr (User.first_name u)));
    ("password", SScalar (ostr (User.password u)));
    ("last_name", SScalar (ostr (User.last_name u)));
    ("date_created", SOpaque); ("last_updated", SOpaque) ].

(** ** The query properties *)

(** [Category.sub_categories] (210-217), iterated. *)
Definition sub_categories (subs : gmap pkey SubCategory.t) (c : Category.t)
  : PyM Env (list SubCategory.t) :=
  find_where subs [("category", pk_val c)].

(** [Category.product_count] (219-226). *)
Definition category_product_count (products : gmap pkey Product.t) (c : Category.t) : PyM Env nat :=
  count_where products [("category_code", ostr (Category.code c));
                        ("instance_id", ostr (Category.instance_id c))].

(** [Location.product_count] (298-304). *)
Definition location_product_count (products : gmap pkey Product.t) (l : Location.t) : PyM Env nat :=
  count_where products [("location", pk_val l)].

(** ** Running a query *)

Section WhereLemmas.
Context `{Document E, SonView E}.
Implicit Types (coll : gmap pkey E) (flt : filter_t) (e : E).

Lemma matches_single f v e : matches [(f, v)] e = field_matches (son_field e f) v.
Proof. cbn. apply andb_true_r. Qed.

(** The documents a filter selects are the stored ones it matches. *)
Lemma raw_where_spec coll flt e :
  In e (raw_where coll flt) <-> (exists k, coll !! k = Some e) /\ matches flt e = true.
Proof.
  unfold raw_where. rewrite filter_In, <- list_elem_of_In, list_elem_of_fmap.
  split.
  - intros [([k e'] & -> & Hk) Hm]. rewrite elem_of_map_to_list in Hk. eauto.
  - intros [[k Hk] Hm]. split; [|done]. exists (k, e). by rewrite elem_of_map_to_list.
Qed.

(** A filter selects nothing exactly when no stored document matches it. *)
Lemma raw_where_nil coll flt :
  raw_where coll flt = [] <-> forall k e, coll !! k = Some e -> matches flt e = false.
Proof.
  split.
  - intros Hnil k e Hk. destruct (matches flt e) eqn:Hm; [|done].
    assert (Hin : In e (raw_where coll flt)) by (apply raw_where_spec; eauto).
    by rewrite Hnil in Hin.
  - intros Hno. destruct (raw_where coll flt) as [|e l] eqn:Hr; [done|].
    assert (Hin : In e (raw_where coll flt)) by (rewrite Hr; left; done).
    apply raw_where_spec in Hin as [[k Hk] Hm]. by rewrite (Hno k e Hk) in Hm.
Qed.

Lemma count_where_up coll flt env :
  store_up env = true ->
  count_where coll flt env = (Ok (length (raw_where coll flt)), log_trip (TCountWhere collection_name flt) env).
Proof. intros Hup. unfold count_where. by rewrite store_call_up. Qed.

Lemma find_where_up coll flt env :
  store_up env = true ->
  find_where coll flt env = (Ok (raw_where coll flt), log_trip (TFindWhere collection_name flt) env).
Proof. intros Hup. unfold find_where. by rewrite store_call_up. Qed.
End WhereLemmas.

(** The stored fields the queries of models.py read. *)
Lemma product_son_location (p : Product.t) :
  son_field p "location" = Some (SScalar (stored_key (Product.location p))).
Proof. unfold son_field, to_son, Product_SonView. by destruct (Product.id p). Qed.

Lemma product_son_category_code (p : Product.t) : son_field p "category_code" = None.
Proof. unfold son_field, to_son, Product_SonView. by destruct (Product.id p). Qed.

Lemma sub_category_son_category (c : SubCategory.t) :
  son_field c "category" = Some (SScalar (stored_key (SubCategory.category c))).
Proof. unfold son_field, to_son, SubCategory_SonView. by destruct (SubCategory.id c). Qed.

(** [Location.product_count] counts the products storing the location's
    key in their [location] field. *)
Lemma location_product_count_up products l env :
  store_up env = true ->
  location_product_count products l env =
    (Ok (length (List.filter (fun p => bool_decide (stored_key (Product.location p) = pk_val l))
                             (snd <$> map_to_list products))),
     log_trip (TCountWhere "product" [("location", pk_val l)]) env).
Proof.
  intros Hup. unfold location_product_count. rewrite count_where_up by done.
  do 3 f_equal. apply List.filter_ext. intros p. by rewrite matches_single, product_son_location.
Qed.

(** ** What the queries answer *)

(** C13: [Category.product_count] is always 0: it filters products on
    [category_code] and [instance_id], fields the [Product] model does not
    declare, so no stored product has them, and a category's [code] (a
    required field) never equals the [None] that would match a missing
    field.  It costs one round trip. *)
Theorem category_product_count_zero products c env :
  Category.code c <> None -> store_up env = true ->
  category_product_count products c env =
    (Ok 0, log_trip (TCountWhere "product" [("category_code", ostr (Category.code c));
                                            ("instance_id", ostr (Category.instance_id c))]) env).
Proof.
  intros Hc Hup. unfold category_product_count. rewrite count_where_up by done.
  rewrite (proj2 (raw_where_nil _ _)); [done|]. intros k p _. cbn [matches forallb].
  rewrite product_son_category_code. by destruct (Category.code c).
Qed.

(** C34: [Location.product_count] on a location that was never saved
    ([self.pk] is [None]) does not fail: the filter [{"location": None}]
    counts every product that stores no location. *)
Theorem location_product_count_unsaved products l env :
  Location.id l = None -> store_up env = true ->
  fst (location_product_count products l env) =
    Ok (length (List.filter (fun p => bool_decide (stored_key (Product.location p) = PNone))
                            (snd <$> map_to_list products))).
Proof.
  intros Hl Hup. rewrite location_product_count_up by done. cbn.
  unfold pk_val. cbn. by rewrite Hl.
Qed.

(** C38: Iterating [Category.sub_categories] takes
    one round trip and yields exactly the stored sub-categories whose
    [category] reference stores the category's key. *)
Theorem sub_categories_spec subs c env :
  store_up env = true ->
  exists r, sub_categories subs c env =
              (Ok r, log_trip (TFindWhere "sub_category" [("category", pk_val c)]) env) /\
    forall s, In s r <-> (exists k, subs !! k = Some s) /\ stored_key (SubCategory.category s) = pk_val c.
Proof.
  intros Hup. eexists. split; [unfold sub_categories; by rewrite find_where_up|].
  intros s. rewrite raw_where_spec, matches_single, sub_category_son_category. cbn.
  by rewrite bool_decide_eq_true.
Qed.

(** ** The queries on concrete data *)

Module QueryExamples.
Definition env0 : Env := mkEnv 0 0 true 0 0 [].
Definition shoes : Category.t :=
  Category.mk (Some 7%N) (Some "shoes") (Some "Shoes") None (Some "shop-1") None true true None None 0 0.
Definition widget : Product.t :=
  Product.with_id 1 (Product.from_kwargs 0 (<["name" := PStr "widget"]> (<["category" := POid 7]> ∅))).
Definition products : gmap pkey Product.t := <[KOid 1 := widget]> ∅.
Definition unsaved_location : Location.t :=
  Location.mk None None None None (Some "555") None None None None (Raw PNone) None None None
              None None false None (Raw (POid 3)) 0 0.
Definition sneakers : SubCategory.t :=
  SubCategory.mk (Some 9%N) (Some "sneakers") (Some "Sneakers") None (Raw (POid 7)) (Some "shop-1")
                 None None true true 0 0.
Definition subs : gmap pkey SubCategory.t := <[KOid 9 := sneakers]> ∅.

(** A product filed under category 7 is still not counted by it. *)
Lemma category_product_count_zero_witness :
  category_product_count products shoes env0 =
    (Ok 0, log_trip (TCountWhere "product" [("category_code", PStr "shoes");
                                            ("instance_id", PStr "shop-1")]) env0).
Proof. refine (category_product_count_zero products shoes env0 _ _); [discriminate|reflexivity]. Defined.

(** The unsaved location counts the product that has no location. *)
Lemma location_product_count_unsaved_witness :
  fst (location_product_count products unsaved_location env0) = Ok 1%nat.
Proof.
  etransitivity; [refine (location_product_count_unsaved products unsaved_location env0 _ _); reflexivity|].
  reflexivity.
Defined.

Lemma sub_categories_spec_witness :
  exists r, sub_categories subs shoes env0 =
              (Ok r, log_trip (TFindWhere "sub_category" [("category", pk_val shoes)]) env0) /\
    forall s, In s r <-> (exists k, subs !! k = Some s) /\ stored_key (SubCategory.category s) = pk_val shoes.
Proof. apply sub_categories_spec. reflexivity. Defined.

(** [Category.sub_categories] of [shoes] finds [sneakers]. *)
Example sub_categories_shoes : fst (sub_categories subs shoes env0) = Ok [sneakers].
Proof. vm_compute. reflexivity. Qed.
End QueryExamples.
