(* ===== verification/Indexes.v ===== *)
(** * Unique indexes: [Location.Meta.indexes]

    [Location] (models.py 289-296) declares two indexes; the second is
    unique on [(domain, instance_id)] and partial: only documents whose
    [domain] is a string are indexed.  MongoDB refuses a write that would
    give two indexed documents the same index key (a missing field counts
    as [null]) with [DuplicateKeyError], here [ConflictError].  [Location]
    declares no [instance_id] field, so its key is [(domain, null)] for
    every location. *)

From S2P Require Import Prelude Store Entities Queries.

#[export] Instance sonval_eqdec : EqDecision sonval.
Proof. solve_decision. Defined.

(** [IndexModel(keys, partialFilterExpression={f: {"$type": "string"}},
    unique=...)] *)
Record index := mkIndex {
  ix_keys : list string;
  ix_unique : bool;
  ix_partial_string : option string
}.

(** [Location.to_son()] (models.py 262-280). *)
#[export] Instance Location_SonView : SonView Location.t := fun l =>
  (match Location.id l with Some n => [("_id", SScalar (POid n))] | None => [] end) ++
  [ ("first_name", SScalar (ostr (Location.first_name l)));
    ("last_name", SScalar (ostr (Location.last_name l)));
    ("name", SScalar (ostr (Location.name l)));
    ("phone", SScalar (ostr (Location.phone l)));
    ("email", SScalar (ostr (Location.email l)));
    ("city", SScalar (ostr (Location.city l)));
    ("state", SScalar (ostr (Location.state l)));
    ("domain", SScalar (ostr (Location.domain l)));
    ("country", SScalar (stored_key (Location.country l)));
    ("street", SScalar (ostr (Location.street l)));
    ("street_line_2", SScalar (ostr (Location.street_line_2 l)));
    ("post_code", SScalar (ostr (Location.post_code l)));
    ("lat", SOpaque); ("lng", SOpaque);
    ("default", SScalar (PBool (Location.default l)));
    ("user_id", SScalar (ostr (Location.user_id l)));
    ("user", SScalar (stored_key (Location.user l)));
    ("date_created", SOpaque); ("last_updated", SOpaque) ].

(** [Location.Meta.indexes] *)
Definition location_indexes : list index :=
  [ mkIndex ["domain"; "email"; "instance_id"; "phone"; "date_created"] false None;
    mkIndex ["domain"; "instance_id"] true (Some "domain") ].

Section Indexes.
Context `{Document E, SonView E}.
Implicit Types (coll : gmap pkey E) (e : E) (ix : index).

(** The index key of a document: [null] for a missing field. *)
Definition index_key ix e : list sonval :=
  (fun f => default (SScalar PNone) (son_field e f)) <$> ix_keys ix.

(** Whether the partial filter indexes the document. *)
Definition indexed ix e : bool :=
  match ix_partial_string ix with
  | None => true
  | Some f => match son_field e f with Some (SScalar (PStr _)) => true | _ => false end
  end.

(** Another stored document holds [e]'s key in a unique index. *)
Definition conflicts coll ix e : bool :=
  ix_unique ix && indexed ix e &&
  existsb (fun '(k, e') => bool_decide (pk e <> Some k) && indexed ix e' &&
                           bool_decide (index_key ix e' = index_key ix e))
          (map_to_list coll).

(** [Model.save()] on a collection with indexes: [full_clean()], then
    the write, which the server refuses when a unique index conflicts
    (the driver has already generated the ObjectId of a new document). *)
Definition save_indexed (ixs : list index) e : PyM (Env * gmap pkey E) E :=
  fun '(env, coll) =>
    match full_clean e with
    | Some msg => (Err (ValidationError msg), (env, coll))
    | None =>
        if store_up env then
          if existsb (fun ix => conflicts coll ix e) ixs then
            let '(k, env1) := match pk e with
                              | Some k => (k, env)
                              | None => (KOid (next_oid env), bump_oid env)
                              end in
            (Err ConflictError, (log_trip (TSave collection_name k) env1, coll))
          else save e (env, coll)
        else (Err PersistenceError, (env, coll))
    end.
End Indexes.

(** [Location.save()] *)
Definition save_location (l : Location.t) : PyM (Env * gmap pkey Location.t) Location.t :=
  save_indexed location_indexes l.

Lemma location_son_domain (l : Location.t) :
  son_field l "domain" = Some (SScalar (ostr (Location.domain l))).
Proof. unfold son_field, to_son, Location_SonView. by destruct (Location.id l). Qed.

Lemma location_son_instance_id (l : Location.t) : son_field l "instance_id" = None.
Proof. unfold son_field, to_son, Location_SonView. by destruct (Location.id l). Qed.

(** The unique index keys every location on its domain alone. *)
Lemma location_unique_key (l : Location.t) d :
  Location.domain l = Some d ->
  indexed (mkIndex ["domain"; "instance_id"] true (Some "domain")) l = true /\
  index_key (mkIndex ["domain"; "instance_id"] true (Some "domain")) l = [SScalar (PStr d); SScalar PNone].
Proof.
  intros Hd. unfold indexed, index_key. cbn.
  rewrite location_son_domain, location_son_instance_id, Hd. done.
Qed.

(** C32: Two locations with the same string [domain] cannot both be
    stored: saving a second one, whatever its user, email, phone or the
    instance it belongs to, is refused by the unique index on
    [(domain, instance_id)], since [Location] has no [instance_id] and
    both keys are [(domain, null)]. *)
Theorem location_domain_conflict coll k l1 l2 d env :
  coll !! k = Some l1 -> Location.domain l1 = Some d -> Location.domain l2 = Some d ->
  pk l2 <> Some k -> Location.full_clean l2 = None -> store_up env = true ->
  fst (save_location l2 (env, coll)) = Err ConflictError.
Proof.
  intros Hk Hd1 Hd2 Hne Hclean Hup. unfold save_location, save_indexed. cbn [full_clean Location_Document].
  rewrite Hclean, Hup.
  assert (Hc : existsb (fun ix => conflicts coll ix l2) location_indexes = true).
  { apply orb_true_intro. right. apply orb_true_intro. left.
    destruct (location_unique_key l1 d Hd1) as [Hi1 Hx1], (location_unique_key l2 d Hd2) as [Hi2 Hx2].
    unfold conflicts. rewrite Hi2. apply existsb_exists.
    exists (k, l1). split; [apply list_elem_of_In, elem_of_map_to_list, Hk|].
    cbv beta iota. rewrite Hi1, Hx1, Hx2, !bool_decide_true by done. done. }
  rewrite Hc. by destruct (pk l2).
Qed.

Module IndexExamples.
Definition env0 : Env := mkEnv 0 0 true 0 0 [].
Definition location_of (id : option N) (user : N) (phone : string) : Location.t :=
  Location.mk id None None (Some "Warehouse") (Some phone) None (Some "Lagos") None (Some "shop.example")
              (Raw PNone) None None None None None false None (Raw (POid user)) 0 0.
(** One user's warehouse is stored; another user's, in the same domain,
    is refused. *)
Definition stored : gmap pkey Location.t := <[KOid 1 := location_of (Some 1%N) 10 "555-0100"]> ∅.

Lemma location_domain_conflict_witness :
  fst (save_location (location_of None 11 "555-0199") (env0, stored)) = Err ConflictError.
Proof.
  refine (location_domain_conflict stored (KOid 1) (location_of (Some 1%N) 10 "555-0100")
            (location_of None 11 "555-0199") "shop.example" env0 _ _ _ _ _ _); try reflexivity.
  discriminate.
Defined.
End IndexExamples.
