(* ===== verification/Schemas.v ===== *)
(** * Request schemas: [Schema.load] and [LoginSchema.validate_email]

    [src/src/schemas.py] declares marshmallow schemas: each field is a
    [String] or [DateTime] with [required] and [allow_none] flags, a
    schema inherits its parent's fields, and [ExcludeSchema] drops unknown
    keys ([unknown = EXCLUDE]).  [load_fields] is marshmallow's loading of
    such a field list (its documented messages); [load_login] adds the
    [@validates("email")] validator of [LoginSchema], which counts the users
    with that email in the store.  [dump_fields] is [Schema.dump], which
    writes the declared fields an object has.  The codecs marshmallow
    calls (UTF-8 decoding, ISO 8601 parsing and printing, Python's [str()]
    of other scalars) are parameters. *)

From S2P Require Import Prelude Store Entities Queries.

(** ** Field declarations *)

Inductive field_kind := FString | FDateTime.

(** [_fields.String(required=..., allow_none=...)] *)
Record schema_field := mkSField {
  sf_name : string;
  sf_kind : field_kind;
  sf_required : bool;
  sf_allow_none : bool
}.

(** The declared fields of the schemas of schemas.py, parents' first. *)
Definition user_response_fields : list schema_field :=
  [ mkSField "pk" FString false true; mkSField "date_created" FDateTime false true;
    mkSField "first_name" FString true false; mkSField "last_name" FString true false;
    mkSField "email" FString true false ].

Definition registration_fields : list schema_field :=
  user_response_fields ++ [mkSField "password" FString true false].

Definition login_fields : list schema_field :=
  [mkSField "password" FString true false; mkSField "email" FString true false].

Definition login_response_fields : list schema_field :=
  user_response_fields ++ [mkSField "auth_token" FString true false].

Definition address_response_fields : list schema_field :=
  [ mkSField "street" FString true false; mkSField "street_line_2" FString false true;
    mkSField "state" FString true false; mkSField "country" FString true false ].

Definition core_fields : list schema_field :=
  [ mkSField "_id" FString false true; mkSField "code" FString false true;
    mkSField "name" FString false true; mkSField "description" FString false true;
    mkSField "value" FString false true ].

(** [ProductRequestSchema] and [ProductResponseSchema] declare no field. *)
Definition product_request_fields : list schema_field := [].

(** ** [Schema.load] *)

Abbreviation json := (gmap string pyval).

Section Load.
(** [bytes.decode("utf-8")] and [datetime] parsing of ISO 8601 text. *)
Context (utf8_decode : list Byte.byte -> option string) (parse_iso : string -> option Z).

Definition msg_required : string := "Missing data for required field.".
Definition msg_null : string := "Field may not be null.".

(** [Field._deserialize] of a present, non-null value: the loaded value
    or the error message. *)
Definition deserialize (k : field_kind) (v : pyval) : pyval + string :=
  match k, v with
  | FString, PStr s => inl (PStr s)
  | FString, PBytes bs =>
      match utf8_decode bs with Some s => inl (PStr s) | None => inr "Not a valid utf-8 string." end
  | FString, _ => inr "Not a valid string."
  | FDateTime, PStr s =>
      match parse_iso s with Some t => inl (PInt t) | None => inr "Not a valid datetime." end
  | FDateTime, _ => inr "Not a valid datetime."
  end.

(** One field: [Field.deserialize] with its missing and null checks;
    [None] when there is nothing to load. *)
Definition load_field (f : schema_field) (data : json) : option (pyval + string) :=
  match data !! sf_name f with
  | None => if sf_required f then Some (inr msg_required) else None
  | Some PNone => Some (if sf_allow_none f then inl PNone else inr msg_null)
  | Some v => Some (deserialize (sf_kind f) v)
  end.

(** The loop over the declared fields: the loaded values and the
    errors, in field order.  Keys that are not declared are dropped. *)
Fixpoint load_fields (fs : list schema_field) (data : json) : json * list (string * string) :=
  match fs with
  | [] => (∅, [])
  | f :: fs' =>
      let '(out, errs) := load_fields fs' data in
      match load_field f data with
      | None => (out, errs)
      | Some (inl v) => (<[sf_name f := v]> out, errs)
      | Some (inr m) => (out, (sf_name f, m) :: errs)
      end
  end.

(** [Schema.load(data)] of a schema without validators. *)
Definition load {S} (fs : list schema_field) (data : json) : PyM S json :=
  let '(out, errs) := load_fields fs data in
  match errs with [] => py_ret out | _ => py_raise (SchemaValidationError errs) end.

(** [LoginSchema.validate_email] (schemas.py 42-45): one count of the
    users with that email; none raises "Invalid email". *)
Definition validate_email (users : gmap pkey User.t) (email : pyval) : PyM Env (list (string * string)) :=
  n <- count_where users [("email", email)] ;;
  py_ret (if (n =? 0)%nat then [("email", "Invalid email")] else []).

(** [LoginSchema().load(data)]: the fields, then the validator on a
    loaded [email], then [ValidationError] with all the messages. *)
Definition load_login (users : gmap pkey User.t) (data : json) : PyM Env json :=
  let '(out, errs) := load_fields login_fields data in
  verrs <- match out !! "email" with
           | Some e => validate_email users e
           | None => py_ret []
           end ;;
  match errs ++ verrs with [] => py_ret out | all => py_raise (SchemaValidationError all) end.
End Load.

(** ** [Schema.dump] *)

Section Dump.
(** [bytes.decode("utf-8")], [datetime.isoformat()] and Python's [str()]
    of the other scalars. *)
Context (utf8_decode : list Byte.byte -> option string) (format_iso : Z -> string)
        (py_str : pyval -> string).

(** [Field._serialize]: [None] stays [None]; a [String] field writes
    [str(value)] ([str(ObjectId)] is its 24 hex digits), a [DateTime]
    field the ISO text. *)
Definition serialize (k : field_kind) (v : pyval) : pyval :=
  match k, v with
  | _, PNone => PNone
  | FString, PStr s => PStr s
  | FString, POid n => PStr (ObjectId.to_str n)
  | FString, PBytes bs => match utf8_decode bs with Some s => PStr s | None => PStr (py_str v) end
  | FString, _ => PStr (py_str v)
  | FDateTime, PInt t => PStr (format_iso t)
  | FDateTime, _ => PStr (py_str v)
  end.

(** [Schema.dump(obj)]: each declared field the object has, read with
    [getattr] and serialised; others are left out. *)
Fixpoint dump_fields (fs : list schema_field) (obj : string -> option pyval) : json :=
  match fs with
  | [] => ∅
  | f :: fs' =>
      let out := dump_fields fs' obj in
      match obj (sf_name f) with
      | Some v => <[sf_name f := serialize (sf_kind f) v]> out
      | None => out
      end
  end.
End Dump.

(** A [User]'s attributes that the user schemas read: its fields and
    [pk] (the [_id] ObjectId, [None] before the first save); the
    [auth_token] property is not among them. *)
Definition user_attrs (u : User.t) (name : string) : option pyval :=
  if String.eqb name "pk" then Some (match User.id u with Some n => POid n | None => PNone end)
  else if String.eqb name "email" then Some (ostr (User.email u))
  else if String.eqb name "first_name" then Some (ostr (User.first_name u))
  else if String.eqb name "last_name" then Some (ostr (User.last_name u))
  else if String.eqb name "password" then Some (ostr (User.password u))
  else if String.eqb name "date_created" then Some (PInt (User.date_created u))
  else if String.eqb name "last_updated" then Some (PInt (User.last_updated u))
  else None.

(** ** What loading gives *)

Section LoadTheorems.
Context (utf8_decode : list Byte.byte -> option string) (parse_iso : string -> option Z).
Implicit Types (fs : list schema_field) (data : json).

Lemma load_field_none f data :
  load_field utf8_decode parse_iso f data = None -> data !! sf_name f = None /\ sf_required f = false.
Proof.
  unfold load_field. destruct (data !! sf_name f) as [[]|]; try discriminate.
  destruct (sf_required f); [discriminate|done].
Qed.

Lemma load_field_some f data v :
  load_field utf8_decode parse_iso f data = Some (inl v) -> is_Some (data !! sf_name f).
Proof.
  unfold load_field. intros Hf. destruct (data !! sf_name f); [done|].
  destruct (sf_required f); discriminate.
Qed.

(** What a schema loads when it raises nothing: exactly the
    declared fields present in the input, unknown keys dropped
    ([unknown = EXCLUDE]), and every required field was present. *)
Lemma load_fields_sound fs data out :
  load_fields utf8_decode parse_iso fs data = (out, []) ->
  (forall k, is_Some (out !! k) <-> (exists f, f ∈ fs /\ sf_name f = k) /\ is_Some (data !! k)) /\
  (forall f, f ∈ fs -> sf_required f = true -> is_Some (data !! sf_name f)).
Proof.
  revert out. induction fs as [|f fs IH]; intros out Hl.
  - injection Hl as <-. split; [|set_solver]. intros k. rewrite lookup_empty. set_solver.
  - cbn in Hl. destruct (load_fields _ _ fs data) as [out' errs'].
    destruct (load_field _ _ f data) as [[v|m]|] eqn:Hf; simplify_eq/=.
    + destruct (IH out' eq_refl) as [Hk Hr]. split.
      * intros k. rewrite lookup_insert_is_Some', Hk. apply load_field_some in Hf. set_solver.
      * intros g [->|Hg]%elem_of_cons ?; [by eapply load_field_some|auto].
    + destruct (IH out eq_refl) as [Hk Hr]. apply load_field_none in Hf as [Hn Hreq]. split.
      * intros k. rewrite Hk. split; [set_solver|]. intros [(g & [->|Hg]%elem_of_cons & <-) Hs];
          [rewrite Hn in Hs; by destruct Hs|eauto].
      * intros g [->|Hg]%elem_of_cons ?; [congruence|auto].
Qed.
Lemma load_field_insert_ne f data k v :
  sf_name f <> k -> load_field utf8_decode parse_iso f (<[k := v]> data) = load_field utf8_decode parse_iso f data.
Proof. intros Hne. unfold load_field. by rewrite lookup_insert_ne by done. Qed.

Lemma load_fields_insert_ne fs data k v :
  k ∉ sf_name <$> fs ->
  load_fields utf8_decode parse_iso fs (<[k := v]> data) = load_fields utf8_decode parse_iso fs data.
Proof.
  induction fs as [|f fs IH]; intros Hk; [done|]. rewrite fmap_cons, elem_of_cons in Hk.
  cbn. rewrite IH, load_field_insert_ne by naive_solver. done.
Qed.

(** C16: [unknown = EXCLUDE] (schemas.py 6-8), which
    every schema of schemas.py inherits: a key that no field of the schema
    declares never changes what [load] answers (the same fields, or the
    same field errors, are reported with or without it) and never appears
    in a loaded result. *)
Theorem load_exclude_unknown {S} fs data k v (s : S) :
  k ∉ sf_name <$> fs ->
  load utf8_decode parse_iso fs (<[k := v]> data) s = load utf8_decode parse_iso fs data s /\
  (forall out s', load utf8_decode parse_iso fs data s = (Ok out, s') -> out !! k = None).
Proof.
  intros Hk. split; [unfold load; by rewrite load_fields_insert_ne|].
  intros out s'. unfold load. destruct (load_fields _ _ fs data) as [out0 errs] eqn:Hl.
  destruct errs; [|done]. intros [= <- _]. apply eq_None_not_Some. intros Hs.
  destruct (load_fields_sound fs data out0 Hl) as [Hout _].
  apply Hout in Hs as [(f & Hf & <-) _]. apply Hk, list_elem_of_fmap. eauto.
Qed.
End LoadTheorems.

(** C36: [UserResponseSchema().dump(user)] of a saved user writes exactly
    [pk], [date_created], [first_name], [last_name] and [email] (never the
    password hash), and its [pk] text parses back with [ObjectId(...)] to
    the user's id. *)
Theorem user_dump_roundtrip utf8_decode format_iso py_str u n :
  User.id u = Some n -> (n < 2 ^ 96)%N ->
  (forall k, is_Some (dump_fields utf8_decode format_iso py_str user_response_fields (user_attrs u) !! k) <->
             k ∈ ["pk"; "date_created"; "first_name"; "last_name"; "email"]) /\
  exists s, dump_fields utf8_decode format_iso py_str user_response_fields (user_attrs u) !! "pk" = Some (PStr s) /\
            ObjectId.of_str s = Some n.
Proof.
  intros Hn Hb. cbn -[ObjectId.to_str ObjectId.of_str]. split.
  - intros k. rewrite !lookup_insert_is_Some', lookup_empty. set_solver.
  - eexists. rewrite Hn. split; [done|]. by rewrite ObjectId.of_str_to_str_mod, N.mod_small.
Qed.

Lemma user_son_email (u : User.t) : son_field u "email" = Some (SScalar (ostr (User.email u))).
Proof. unfold son_field, to_son, User_SonView. by destruct (User.id u). Qed.

(** The users a login filter [{"email": e}] selects are those with that email. *)
Lemma users_with_email_nil users e :
  raw_where users [("email", PStr e)] = [] <->
  forall k u, users !! k = Some u -> User.email u <> Some e.
Proof.
  rewrite raw_where_nil. apply forall_proper; intros k. apply forall_proper; intros u.
  rewrite matches_single, user_son_email. cbn.
  destruct (User.email u) as [s|]; cbn; rewrite ?bool_decide_eq_false; naive_solver.
Qed.

Section LoginTheorems.
Context (utf8_decode : list Byte.byte -> option string) (parse_iso : string -> option Z).
Implicit Types (users : gmap pkey User.t) (data : json).

Lemma load_login_fields data p e :
  data !! "password" = Some (PStr p) -> data !! "email" = Some (PStr e) ->
  load_fields utf8_decode parse_iso login_fields data =
    (<["password" := PStr p]> (<["email" := PStr e]> ∅), []).
Proof. intros Hp He. cbn. unfold load_field. cbn. by rewrite Hp, He. Qed.

(** With both fields text, [load_login] makes one count and answers
    according to whether a user has that email. *)
Lemma load_login_strings users data p e env :
  data !! "password" = Some (PStr p) -> data !! "email" = Some (PStr e) -> store_up env = true ->
  load_login utf8_decode parse_iso users data env =
    (match raw_where users [("email", PStr e)] with
     | [] => Err (SchemaValidationError [("email", "Invalid email")])
     | _ :: _ => Ok (<["password" := PStr p]> (<["email" := PStr e]> ∅))
     end, log_trip (TCountWhere "user" [("email", PStr e)]) env).
Proof.
  intros Hp He Hup. unfold load_login. rewrite (load_login_fields data p e Hp He).
  rewrite lookup_insert_ne, lookup_insert_eq by done.
  unfold validate_email, py_bind. rewrite count_where_up by done.
  by destruct (raw_where users [("email", PStr e)]).
Qed.
(** C15: [LoginSchema().load] accepts a text password and the email of a
    stored user: it returns just those two fields, unknown keys dropped,
    after one count round trip. *)
Theorem login_load_registered users data p e env k u :
  data !! "password" = Some (PStr p) -> data !! "email" = Some (PStr e) -> store_up env = true ->
  users !! k = Some u -> User.email u = Some e ->
  load_login utf8_decode parse_iso users data env =
    (Ok (<["password" := PStr p]> (<["email" := PStr e]> ∅)),
     log_trip (TCountWhere "user" [("email", PStr e)]) env).
Proof.
  intros Hp He Hup Hk Hu. rewrite (load_login_strings users data p e env Hp He Hup).
  destruct (raw_where users [("email", PStr e)]) eqn:Hr; [|done].
  exfalso. by apply (proj1 (users_with_email_nil users e) Hr k u).
Qed.

(** C14: An email no stored user has is refused with the field error
    "Invalid email" before any password is looked at, whatever the
    password: the login answer tells whether an account exists. *)
Theorem login_load_unknown_email users data p e env :
  data !! "password" = Some (PStr p) -> data !! "email" = Some (PStr e) -> store_up env = true ->
  (forall k u, users !! k = Some u -> User.email u <> Some e) ->
  load_login utf8_decode parse_iso users data env =
    (Err (SchemaValidationError [("email", "Invalid email")]),
     log_trip (TCountWhere "user" [("email", PStr e)]) env).
Proof.
  intros Hp He Hup Hno. rewrite (load_login_strings users data p e env Hp He Hup).
  by rewrite (proj2 (users_with_email_nil users e) Hno).
Qed.
End LoginTheorems.

(** ** Loading on concrete data *)

Module SchemaExamples.
Definition no_utf8 (_ : list Byte.byte) : option string := None.
Definition no_iso (_ : string) : option Z := None.
Definition env0 : Env := mkEnv 0 0 true 0 0 [].
Definition ada : User.t := User.with_id 42 (User.new 0 (Some "ada@example.com") (Some "Ada") (Some "Lovelace")).
Definition users : gmap pkey User.t := <[KOid 42 := ada]> ∅.
Definition login_ada : json :=
  <["password" := PStr "hunter2"]> (<["email" := PStr "ada@example.com"]> (<["remember" := PBool true]> ∅)).
Definition login_bob : json :=
  <["password" := PStr "hunter2"]> (<["email" := PStr "bob@example.com"]> ∅).
Definition register_ada : json :=
  <["first_name" := PStr "Ada"]> (<["last_name" := PStr "Lovelace"]> (<["email" := PStr "ada@example.com"]>
    (<["password" := PStr "hunter2"]> (<["pk" := PNone]> ∅)))).

Definition register_extra : json := <["remember" := PBool true]> register_ada.

Lemma load_exclude_unknown_witness :
  load (S:=unit) no_utf8 no_iso registration_fields register_extra tt =
    load no_utf8 no_iso registration_fields register_ada tt /\
  (forall out s', load no_utf8 no_iso registration_fields register_ada tt = (Ok out, s') ->
                  out !! "remember" = None).
Proof. refine (load_exclude_unknown no_utf8 no_iso registration_fields register_ada "remember" _ tt _). vm_compute. set_solver. Defined.

(** The registration with the unknown key loads to the four given fields. *)
Example register_extra_loads :
  load (S:=unit) no_utf8 no_iso registration_fields register_extra tt =
    (Ok (<["password" := PStr "hunter2"]> (<["email" := PStr "ada@example.com"]>
          (<["last_name" := PStr "Lovelace"]> (<["first_name" := PStr "Ada"]> (<["pk" := PNone]> ∅))))), tt).
Proof. vm_compute. reflexivity. Qed.

Lemma login_load_registered_witness :
  load_login no_utf8 no_iso users login_ada env0 =
    (Ok (<["password" := PStr "hunter2"]> (<["email" := PStr "ada@example.com"]> ∅)),
     log_trip (TCountWhere "user" [("email", PStr "ada@example.com")]) env0).
Proof.
  refine (login_load_registered no_utf8 no_iso users login_ada "hunter2" "ada@example.com" env0
            (KOid 42) ada _ _ _ _ _); reflexivity.
Defined.

Lemma login_load_unknown_email_witness :
  load_login no_utf8 no_iso users login_bob env0 =
    (Err (SchemaValidationError [("email", "Invalid email")]),
     log_trip (TCountWhere "user" [("email", PStr "bob@example.com")]) env0).
Proof.
  refine (login_load_unknown_email no_utf8 no_iso users login_bob "hunter2" "bob@example.com" env0
            _ _ _ _); try reflexivity.
  intros k u Hk. unfold users in Hk. rewrite lookup_insert_Some, lookup_empty in Hk.
  destruct Hk as [[_ <-]|[_ ?]]; [discriminate|done].
Defined.

(** A registration missing its names is refused with one message per
    missing field, in declaration order. *)
Example register_missing_names :
  fst (load (S:=unit) no_utf8 no_iso registration_fields
         (<["email" := PStr "ada@example.com"]> (<["password" := PStr "pw"]> ∅)) tt) =
    Err (SchemaValidationError [("first_name", msg_required); ("last_name", msg_required)]).
Proof. vm_compute. reflexivity. Qed.
Definition no_iso_text (_ : Z) : string := "".
Definition no_str (_ : pyval) : string := "".

Lemma user_dump_roundtrip_witness :
  (forall k, is_Some (dump_fields no_utf8 no_iso_text no_str user_response_fields (user_attrs ada) !! k) <->
             k ∈ ["pk"; "date_created"; "first_name"; "last_name"; "email"]) /\
  exists s, dump_fields no_utf8 no_iso_text no_str user_response_fields (user_attrs ada) !! "pk" = Some (PStr s) /\
            ObjectId.of_str s = Some 42%N.
Proof. apply user_dump_roundtrip; [reflexivity|lia]. Defined.
End SchemaExamples.
