(* ===== verification/Credentials.v ===== *)
(** * Credentials: [User.set_password] and [User.check_password]

    [src/src/models.py] lines 98-135.  The methods run on [self], a
    [User] object that [set_password] mutates before it calls
    [self.save()]; the state [UserSt] therefore holds the environment, the
    [user] collection and [self].

    bcrypt is a library: [Bcrypt] states what the code relies on
    ([gensalt], [hashpw], [checkpw]) and [BcryptOk] its laws, including
    that bcrypt reads only the first 72 bytes of a password.  [ToyBcrypt]
    is an instance that satisfies the laws (so they are consistent) and
    computes, for the concrete scenarios. *)

From S2P Require Import Prelude Store Entities.
From Stdlib Require Import Ascii.

(** ** [str.encode("utf-8")] and [bytes.decode()] *)

Definition byte_of_N (n : N) : Byte.byte :=
  match Byte.of_N n with Some b => b | None => Byte.x00 end.

(** UTF-8 of a code point below 256: one byte below 128, two above. *)
Definition utf8_char (c : ascii) : list Byte.byte :=
  let n := N_of_ascii c in
  if (n <? 128)%N then [byte_of_ascii c]
  else [byte_of_N (192 + n / 64); byte_of_N (128 + n mod 64)]%N.

Definition encode_utf8 (s : string) : list Byte.byte :=
  mjoin (utf8_char <$> String.list_ascii_of_string s).

(** [bytes.decode()] of ASCII bytes (bcrypt's output is ASCII). *)
Definition decode_ascii (bs : list Byte.byte) : string :=
  String.string_of_list_ascii (ascii_of_byte <$> bs).

Definition is_ascii (bs : list Byte.byte) : Prop := Forall (fun b => (Byte.to_N b < 128)%N) bs.

Lemma utf8_char_ascii b : (Byte.to_N b < 128)%N -> utf8_char (ascii_of_byte b) = [b].
Proof.
  intros Hb. unfold utf8_char.
  rewrite ascii_of_byte_via_N, N_ascii_embedding by (pose proof (Byte.to_N_bounded b); lia).
  destruct (N.ltb_spec (Byte.to_N b) 128); [|lia].
  by rewrite <- ascii_of_byte_via_N, byte_of_ascii_of_byte.
Qed.

Lemma encode_decode_ascii bs : is_ascii bs -> encode_utf8 (decode_ascii bs) = bs.
Proof.
  unfold encode_utf8, decode_ascii. rewrite String.list_ascii_of_string_of_list_ascii.
  induction 1 as [|b bs Hb _ IH]; [done|].
  rewrite !fmap_cons. simpl. by rewrite utf8_char_ascii, IH.
Qed.

(** [str.encode] on a Python value: only a [str] has it. *)
Definition py_encode {S} (v : pyval) : PyM S (list Byte.byte) :=
  match v with
  | PStr s => py_ret (encode_utf8 s)
  | PBytes _ => py_raise (AttributeError "'bytes' object has no attribute 'encode'")
  | PNone => py_raise (AttributeError "'NoneType' object has no attribute 'encode'")
  | _ => py_raise (AttributeError "object has no attribute 'encode'")
  end.

(** ** The bcrypt interface *)

Class Bcrypt := {
  (** [bcrypt.gensalt()], from the random source *)
  gensalt : N -> list Byte.byte;
  (** [bcrypt.hashpw(password, salt)] *)
  hashpw : list Byte.byte -> list Byte.byte -> list Byte.byte;
  (** [bcrypt.checkpw(password, hashed)]; [None] is [ValueError("Invalid salt")] *)
  checkpw : list Byte.byte -> list Byte.byte -> option bool
}.

(** bcrypt's maximum key length: later bytes are ignored. *)
Definition bcrypt_max := 72%nat.

Class BcryptOk `{Bcrypt} := {
  hashpw_ascii p n : is_ascii (hashpw p (gensalt n));
  checkpw_hashpw p p' n :
    checkpw p' (hashpw p (gensalt n)) = Some (bool_decide (take bcrypt_max p' = take bcrypt_max p))
}.

(** ** The methods *)

Record UserSt := mkUserSt { env : Env; users : gmap pkey User.t; self : User.t }.

Definition set_self (u : User.t) (st : UserSt) : UserSt := mkUserSt (env st) (users st) u.

Definition with_password (h : string) (u : User.t) : User.t :=
  User.mk (User.id u) (User.email u) (User.first_name u) (Some h) (User.last_name u)
          (User.date_created u) (User.last_updated u).

Definition with_last_updated (t : Z) (u : User.t) : User.t :=
  User.mk (User.id u) (User.email u) (User.first_name u) (User.password u) (User.last_name u)
          (User.date_created u) t.

(** Run an environment-only step ([utcnow], [gensalt]) on [UserSt]. *)
Definition on_env {A} (m : PyM Env A) : PyM UserSt A :=
  fun st => let '(r, e') := m (env st) in (r, mkUserSt e' (users st) (self st)).

(** [self.save()]: pymodm stores the generated [_id] into [self]. *)
Definition save_self : PyM UserSt User.t :=
  fun st =>
    match save (self st) (env st, users st) with
    | (Ok u, (e', us')) => (Ok u, mkUserSt e' us' u)
    | (Err x, (e', us')) => (Err x, mkUserSt e' us' (self st))
    end.

Definition next_salt_seed (e : Env) : Env :=
  mkEnv (clock e) (tz_offset e) (store_up e) (next_oid e) (N.succ (salt_seed e)) (trips e).

Section Methods.
Context `{Bcrypt}.

Definition py_gensalt : PyM Env (list Byte.byte) :=
  fun e => (Ok (gensalt (salt_seed e)), next_salt_seed e).

(** [if not password or not isinstance(password, (str, bytes))] *)
Definition password_rejected (password : pyval) : bool :=
  negb (truthy password) ||
  negb (match password with PStr _ | PBytes _ => true | _ => false end).

Definition password_error : exn := ValueError "Password must be non-empty string or bytes value".

(** [User.set_password] (98-114) *)
Definition set_password (password : pyval) : PyM UserSt User.t :=
  if password_rejected password then py_raise password_error
  else
    pw <- py_encode password ;;
    salt <- on_env py_gensalt ;;
    py_modify (fun st => set_self (with_password (decode_ascii (hashpw pw salt)) (self st)) st) ;;;
    now <- on_env utcnow ;;
    py_modify (fun st => set_self (with_last_updated now (self st)) st) ;;;
    save_self.

(** [User.check_password] (116-135) *)
Definition check_password (password : pyval) : PyM UserSt bool :=
  if password_rejected password then py_raise password_error
  else
    pw <- py_encode password ;;
    st <- py_get ;;
    hashed <- py_encode (ostr (User.password (self st))) ;;
    match checkpw pw hashed with
    | Some b => py_ret b
    | None => py_raise (ValueError "Invalid salt")
    end.
End Methods.

(** ** Running the methods *)

(** Every field of [User] is optional, so [full_clean] never fails. *)
Lemma User_full_clean_ok (u : User.t) : full_clean u = None.
Proof. by destruct u as [? [] [] [] [] ? ?]. Qed.

Lemma save_self_up st :
  store_up (env st) = true ->
  save_self st =
    match User.id (self st) with
    | Some n => (Ok (self st), mkUserSt (log_trip (TSave "user" (KOid n)) (env st))
                                        (<[KOid n := self st]> (users st)) (self st))
    | None => let n := next_oid (env st) in
              let u := User.with_id n (self st) in
              (Ok u, mkUserSt (log_trip (TSave "user" (KOid n)) (bump_oid (env st)))
                              (<[KOid n := u]> (users st)) u)
    end.
Proof.
  intros Hup. unfold save_self, save. cbv beta iota. rewrite User_full_clean_ok, Hup.
  destruct (User.id (self st)) eqn:Hid; cbn; by rewrite Hid.
Qed.

Lemma save_self_down st :
  store_up (env st) = false -> save_self st = (Err PersistenceError, st).
Proof.
  intros Hdown. unfold save_self, save. cbv beta iota. rewrite User_full_clean_ok, Hdown.
  by destruct st.
Qed.

Section MethodTheorems.
Context `{BcryptOk}.

(** The object [set_password(p)] has built when it calls [save()]. *)
Definition hashed_self (p : string) (st : UserSt) : User.t :=
  with_last_updated (clock (env st))
    (with_password (decode_ascii (hashpw (encode_utf8 p) (gensalt (salt_seed (env st)))))
                   (self st)).

Lemma set_password_str p st :
  password_rejected (PStr p) = false ->
  set_password (PStr p) st =
    save_self (mkUserSt (next_salt_seed (env st)) (users st) (hashed_self p st)).
Proof. intros Hp. unfold set_password. by rewrite Hp. Qed.

(** What a successful [set_password(p)] leaves: [self] is the saved copy
    with the hash of [p] and the new stamp, filed under its ObjectId. *)
Lemma set_password_ok p st u st' :
  password_rejected (PStr p) = false ->
  set_password (PStr p) st = (Ok u, st') ->
  store_up (env st') = true /\ clock (env st') = clock (env st) /\
  tz_offset (env st') = tz_offset (env st) /\
  self st' = u /\ User.last_updated u = clock (env st) /\
  User.password u = Some (decode_ascii (hashpw (encode_utf8 p) (gensalt (salt_seed (env st))))) /\
  User.email u = User.email (self st) /\ User.first_name u = User.first_name (self st) /\
  User.last_name u = User.last_name (self st) /\
  User.date_created u = User.date_created (self st) /\
  exists n, User.id u = Some n /\ users st' = <[KOid n := u]> (users st).
Proof.
  intros Hp Hset. rewrite set_password_str in Hset by done.
  destruct (store_up (env st)) eqn:Hup; [|by rewrite save_self_down in Hset].
  rewrite save_self_up in Hset by done.
  unfold hashed_self, with_last_updated, with_password in Hset. cbn in Hset.
  destruct (User.id (self st)); simplify_eq; cbn; split_and!; eauto.
Qed.

(** What [check_password(q)] answers on a user whose stored hash is
    [hashpw p salt]. *)
Lemma check_password_hashed q p n st :
  password_rejected (PStr q) = false ->
  User.password (self st) = Some (decode_ascii (hashpw (encode_utf8 p) (gensalt n))) ->
  check_password (PStr q) st =
    (Ok (bool_decide (take bcrypt_max (encode_utf8 q) = take bcrypt_max (encode_utf8 p))), st).
Proof.
  intros Hq Hpw. unfold check_password. rewrite Hq. pysimp. cbn.
  rewrite Hpw. cbn. rewrite encode_decode_ascii by apply hashpw_ascii.
  by rewrite checkpw_hashpw.
Qed.

(** C4: After [set_password(p)] succeeds,
    [check_password(q)] answers whether [q] and [p] agree on their
    first 72 UTF-8 bytes, and changes nothing: in particular
    [check_password(p)] is [True]. *)
Theorem set_then_check p q st u st' :
  password_rejected (PStr p) = false -> password_rejected (PStr q) = false ->
  set_password (PStr p) st = (Ok u, st') ->
  check_password (PStr q) st' =
    (Ok (bool_decide (take bcrypt_max (encode_utf8 q) = take bcrypt_max (encode_utf8 p))), st').
Proof.
  intros Hp Hq Hset. destruct (set_password_ok p st u st' Hp Hset) as (_ & _ & _ & Hself & _ & Hpw & _).
  apply (check_password_hashed q p (salt_seed (env st))); [done|]. by rewrite Hself.
Qed.
End MethodTheorems.

(** ** A bcrypt that satisfies the laws

    The hash is the 29-byte salt followed by the hexadecimal form of the
    first 72 bytes of the password: as bcrypt, it keeps the salt in the
    hash, reads at most 72 bytes and is ASCII; unlike bcrypt it is not
    one-way, which no theorem here depends on. *)

Module ToyBcrypt.
Definition hexb (d : N) : Byte.byte :=
  let d' := (d mod 16)%N in byte_of_N (if (d' <? 10)%N then 48 + d' else 87 + d')%N.

Fixpoint hex_digits (k : nat) (n : N) : list Byte.byte :=
  match k with O => [] | S k' => hex_digits k' (n / 16)%N ++ [hexb n] end.

Definition prefix : list Byte.byte := String.list_byte_of_string "$2b$12$".

Definition hex_pair (b : Byte.byte) : list Byte.byte :=
  [hexb (Byte.to_N b / 16)%N; hexb (Byte.to_N b)].

Definition salt_len := 29%nat.

Definition hex_enc (p : list Byte.byte) : list Byte.byte := mjoin (hex_pair <$> take bcrypt_max p).

Definition toy_hashpw (p salt : list Byte.byte) : list Byte.byte := take salt_len salt ++ hex_enc p.

#[export] Instance toy : Bcrypt := {
  gensalt n := prefix ++ hex_digits 22 n;
  hashpw := toy_hashpw;
  checkpw p h :=
    if (length h <? salt_len)%nat then None
    else Some (bool_decide (toy_hashpw p (take salt_len h) = h))
}.

Lemma to_N_byte_of_N n : (n <= 255)%N -> Byte.to_N (byte_of_N n) = n.
Proof.
  intros Hn. unfold byte_of_N. pose proof (Byte.to_of_N_option_map n) as Hm.
  destruct (Byte.of_N n) as [b|]; cbn in Hm; destruct (N.leb_spec n 255); simplify_eq; [done|lia].
Qed.

Lemma hexb_val d : Byte.to_N (hexb d) =
  (if (d mod 16 <? 10)%N then 48 + d mod 16 else 87 + d mod 16)%N.
Proof.
  unfold hexb. pose proof (N.mod_lt d 16).
  destruct (N.ltb_spec (d mod 16) 10); rewrite to_N_byte_of_N; lia.
Qed.

Lemma hexb_inj d1 d2 : hexb d1 = hexb d2 -> (d1 mod 16 = d2 mod 16)%N.
Proof.
  intros Hd. apply (f_equal Byte.to_N) in Hd. rewrite !hexb_val in Hd.
  pose proof (N.mod_lt d1 16). pose proof (N.mod_lt d2 16).
  destruct (N.ltb_spec (d1 mod 16) 10), (N.ltb_spec (d2 mod 16) 10); lia.
Qed.

Lemma hex_pair_inj b1 b2 : hex_pair b1 = hex_pair b2 -> b1 = b2.
Proof.
  intros [= H1 H2]. apply hexb_inj in H1, H2.
  pose proof (Byte.to_N_bounded b1). pose proof (Byte.to_N_bounded b2).
  assert (Byte.to_N b1 / 16 < 16)%N by (apply N.Div0.div_lt_upper_bound; lia).
  assert (Byte.to_N b2 / 16 < 16)%N by (apply N.Div0.div_lt_upper_bound; lia).
  rewrite !N.mod_small in H1 by done.
  assert (Heq : Byte.to_N b1 = Byte.to_N b2).
  { rewrite (N.Div0.div_mod (Byte.to_N b1) 16), (N.Div0.div_mod (Byte.to_N b2) 16). lia. }
  pose proof (Byte.of_to_N b1) as E1. rewrite Heq, Byte.of_to_N in E1. by simplify_eq.
Qed.

Lemma hex_enc_inj (l1 l2 : list Byte.byte) :
  mjoin (hex_pair <$> l1) = mjoin (hex_pair <$> l2) -> l1 = l2.
Proof.
  revert l2. induction l1 as [|b1 l1 IH]; intros [|b2 l2]; cbn; try done.
  intros [= Ha Hb Hrest]. f_equal; [apply hex_pair_inj; unfold hex_pair; congruence|].
  by apply IH.
Qed.

Lemma hexb_ascii d : (Byte.to_N (hexb d) < 128)%N.
Proof. rewrite hexb_val. pose proof (N.mod_lt d 16). destruct (_ <? _)%N; lia. Qed.

Lemma hex_digits_ascii k n : is_ascii (hex_digits k n).
Proof.
  revert n. induction k as [|k IH]; intros n; cbn; [constructor|].
  apply Forall_app. split; [apply IH|]. constructor; [apply hexb_ascii|constructor].
Qed.

Lemma hex_digits_length k n : length (hex_digits k n) = k.
Proof. revert n. induction k as [|k IH]; intros n; cbn; [done|]. rewrite length_app, IH. cbn. lia. Qed.

Lemma toy_checkpw_hashpw s p p' :
  length s = salt_len ->
  checkpw p' (hashpw p s) = Some (bool_decide (take bcrypt_max p' = take bcrypt_max p)).
Proof.
  intros Hs. cbn [checkpw hashpw toy]. unfold toy_hashpw.
  rewrite length_app, length_take, Hs, Nat.min_id.
  replace (salt_len + length (hex_enc p) <? salt_len)%nat with false
    by (symmetry; apply Nat.ltb_ge; lia).
  rewrite take_app_length' by (rewrite length_take; lia).
  rewrite take_take, Nat.min_id. f_equal. apply bool_decide_ext.
  split; [|intros Heq; unfold hex_enc; by rewrite Heq].
  intros Heq. apply app_inv_head in Heq. by apply hex_enc_inj.
Qed.

#[export] Instance toy_ok : BcryptOk.
Proof.
  split.
  - intros p n. cbn [hashpw gensalt toy]. unfold toy_hashpw, hex_enc. apply Forall_app. split.
    + apply Forall_take, Forall_app. split; [repeat constructor|apply hex_digits_ascii].
    + induction (take bcrypt_max p) as [|b l IH]; cbn; [constructor|].
      repeat constructor; [apply hexb_ascii|apply hexb_ascii|done].
  - intros p p' n. change (gensalt n) with (prefix ++ hex_digits 22 n).
    apply toy_checkpw_hashpw. by rewrite length_app, hex_digits_length.
Qed.
End ToyBcrypt.

Section MoreMethodTheorems.
Context `{BcryptOk}.

(** C26: A successful [set_password(p)] stores
    in the [user] collection, under the user's ObjectId, a copy of
    [self] whose [password] is the ASCII-decoded bcrypt hash of [p] under
    a fresh salt and whose [last_updated] is the current UTC time; the
    other fields are unchanged and [self] is that copy. *)
Theorem set_password_persists p st u st' :
  password_rejected (PStr p) = false ->
  set_password (PStr p) st = (Ok u, st') ->
  self st' = u /\ User.last_updated u = clock (env st) /\
  User.password u = Some (decode_ascii (hashpw (encode_utf8 p) (gensalt (salt_seed (env st))))) /\
  User.email u = User.email (self st) /\ User.first_name u = User.first_name (self st) /\
  User.last_name u = User.last_name (self st) /\
  User.date_created u = User.date_created (self st) /\
  exists n, User.id u = Some n /\ users st' = <[KOid n := u]> (users st).
Proof.
  intros Hp Hset. by destruct (set_password_ok p st u st' Hp Hset) as (_ & _ & _ & Hr).
Qed.

(** C27: Every falsy or non-text password makes both methods raise
    [ValueError] before anything is changed: the empty [str], the empty
    [bytes], and every value that is neither [str] nor [bytes] ([None],
    booleans, integers, ObjectIds). *)
Theorem password_guard v st :
  match v with PStr s => s = ""%string | PBytes bs => bs = [] | _ => True end ->
  set_password v st = (Err password_error, st) /\ check_password v st = (Err password_error, st).
Proof.
  intros Hv. assert (Hr : password_rejected v = true)
    by (destruct v; subst; unfold password_rejected; by rewrite ?orb_true_r).
  unfold set_password, check_password. by rewrite Hr.
Qed.

(** C28: A non-empty [bytes] password passes the
    guard, which admits bytes, and then both methods raise
    [AttributeError] on [password.encode]: bytes are not usable. *)
Theorem bytes_password_crash bs st :
  bs <> [] ->
  set_password (PBytes bs) st =
    (Err (AttributeError "'bytes' object has no attribute 'encode'"), st) /\
  check_password (PBytes bs) st =
    (Err (AttributeError "'bytes' object has no attribute 'encode'"), st).
Proof.
  intros Hbs. unfold set_password, check_password, password_rejected. cbn.
  by rewrite bool_decide_false.
Qed.

(** C29: [check_password] on a user whose password
    was never set raises [AttributeError] ([None.encode]) instead of
    answering [False]. *)
Theorem check_password_unset q st :
  password_rejected (PStr q) = false -> User.password (self st) = None ->
  check_password (PStr q) st =
    (Err (AttributeError "'NoneType' object has no attribute 'encode'"), st).
Proof. intros Hq Hpw. unfold check_password. rewrite Hq. pysimp. cbn. by rewrite Hpw. Qed.

(** C30: With the store down, [set_password]
    raises [PersistenceError] after it has already changed [self]: the
    object in memory carries the new hash and timestamp, the store does
    not. *)
Theorem set_password_store_down p st r st' :
  password_rejected (PStr p) = false -> store_up (env st) = false ->
  set_password (PStr p) st = (r, st') ->
  r = Err PersistenceError /\ users st' = users st /\ self st' = hashed_self p st.
Proof.
  intros Hp Hdown Hset. rewrite set_password_str, save_self_down in Hset by done.
  by simplify_eq.
Qed.
End MoreMethodTheorems.

(** ** The methods on concrete data, with [ToyBcrypt] *)

Module CredentialExamples.
Import ToyBcrypt.

Definition env0 : Env := mkEnv 1000 0 true 7 0 [].
Definition ada : User.t := User.new 900 (Some "ada@example.com") (Some "Ada") (Some "Lovelace").
Definition st0 : UserSt := mkUserSt env0 ∅ ada.

Definition result_user (r : res User.t) : User.t :=
  match r with Ok u => u | Err _ => ada end.

(** A user whose password is set to ["hunter2"]
    is stored with a hash that is not ["hunter2"]; [check_password]
    accepts ["hunter2"] and refuses ["hunter3"]. *)
Example hunter2_scenario :
  match set_password (PStr "hunter2") st0 with
  | (Ok u, st1) =>
      User.password u <> Some "hunter2" /\
      fst (check_password (PStr "hunter2") st1) = Ok true /\
      fst (check_password (PStr "hunter3") st1) = Ok false
  | _ => False
  end.
Proof. vm_compute. split_and!; [discriminate|reflexivity|reflexivity]. Qed.

Definition p80 : string := String.string_of_list_ascii (repeat "a"%char 80).
Definition q80 : string := String.string_of_list_ascii (repeat "a"%char 72 ++ repeat "b"%char 8).
Definition set80 := set_password (PStr p80) st0.

Lemma set_then_check_witness :
  check_password (PStr q80) (snd set80) =
    (Ok (bool_decide (take bcrypt_max (encode_utf8 q80) = take bcrypt_max (encode_utf8 p80))),
     snd set80) /\
  bool_decide (take bcrypt_max (encode_utf8 q80) = take bcrypt_max (encode_utf8 p80)) = true /\
  q80 <> p80.
Proof.
  split_and!; [|vm_compute; reflexivity|vm_compute; discriminate].
  refine (set_then_check p80 q80 st0 (result_user (fst set80)) (snd set80) _ _ _);
    vm_compute; reflexivity.
Defined.

Lemma set_password_persists_witness :
  let u := result_user (fst (set_password (PStr "hunter2") st0)) in
  let st' := snd (set_password (PStr "hunter2") st0) in
  self st' = u /\ User.last_updated u = clock (env st0) /\
  User.password u = Some (decode_ascii (hashpw (encode_utf8 "hunter2") (gensalt (salt_seed (env st0))))) /\
  User.email u = User.email (self st0) /\ User.first_name u = User.first_name (self st0) /\
  User.last_name u = User.last_name (self st0) /\
  User.date_created u = User.date_created (self st0) /\
  exists n, User.id u = Some n /\ users st' = <[KOid n := u]> (users st0).
Proof.
  refine (set_password_persists "hunter2" st0 _ _ _ _); vm_compute; reflexivity.
Defined.

Lemma password_guard_witness :
  set_password (PStr "") st0 = (Err password_error, st0) /\
  check_password (PStr "") st0 = (Err password_error, st0).
Proof. refine (password_guard (PStr "") st0 _). reflexivity. Defined.

Lemma bytes_password_crash_witness :
  set_password (PBytes [Byte.x61]) st0 =
    (Err (AttributeError "'bytes' object has no attribute 'encode'"), st0) /\
  check_password (PBytes [Byte.x61]) st0 =
    (Err (AttributeError "'bytes' object has no attribute 'encode'"), st0).
Proof. refine (bytes_password_crash [Byte.x61] st0 _). discriminate. Defined.

Lemma check_password_unset_witness :
  check_password (PStr "hunter2") st0 =
    (Err (AttributeError "'NoneType' object has no attribute 'encode'"), st0).
Proof. refine (check_password_unset "hunter2" st0 _ _); reflexivity. Defined.

Definition st_down : UserSt := mkUserSt (mkEnv 1000 0 false 7 0 []) ∅ ada.

Lemma set_password_store_down_witness :
  @Err User.t PersistenceError = Err PersistenceError /\
  users (snd (set_password (PStr "hunter2") st_down)) = users st_down /\
  self (snd (set_password (PStr "hunter2") st_down)) = hashed_self "hunter2" st_down.
Proof.
  refine (set_password_store_down "hunter2" st_down (Err PersistenceError)
            (snd (set_password (PStr "hunter2") st_down)) _ _ _);
    [reflexivity|reflexivity|vm_compute; reflexivity].
Defined.
End CredentialExamples.
