(* ===== verification/Token.v ===== *)
(** * Tokens: [User.auth_token] and PyJWT validation

    [src/src/models.py] lines 137-149 issue the token; PyJWT's
    [jwt.decode] validates it (library code, modelled from its documented
    behaviour): the header's algorithm must be allowed, the signature must
    verify under the secret, and the [exp] claim must be in the future
    ([exp <= now] raises [ExpiredSignatureError]).

    [Jwt] is the signing interface, with an abstract signature type;
    [ToyJwt] is one instance, used by the examples.  The theorems hold
    for every instance: they are about the tokens [auth_token] issues.

    Time: [exp] is [datetime.now() + timedelta(hours=...)], a naive local
    time which PyJWT converts as if it were UTC; it is compared with
    UTC time at validation. *)

From S2P Require Import Prelude Store Entities Credentials.

(** ** Payload and tokens *)

Record Payload := mkPayload {
  p_first_name : option string;
  p_last_name : option string;
  p_id : string;
  p_exp : Z
}.

#[export] Instance Payload_eqdec : EqDecision Payload.
Proof. solve_decision. Defined.

Class Jwt := {
  sig : Type;
  sig_eqdec :: EqDecision sig;
  (** the signature [jwt.encode] computes with [key] and [algorithm] *)
  sign : string -> string -> Payload -> sig
}.

(** A token as [jwt.decode] sees it: a well-formed compact token, or a
    string that does not parse. *)
Inductive jwt `{Jwt} :=
  | JWT (alg : string) (payload : Payload) (signature : sig)
  | Malformed (raw : string).

(** The configuration read from [settings]. *)
Record Settings := mkSettings {
  JWT_SECRET_KEY : string;
  JWT_ALGORITHM : string;
  JWT_EXPIRES_IN_HOURS : Z
}.

(** The outcome of validation (the token's state machine, spec 4.3). *)
Inductive status := Valid (p : Payload) | Expired | Invalid.

#[export] Instance status_eqdec : EqDecision status.
Proof. solve_decision. Defined.

Section Tokens.
Context `{Jwt}.

(** [jwt.encode(payload, key=..., algorithm=...)] *)
Definition jwt_encode (p : Payload) (key alg : string) : jwt := JWT alg p (sign key alg p).

(** [jwt.decode(token, key, algorithms=[...])] at UTC time [now]. *)
Definition jwt_decode (key : string) (algorithms : list string) (now : Z) (t : jwt) : status :=
  match t with
  | Malformed _ => Invalid
  | JWT alg p s =>
      if decide (alg ∈ algorithms) then
        if decide (s = sign key alg p) then
          if (p_exp p <=? now)%Z then Expired else Valid p
        else Invalid
      else Invalid
  end.

Variable settings : Settings.

(** [User.auth_token] (137-149) *)
Definition auth_token : PyM UserSt jwt :=
  st <- py_get ;;
  match User.id (self st) with
  | None => py_raise (ValueError "Cannot generate token for unsaved object")
  | Some n =>
      now <- on_env now_local ;;
      let expires_in := (now + 3600 * JWT_EXPIRES_IN_HOURS settings)%Z in
      let payload := mkPayload (User.first_name (self st)) (User.last_name (self st))
                               (pkey_str (KOid n)) expires_in in
      py_ret (jwt_encode payload (JWT_SECRET_KEY settings) (JWT_ALGORITHM settings))
  end.

(** The validation the gate performs with the same settings. *)
Definition validate (now : Z) (t : jwt) : status :=
  jwt_decode (JWT_SECRET_KEY settings) [JWT_ALGORITHM settings] now t.

End Tokens.

Section TokenTheorems.
Context `{Jwt}.
Variable settings : Settings.

(** The payload [auth_token] builds for a user with ObjectId [n]. *)
Definition issued_payload (st : UserSt) (n : N) : Payload :=
  mkPayload (User.first_name (self st)) (User.last_name (self st)) (ObjectId.to_str n)
            (clock (env st) + tz_offset (env st) + 3600 * JWT_EXPIRES_IN_HOURS settings)%Z.

Lemma auth_token_run st n :
  User.id (self st) = Some n ->
  auth_token settings st =
    (Ok (jwt_encode (issued_payload st n) (JWT_SECRET_KEY settings) (JWT_ALGORITHM settings)), st).
Proof. intros Hn. unfold auth_token, py_bind, py_get. rewrite Hn. by destruct st. Qed.

Lemma validate_issued st n now :
  validate settings now
    (jwt_encode (issued_payload st n) (JWT_SECRET_KEY settings) (JWT_ALGORITHM settings)) =
  if (p_exp (issued_payload st n) <=? now)%Z then Expired else Valid (issued_payload st n).
Proof.
  unfold validate, jwt_decode, jwt_encode.
  rewrite decide_True by set_solver. by rewrite decide_True.
Qed.

(** C31: [auth_token] on a user that was never saved
    raises [ValueError] and changes nothing. *)
Theorem auth_token_unsaved st :
  User.id (self st) = None ->
  auth_token settings st = (Err (ValueError "Cannot generate token for unsaved object"), st).
Proof. intros Hn. unfold auth_token, py_bind, py_get. by rewrite Hn. Qed.

(** Before its expiry, the token [auth_token] returns validates to
    [issued_payload]; issuing changes nothing. *)
Lemma auth_token_validates st n t st' now :
  User.id (self st) = Some n -> auth_token settings st = (Ok t, st') ->
  (now < clock (env st) + tz_offset (env st) + 3600 * JWT_EXPIRES_IN_HOURS settings)%Z ->
  st' = st /\ validate settings now t = Valid (issued_payload st n).
Proof.
  intros Hn Htok Hnow. rewrite (auth_token_run st n Hn) in Htok. injection Htok as <- <-.
  split; [done|]. rewrite validate_issued. cbn.
  destruct (Z.leb_spec (clock (env st) + tz_offset (env st) +
            3600 * JWT_EXPIRES_IN_HOURS settings) now); [lia|done].
Qed.

(** C5: A token issued for a saved user validates,
    before its expiry, to a payload whose [id] parses back to the user's
    ObjectId and whose names are the user's; issuing changes nothing. *)
Theorem auth_token_roundtrip st n t st' now :
  User.id (self st) = Some n -> (n < 2 ^ 96)%N ->
  auth_token settings st = (Ok t, st') ->
  (now < clock (env st) + tz_offset (env st) + 3600 * JWT_EXPIRES_IN_HOURS settings)%Z ->
  st' = st /\
  exists p, validate settings now t = Valid p /\ ObjectId.of_str (p_id p) = Some n /\
            p_first_name p = User.first_name (self st) /\ p_last_name p = User.last_name (self st).
Proof.
  intros Hn Hbound Htok Hnow.
  destruct (auth_token_validates st n t st' now Hn Htok Hnow) as [-> Hv].
  split; [done|]. exists (issued_payload st n).
  split_and!; [done| |done|done]. cbn [p_id issued_payload]. by rewrite ObjectId.of_str_to_str_mod, N.mod_small.
Qed.

(** C20: The token issued at UTC time [c] is expired
    at UTC time [now] exactly when [c + tz_offset + 3600 * hours <= now]:
    the naive local [datetime.now()] shifts the expiry by the server's
    UTC offset, and a server behind UTC by [hours] or more issues tokens
    that are expired at once. *)
Theorem auth_token_lifetime st n t st' now :
  User.id (self st) = Some n ->
  auth_token settings st = (Ok t, st') ->
  (validate settings now t = Expired <->
   (clock (env st) + tz_offset (env st) + 3600 * JWT_EXPIRES_IN_HOURS settings <= now)%Z) /\
  validate settings now t <> Invalid.
Proof.
  intros Hn Htok. rewrite (auth_token_run st n Hn) in Htok. injection Htok as <- <-.
  rewrite validate_issued. cbn.
  destruct (Z.leb_spec (clock (env st) + tz_offset (env st) +
            3600 * JWT_EXPIRES_IN_HOURS settings) now);
    (split; [split; intros; first [done|lia]|done]).
Qed.
End TokenTheorems.



(** ** An ideal MAC: the signature is the signed triple itself *)

Module ToyJwt.
#[export] Instance toy : Jwt := {
  sig := (string * string * Payload)%type;
  sign k a p := (k, a, p)
}.
End ToyJwt.

Module TokenExamples.
Import ToyJwt.

Definition settings : Settings := mkSettings "s3cret" "HS256" 1.
(** a saved user, at 12:00 UTC on a server whose local time is UTC-5 *)
Definition ada : User.t :=
  User.mk (Some 42%N) (Some "ada@example.com") (Some "Ada") None (Some "Lovelace") 0 0.
Definition st_utc : UserSt := mkUserSt (mkEnv 43200 0 true 43 0 []) ∅ ada.
Definition st_west : UserSt := mkUserSt (mkEnv 43200 (-18000) true 43 0 []) ∅ ada.
Definition unsaved : UserSt :=
  mkUserSt (mkEnv 43200 0 true 43 0 []) ∅ (User.new 0 None (Some "Bob") None).

Definition token_of (st : UserSt) : jwt :=
  match fst (auth_token settings st) with Ok t => t | Err _ => Malformed "" end.

Lemma auth_token_unsaved_witness :
  auth_token settings unsaved =
    (Err (ValueError "Cannot generate token for unsaved object"), unsaved).
Proof. refine (auth_token_unsaved settings unsaved _). reflexivity. Defined.

Lemma auth_token_roundtrip_witness :
  st_utc = st_utc /\
  exists p, validate settings 43201 (token_of st_utc) = Valid p /\
            ObjectId.of_str (p_id p) = Some 42%N /\
            p_first_name p = User.first_name (self st_utc) /\
            p_last_name p = User.last_name (self st_utc).
Proof.
  refine (auth_token_roundtrip settings st_utc 42 (token_of st_utc) st_utc 43201 _ _ _ _);
    [reflexivity|vm_compute; reflexivity|reflexivity|vm_compute; reflexivity].
Defined.

(** At UTC-5, a one-hour token is expired the moment it is issued. *)
Lemma auth_token_lifetime_witness :
  (validate settings 43200 (token_of st_west) = Expired <->
   (clock (env st_west) + tz_offset (env st_west) + 3600 * JWT_EXPIRES_IN_HOURS settings
      <= 43200)%Z) /\
  validate settings 43200 (token_of st_west) <> Invalid /\
  validate settings 43200 (token_of st_west) = Expired.
Proof.
  split; [|split; [|vm_compute; reflexivity]];
  [refine (proj1 (auth_token_lifetime settings st_west 42 (token_of st_west) st_west 43200 _ _))
  |refine (proj2 (auth_token_lifetime settings st_west 42 (token_of st_west) st_west 43200 _ _))];
  reflexivity.
Defined.


End TokenExamples.
