(* ===== verification/Gate.v ===== *)
(** * The authentication gate: [AuthMiddleware] in front of the WSGI app

    [src/app.py] lines 8-10 wrap the Flask WSGI app in [AuthMiddleware]
    with an allow-list of paths.  The middleware's own source
    ([src/base/middleware.py]) is not part of the sources, so
    [auth_middleware] follows the specification (4.4): an allow-listed
    path is forwarded unchanged; otherwise the request's token is
    validated ([Token.validate]) and the request is forwarded with the
    decoded claims attached, or answered with [AuthError] without running
    the next handler.

    [authorized] is the gate's contract and [gate_refines] shows the
    middleware implements it for any downstream handler. *)

From S2P Require Import Prelude Store Entities Credentials Token.

Record request `{Jwt} := mkRequest {
  path : string;
  (** the token the transport extracted (e.g. from [Authorization]) *)
  token : option jwt;
  (** the claims the gate attached *)
  identity : option Payload
}.
Arguments request {_}.
Arguments mkRequest {_} _ _ _.

Section Gate.
Context `{Jwt} {S R : Type}.
Variable settings : Settings.

Definition attach (p : Payload) (req : request) : request :=
  mkRequest (path req) (token req) (Some p).

(** [AuthMiddleware.__call__] at UTC time [now]; [next] is the wrapped
    WSGI app. *)
Definition auth_middleware (ignored_endpoints : list string) (now : Z)
    (next : request -> PyM S R) (req : request) : PyM S R :=
  if decide (path req ∈ ignored_endpoints) then next req
  else match token req with
       | None => py_raise (AuthError "missing token")
       | Some t =>
           match validate settings now t with
           | Valid p => next (attach p req)
           | Expired => py_raise (AuthError "token expired")
           | Invalid => py_raise (AuthError "invalid token")
           end
       end.

(** The contract: the request the next handler may see, if any. *)
Definition authorized (ignored_endpoints : list string) (now : Z) (req : request)
  : option request :=
  if decide (path req ∈ ignored_endpoints) then Some req
  else match token req with
       | Some t => match validate settings now t with
                   | Valid p => Some (attach p req)
                   | _ => None
                   end
       | None => None
       end.
End Gate.

(** [app.wsgi_app = AuthMiddleware(app.wsgi_app, settings=settings,
    ignored_endpoints=[...])] *)
Definition app_ignored_endpoints : list string :=
  ["/register"; "/login"; "/options"; "/features"; "/apartments"].

Definition app_wsgi `{Jwt} {S R} (settings : Settings) (now : Z)
    (wsgi_app : request -> PyM S R) : request -> PyM S R :=
  auth_middleware settings app_ignored_endpoints now wsgi_app.

Section GateTheorems.
Context `{Jwt} {S R : Type}.
Variable settings : Settings.
Implicit Types (next : request -> PyM S R) (req : request) (s : S).

(** The middleware implements its contract for any allow-list. *)
Lemma gate_refines ignored now next req s :
  match authorized settings ignored now req with
  | Some r => auth_middleware settings ignored now next req s = next r s
  | None => exists msg, auth_middleware settings ignored now next req s = (Err (AuthError msg), s)
  end.
Proof.
  unfold authorized, auth_middleware. case_decide; [done|].
  destruct (token req) as [t|]; [|by eexists].
  destruct (validate settings now t); [done|by eexists|by eexists].
Qed.

(** An allow-listed path is forwarded unchanged. *)
Lemma gate_allowlisted ignored now next req :
  path req ∈ ignored -> auth_middleware settings ignored now next req = next req.
Proof. intros Hin. unfold auth_middleware. by rewrite decide_True. Qed.

(** On a protected path, a token that validates to [p] is forwarded
    with [p] attached. *)
Lemma gate_forwards_valid ignored now next req s t p :
  path req ∉ ignored -> token req = Some t -> validate settings now t = Valid p ->
  auth_middleware settings ignored now next req s = next (attach p req) s.
Proof. intros Hpath Ht Hv. unfold auth_middleware. rewrite decide_False by done. by rewrite Ht, Hv. Qed.

(** C6: A request without a token reaches the
    app exactly when its path is one of the five [app.py] exempts
    (["/register"], ["/login"], ["/options"], ["/features"],
    ["/apartments"]); on any other path the gate answers
    [AuthError "missing token"] and the app does not run. *)
Theorem app_gate_unauthenticated now next req s :
  token req = None ->
  app_wsgi settings now next req s =
    if decide (path req ∈ ["/register"; "/login"; "/options"; "/features"; "/apartments"])
    then next req s else (Err (AuthError "missing token"), s).
Proof. intros Ht. unfold app_wsgi, auth_middleware, app_ignored_endpoints. case_decide; [done|by rewrite Ht]. Qed.

(** A request to one of the five paths [app.py] exempts
    (["/register"], ["/login"], ["/options"], ["/features"],
    ["/apartments"]) reaches the app unchanged, with or without a token. *)
Lemma app_allowlisted now next req :
  path req ∈ app_ignored_endpoints -> app_wsgi settings now next req = next req.
Proof. intros Hin. by apply gate_allowlisted. Qed.
End GateTheorems.

Module GateExamples.
Import ToyJwt TokenExamples.

(** The downstream app: it answers with the identity it was given. *)
Definition echo (req : request) : PyM unit (option Payload) := py_ret (identity req).

Definition login_req : request := mkRequest "/login" None None.
Definition products_req : request := mkRequest "/products" None None.
Definition products_auth : request := mkRequest "/products" (Some (token_of st_utc)) None.

(** With the allow-list of [app.py]: ["/login"]
    without a token reaches the app; ["/products"] without a token is
    refused with [AuthError]; with a fresh token of the saved user it
    reaches the app, which sees the user's claims. *)
Example app_gate_scenario :
  app_wsgi settings 43201 echo login_req tt = (Ok None, tt) /\
  app_wsgi settings 43201 echo products_req tt = (Err (AuthError "missing token"), tt) /\
  (exists p, app_wsgi settings 43201 echo products_auth tt = (Ok (Some p), tt) /\
             p_id p = ObjectId.to_str 42 /\ p_first_name p = Some "Ada").
Proof.
  split_and!; [vm_compute; reflexivity|vm_compute; reflexivity|].
  eexists. split; [vm_compute; reflexivity|split; reflexivity].
Qed.

Lemma app_allowlisted_witness :
  app_wsgi settings 0 echo login_req = echo login_req.
Proof. refine (app_allowlisted settings 0 echo login_req _). set_solver. Defined.

Lemma app_gate_unauthenticated_witness :
  app_wsgi settings 0 echo products_req tt =
    if decide (path products_req ∈ ["/register"; "/login"; "/options"; "/features"; "/apartments"])
    then echo products_req tt else (Err (AuthError "missing token"), tt).
Proof. refine (app_gate_unauthenticated settings 0 echo products_req tt _). reflexivity. Defined.
End GateExamples.
