(* ===== verification/Service.v ===== *)
(** * The generic CRUD service: [ServiceFactory.create_service(Model)]

    [src/src/services/product.py] builds [ProductService] from
    [ServiceFactory.create_service(Product)] and adds [register], which is
    [cls.create( **kwargs)].  The factory itself ([src/base/service.py]) is
    not among the sources: [create], [read], [update], [delete] and
    [list_docs] follow the specification (4.2), over the store of
    [Store.v].  An entity provides what the factory needs through the
    [Entity] class (construction from keyword arguments with the field
    defaults, merging keyword arguments, the [last_updated] stamp).

    The service's state is the environment and the entity's collection.
    [svc_step] is one service call (a listing included), an outage or
    the clock advancing; the store
    invariant [coll_wf] and the timestamp invariant [stamps_wf] hold in
    every reachable state, and [last_updated] never decreases. *)

From S2P Require Import Prelude Store Entities.


Class Entity (E : Type) `{Document E} := {
  (** [Model( **kwargs)] at UTC time [now]: the timestamps default to [now] *)
  from_kwargs : Z -> kwargs -> E;
  (** [setattr(obj, k, v)] for each keyword argument *)
  merge_kwargs : kwargs -> E -> E;
  date_created : E -> Z;
  last_updated : E -> Z;
  set_last_updated : Z -> E -> E
}.

Class EntityOk (E : Type) `{Entity E} := {
  entity_doc_ok :: DocumentOk E;
  from_kwargs_stamps now kw :
    date_created (from_kwargs now kw) = now /\ last_updated (from_kwargs now kw) = now;
  from_kwargs_no_pk now kw : pk (from_kwargs now kw) = None;
  merge_pk kw e : pk (merge_kwargs kw e) = pk e;
  merge_stamps kw e : date_created (merge_kwargs kw e) = date_created e;
  set_last_updated_pk t e : pk (set_last_updated t e) = pk e;
  set_last_updated_stamps t e :
    last_updated (set_last_updated t e) = t /\ date_created (set_last_updated t e) = date_created e;
  set_pk_stamps n e : date_created (set_pk n e) = date_created e /\ last_updated (set_pk n e) = last_updated e
}.

(** The state a service works on: the environment and its collection. *)
Definition SvcSt (E : Type) := (Env * gmap pkey E)%type.

Section Service.
Context `{Entity E}.
Implicit Types (coll : gmap pkey E) (e : E) (kw : kwargs).

Definition lift_env {A} (m : PyM Env A) : PyM (SvcSt E) A :=
  fun '(env, coll) => let '(r, env') := m env in (r, (env', coll)).

(** [Service.create( **kwargs)] *)
Definition create kw : PyM (SvcSt E) E :=
  now <- lift_env utcnow ;;
  save (from_kwargs now kw).

(** [Service.read(key)]: one find; [NotFoundError] if absent. *)
Definition read (k : pkey) : PyM (SvcSt E) E :=
  fun '(env, coll) =>
    let '(r, env') := store_call (TFind collection_name (pyval_of_pkey k)) (coll !! k) env in
    match r with
    | Ok (Some e) => (Ok e, (env', coll))
    | Ok None => (Err NotFoundError, (env', coll))
    | Err x => (Err x, (env', coll))
    end.

(** [Service.update(key, **kwargs)] *)
Definition update (k : pkey) kw : PyM (SvcSt E) E :=
  e <- read k ;;
  now <- lift_env utcnow ;;
  save (set_last_updated now (merge_kwargs kw e)).

(** [Service.delete(key)] *)
Definition delete (k : pkey) : PyM (SvcSt E) unit :=
  _ <- read k ;;
  delete_doc k.

(** [Service.list(filter)]: the matching documents, in key order. *)
Definition list_docs (filter : E -> bool) : PyM (SvcSt E) (list E) :=
  fun '(env, coll) =>
    let '(r, env') := store_call (TFind collection_name PNone)
                        (List.filter filter (snd <$> map_to_list coll)) env in
    (r, (env', coll)).
End Service.

(** [ProductService.register( **kwargs)] (services/product.py 13-22): the
    generic [create] under another name. *)
Definition register `{Entity E} (kw : kwargs) : PyM (SvcSt E) E := create kw.

(** ** One step of the service layer: a call, or time passing *)

Definition advance (d : Z) (env : Env) : Env :=
  mkEnv (clock env + d) (tz_offset env) (store_up env) (next_oid env) (salt_seed env) (trips env).

Definition set_store_up (b : bool) (env : Env) : Env :=
  mkEnv (clock env) (tz_offset env) b (next_oid env) (salt_seed env) (trips env).

Inductive svc_step `{Entity E} : SvcSt E -> SvcSt E -> Prop :=
  | step_tick env coll d : (0 <= d)%Z -> svc_step (env, coll) (advance d env, coll)
  | step_outage env coll b : svc_step (env, coll) (set_store_up b env, coll)
  | step_create s s' kw r : create kw s = (r, s') -> svc_step s s'
  | step_read s s' k r : read k s = (r, s') -> svc_step s s'
  | step_update s s' k kw r : update k kw s = (r, s') -> svc_step s s'
  | step_delete s s' k r : delete k s = (r, s') -> svc_step s s'
  | step_list s s' f r : list_docs f s = (r, s') -> svc_step s s'.

Inductive svc_reach `{Entity E} : SvcSt E -> SvcSt E -> Prop :=
  | svc_refl s : svc_reach s s
  | svc_trans s1 s2 s3 : svc_step s1 s2 -> svc_reach s2 s3 -> svc_reach s1 s3.

(** Every stored document was created no later than it was last updated,
    and no later than now. *)
Definition stamps_wf `{Entity E} (s : SvcSt E) : Prop :=
  map_Forall (fun _ e => (date_created e <= last_updated e <= clock (fst s))%Z) (snd s).

(** What one step may do to the stored documents: the clock does not go
    back, and each document is an old one or was just saved, stamped with
    the current time and created now or when an old one was. *)
Definition frame `{Entity E} (s s' : SvcSt E) : Prop :=
  (clock (fst s) <= clock (fst s'))%Z /\
  forall k e', snd s' !! k = Some e' ->
    snd s !! k = Some e' \/
    (last_updated e' = clock (fst s') /\
     (date_created e' = clock (fst s') \/
      exists k0 e0, snd s !! k0 = Some e0 /\ date_created e' = date_created e0)).

Definition svc_wf `{Entity E} (s : SvcSt E) : Prop := coll_wf (fst s) (snd s) /\ stamps_wf s.

Section ServiceTheorems.
Context `{EntityOk E}.
Implicit Types (coll : gmap pkey E) (e : E) (kw : kwargs) (s : SvcSt E).

(** ** Running the operations *)

Lemma read_run k env coll :
  read k (env, coll) =
    if store_up env then
      (match coll !! k with Some e => Ok e | None => Err NotFoundError end,
       (log_trip (TFind collection_name (pyval_of_pkey k)) env, coll))
    else (Err PersistenceError, (env, coll)).
Proof. unfold read, store_call. destruct (store_up env); [by destruct (coll !! k)|done]. Qed.

Lemma create_run kw env coll : create kw (env, coll) = save (from_kwargs (clock env) kw) (env, coll).
Proof. done. Qed.

Lemma update_run k kw s :
  update k kw s =
    match read k s with
    | (Ok e, (env1, coll1)) => save (set_last_updated (clock env1) (merge_kwargs kw e)) (env1, coll1)
    | (Err x, s1) => (Err x, s1)
    end.
Proof. unfold update, py_bind. by destruct (read k s) as [[e|x] [env1 coll1]]. Qed.

Lemma delete_run k s :
  delete k s = match read k s with
               | (Ok _, s1) => delete_doc k s1
               | (Err x, s1) => (Err x, s1)
               end.
Proof. unfold delete, py_bind. by destruct (read k s) as [[e|x] s1]. Qed.

(** [read] only logs; on success the document is the stored one. *)
Lemma read_effect k s r s' :
  read k s = (r, s') ->
  snd s' = snd s /\ clock (fst s') = clock (fst s) /\ store_up (fst s') = store_up (fst s) /\
  next_oid (fst s') = next_oid (fst s) /\ (forall e, r = Ok e -> snd s !! k = Some e).
Proof.
  destruct s as [env coll]. rewrite read_run.
  destruct (store_up env) eqn:Hup; [|intros [= <- <-]; by split_and!].
  destruct (coll !! k) eqn:Hk; intros [= <- <-]; split_and!; try done; by intros ? [= <-].
Qed.

(** ** One step, seen from the stored documents *)

Lemma read_frame k s r s' : read k s = (r, s') -> frame s s'.
Proof.
  intros Hr. destruct (read_effect _ _ _ _ Hr) as (Hc & Hclk & _).
  unfold frame. rewrite Hc, Hclk. split; [lia|eauto].
Qed.

(** [list] only logs its round trip, and returns the stored documents
    the filter keeps. *)
Lemma list_docs_effect f s r s' :
  list_docs f s = (r, s') ->
  snd s' = snd s /\ clock (fst s') = clock (fst s) /\ next_oid (fst s') = next_oid (fst s) /\
  forall es, r = Ok es -> forall e, e ∈ es <-> (exists k, snd s !! k = Some e) /\ f e = true.
Proof.
  destruct s as [env coll]. unfold list_docs, store_call.
  destruct (store_up env); intros [= <- <-]; split_and!; try done.
  intros es [= <-] e. rewrite list_elem_of_In, filter_In, <- list_elem_of_In, list_elem_of_fmap.
  split; [intros [[[k e'] [-> Hk%elem_of_map_to_list]] Hf]; eauto|].
  intros [[k Hk] Hf]. split; [|done]. exists (k, e). by rewrite elem_of_map_to_list.
Qed.

(** The listing is restartable: listing again gives the same documents. *)
Lemma list_docs_restart f s es s' :
  list_docs f s = (Ok es, s') -> store_up (fst s') = true -> fst (list_docs f s') = Ok es.
Proof.
  destruct s as [env coll]. unfold list_docs, store_call.
  destruct (store_up env) eqn:Hup; [|done]. intros [= <- <-]. cbn. by intros ->.
Qed.

Lemma list_docs_frame f s r s' : list_docs f s = (r, s') -> frame s s'.
Proof.
  intros Hl. destruct (list_docs_effect _ _ _ _ Hl) as (Hc & Hclk & _).
  unfold frame. rewrite Hc, Hclk. split; [lia|eauto].
Qed.

(** A save of [e] stamped now, created now or as the stored [e0] was. *)
Lemma save_frame e env coll r env' coll' :
  save e (env, coll) = (r, (env', coll')) ->
  last_updated e = clock env ->
  (date_created e = clock env \/ exists k0 e0, coll !! k0 = Some e0 /\ date_created e = date_created e0) ->
  frame (env, coll) (env', coll').
Proof.
  intros Hs Hlu Hdc. unfold frame.
  destruct (save_effect _ _ _ _ _ _ Hs) as (Hclk & _ & _ & [[-> _]|(k0 & e0 & -> & _ & -> & He0)]);
    cbn; split; try lia; [eauto|].
  intros k e'. rewrite lookup_insert. case_decide; [intros [= <-]|eauto]. right.
  destruct He0 as [->|[n ->]]; [rewrite Hclk; naive_solver|].
  destruct (set_pk_stamps n e) as [-> ->]. rewrite Hclk. naive_solver.
Qed.

Lemma create_frame kw s r s' : create kw s = (r, s') -> frame s s'.
Proof.
  destruct s as [env coll], s' as [env' coll']. rewrite create_run. intros Hc.
  destruct (from_kwargs_stamps (clock env) kw) as [Hdc Hlu]. eapply save_frame; eauto.
Qed.

Lemma update_frame k kw s r s' : update k kw s = (r, s') -> frame s s'.
Proof.
  rewrite update_run. destruct (read k s) as [[e|x] [env1 coll1]] eqn:Hr;
    destruct (read_effect _ _ _ _ Hr) as (Hc & Hclk & _ & _ & He); cbn in Hc, Hclk; subst coll1;
    [|intros [= <- <-]; apply (read_frame k s (Err x)); by rewrite Hr].
  specialize (He e eq_refl). destruct s as [env coll], s' as [env' coll']. intros Hu.
  destruct (set_last_updated_stamps (clock env1) (merge_kwargs kw e)) as [Hlu Hdc].
  rewrite merge_stamps in Hdc.
  cbn in He, Hclk. destruct (save_frame _ _ _ _ _ _ Hu Hlu) as [Hclk' Hf].
  { right. exists k, e. by split. }
  unfold frame. cbn in *. split; [lia|]. intros k' e' He'. destruct (Hf k' e' He'); auto.
Qed.

Lemma delete_frame k s r s' : delete k s = (r, s') -> frame s s'.
Proof.
  unfold frame. rewrite delete_run. destruct (read k s) as [[e|x] [env1 coll1]] eqn:Hr;
    destruct (read_effect _ _ _ _ Hr) as (Hc & Hclk & _); cbn in Hc, Hclk; subst coll1.
  - unfold delete_doc. destruct (store_up env1); intros [= <- <-]; cbn; rewrite Hclk;
      (split; [lia|]); intros k' e'; rewrite ?lookup_delete_Some; naive_solver.
  - intros [= <- <-]. cbn. rewrite Hclk. split; [lia|eauto].
Qed.

Lemma svc_step_frame s s' : svc_step s s' -> frame s s'.
Proof.
  destruct 1 as [env coll d Hd|env coll b|s1 s2 kw r Hc|s1 s2 k r Hr|s1 s2 k kw r Hu|s1 s2 k r Hd|s1 s2 f r Hl].
  - unfold frame. cbn. split; [lia|eauto].
  - unfold frame. cbn. split; [lia|eauto].
  - by eapply create_frame.
  - by eapply read_frame.
  - by eapply update_frame.
  - by eapply delete_frame.
  - by eapply list_docs_frame.
Qed.

Lemma svc_step_stamps s s' : svc_step s s' -> stamps_wf s -> stamps_wf s'.
Proof.
  intros Hstep Hwf. destruct (svc_step_frame s s' Hstep) as [Hclk Hframe].
  intros k e' He'. destruct (Hframe k e' He') as [Hold|(Hlu & [Hdc|(k0 & e0 & He0 & Hdc)])].
  - specialize (Hwf k e' Hold). cbn in Hwf. lia.
  - lia.
  - specialize (Hwf k0 e0 He0). cbn in Hwf. lia.
Qed.

Lemma svc_step_coll_wf s s' : svc_step s s' -> coll_wf (fst s) (snd s) -> coll_wf (fst s') (snd s').
Proof.
  intros Hstep Hwf.
  destruct Hstep as [env coll d Hd|env coll b|s1 s2 kw r Hc|s1 s2 k r Hr|s1 s2 k kw r Hu|s1 s2 k r Hd|s1 s2 f r Hl];
    try done.
  - destruct s1 as [env coll], s2 as [env' coll']. rewrite create_run in Hc.
    eapply save_wf; [exact Hwf| |exact Hc]. intros n. by rewrite from_kwargs_no_pk.
  - destruct (read_effect _ _ _ _ Hr) as (-> & _ & _ & Hoid & _).
    eapply coll_wf_next_oid; [|exact Hwf]. lia.
  - rewrite update_run in Hu. destruct (read k s1) as [[e|x] [env1 coll1]] eqn:Hr;
      destruct (read_effect _ _ _ _ Hr) as (Hc & _ & _ & Hoid & He); cbn in Hc, Hoid; subst coll1;
      [|injection Hu as _ <-; cbn; eapply coll_wf_next_oid; [|exact Hwf]; lia].
    destruct s2 as [env' coll']. specialize (He e eq_refl). destruct (Hwf _ _ He) as [Hk Hn].
    refine (save_wf env1 (snd s1) _ _ _ _ _ _ Hu); [eapply coll_wf_next_oid; [|exact Hwf]; lia|].
    intros n. rewrite set_last_updated_pk, merge_pk, Hk. intros [= Hkn]. rewrite Hoid. by apply Hn.
  - rewrite delete_run in Hd. destruct (read k s1) as [[e|x] [env1 coll1]] eqn:Hr;
      destruct (read_effect _ _ _ _ Hr) as (Hc & _ & _ & Hoid & _); cbn in Hc, Hoid; subst coll1.
    + unfold delete_doc in Hd. destruct (store_up env1); injection Hd as _ <-; cbn;
        [apply map_Forall_delete|]; (eapply coll_wf_next_oid; [|exact Hwf]); cbn; lia.
    + injection Hd as _ <-. cbn. eapply coll_wf_next_oid; [|exact Hwf]. lia.
  - destruct (list_docs_effect _ _ _ _ Hl) as (-> & _ & Hoid & _).
    eapply coll_wf_next_oid; [|exact Hwf]. lia.
Qed.

(** Every state the service layer reaches from a
    well-formed one (documents filed under their own keys, ObjectIds
    below the driver's counter, [date_created <= last_updated <= now])
    is well-formed, whatever the calls, failures and passing of time. *)
Lemma svc_invariant s s' : svc_reach s s' -> svc_wf s -> svc_wf s'.
Proof.
  induction 1 as [s|s1 s2 s3 Hstep _ IH]; [done|].
  intros [Hc Hs]. apply IH. split; [by eapply svc_step_coll_wf|by eapply svc_step_stamps].
Qed.

(** A document's [last_updated] never goes
    back: whenever key [k] holds a document in a reachable later state,
    its stamp is at least that of the document [k] held before (the key
    may have been updated, deleted or created again in between). *)
Lemma last_updated_monotone s s' k e e' :
  svc_reach s s' -> stamps_wf s ->
  snd s !! k = Some e -> snd s' !! k = Some e' ->
  (last_updated e <= last_updated e')%Z.
Proof.
  intros Hreach Hwf He.
  assert (Hinv : (last_updated e <= clock (fst s))%Z /\
                 forall e0, snd s !! k = Some e0 -> (last_updated e <= last_updated e0)%Z).
  { split; [specialize (Hwf k e He); cbn in Hwf; lia|]. intros e0 He0. rewrite He in He0. by simplify_eq. }
  clear He Hwf. revert e'. induction Hreach as [s|s1 s2 s3 Hstep _ IH]; [naive_solver|].
  apply IH. destruct (svc_step_frame s1 s2 Hstep) as [Hclk Hframe]. destruct Hinv as [Hle Hk].
  split; [lia|]. intros e0 He0.
  destruct (Hframe k e0 He0) as [Hold|(Hlu & _)]; [by apply Hk|lia].
Qed.
End ServiceTheorems.

Section CrudTheorems.
Context `{EntityOk E}.
Implicit Types (coll : gmap pkey E) (e : E) (kw : kwargs) (s : SvcSt E).

Lemma delete_run_up k env coll :
  store_up env = true ->
  delete k (env, coll) =
    match coll !! k with
    | Some _ => (Ok tt, (log_trip (TDelete collection_name k)
                           (log_trip (TFind collection_name (pyval_of_pkey k)) env), base.delete k coll))
    | None => (Err NotFoundError, (log_trip (TFind collection_name (pyval_of_pkey k)) env, coll))
    end.
Proof.
  intros Hup. rewrite delete_run, read_run, Hup.
  destruct (coll !! k); [|done]. unfold delete_doc. by rewrite log_trip_store_up, Hup.
Qed.

(** After [delete(k)] succeeds, [read(k)] raises
    [NotFoundError]. *)
Lemma delete_then_read k s s' :
  delete k s = (Ok tt, s') -> fst (read k s') = Err NotFoundError.
Proof.
  destruct s as [env coll]. destruct (store_up env) eqn:Hup.
  - rewrite delete_run_up by done. destruct (coll !! k); [|done].
    intros [= <-]. rewrite read_run. cbn. by rewrite Hup, lookup_delete_eq.
  - rewrite delete_run, read_run, Hup. done.
Qed.

(** [delete(k)] of an absent key raises
    [NotFoundError] after one lookup and removes nothing. *)
Lemma delete_missing k env coll :
  store_up env = true -> coll !! k = None ->
  delete k (env, coll) =
    (Err NotFoundError, (log_trip (TFind collection_name (pyval_of_pkey k)) env, coll)).
Proof. intros Hup Hk. rewrite delete_run_up by done. by rewrite Hk. Qed.

(** [create(kwargs)] on a well-formed store files
    the new entity under a fresh key, stamped with the current time, and
    [read] of that key returns it. *)
Lemma create_then_read kw env coll e s' :
  coll_wf env coll ->
  create kw (env, coll) = (Ok e, s') ->
  exists k, pk e = Some k /\ coll !! k = None /\
            date_created e = clock env /\ last_updated e = clock env /\
            fst (read k s') = Ok e.
Proof.
  intros Hwf Hc. rewrite create_run in Hc. destruct s' as [env' coll'].
  destruct (save_effect _ _ _ _ _ _ Hc) as (_ & Hup & _ & _).
  destruct (save_insert_fresh _ _ _ _ _ _ Hwf (from_kwargs_no_pk _ _) Hc) as (n & Hpk & Hfresh & -> & ->).
  destruct (from_kwargs_stamps (clock env) kw) as [Hdc Hlu].
  destruct (set_pk_stamps n (from_kwargs (clock env) kw)) as [Hdc' Hlu'].
  exists (KOid n). split_and!; try done; try congruence.
  rewrite read_run. rewrite Hup.
  destruct (store_up env) eqn:Hup0; [|unfold save in Hc; rewrite Hup0 in Hc; by destruct (full_clean _)].
  cbn. by rewrite lookup_insert_eq.
Qed.

(** [update(k, kwargs)] of a stored entity saves the
    entity with the keyword arguments merged and [last_updated] set to
    the current time, under the same key. *)
Lemma update_spec k kw env coll e e' s' :
  coll_wf env coll -> store_up env = true -> coll !! k = Some e ->
  update k kw (env, coll) = (Ok e', s') ->
  e' = set_last_updated (clock env) (merge_kwargs kw e) /\ snd s' = <[k := e']> coll.
Proof.
  intros Hwf Hup He Hu. rewrite update_run, read_run, Hup, He in Hu. cbn in Hu.
  destruct (Hwf _ _ He) as [Hk _]. destruct s' as [env' coll'].
  unfold save in Hu. destruct (full_clean _); [done|]. cbn in Hu. rewrite Hup in Hu.
  rewrite set_last_updated_pk, merge_pk, Hk in Hu. by injection Hu as <- <- <-.
Qed.

(** [update(k, kwargs)] of an absent key raises
    [NotFoundError] and writes nothing. *)
Lemma update_missing k kw env coll :
  store_up env = true -> coll !! k = None ->
  update k kw (env, coll) =
    (Err NotFoundError, (log_trip (TFind collection_name (pyval_of_pkey k)) env, coll)).
Proof. intros Hup Hk. rewrite update_run, read_run, Hup, Hk. done. Qed.
End CrudTheorems.


(** ** [ProductService] (services/product.py): the factory applied to [Product] *)

Module ProductEntity.
(** [setattr] of one keyword argument on a field of each kind. *)
Definition ostr_override (k : string) (kw : kwargs) (old : option string) : option string :=
  match kw !! k with Some (PStr s) => Some s | Some PNone => None | _ => old end.
Definition oint_override (k : string) (kw : kwargs) (old : option Z) : option Z :=
  match kw !! k with Some (PInt z) => Some z | Some PNone => None | _ => old end.
Definition bool_override (k : string) (kw : kwargs) (old : bool) : bool :=
  match kw !! k with Some (PBool b) => b | _ => old end.
Definition ref_override {E} (k : string) (kw : kwargs) (old : refval E) : refval E :=
  match kw !! k with Some v => Raw v | None => old end.

(** The merge [Service.update] performs: every scalar and reference field
    named by a keyword argument is set; the key and timestamps are not. *)
Definition merge_product (kw : kwargs) (p : Product.t) : Product.t :=
  Product.mk (Product.id p) (ostr_override "name" kw (Product.name p))
    (ostr_override "sku" kw (Product.sku p)) (ostr_override "code" kw (Product.code p))
    (ostr_override "description" kw (Product.description p))
    (ostr_override "caption" kw (Product.caption p))
    (ref_override "category" kw (Product.category p))
    (ref_override "sub_category" kw (Product.sub_category p))
    (Product.discount_price p) (Product.images p) (Product.price p)
    (ref_override "location" kw (Product.location p))
    (oint_override "quantity" kw (Product.quantity p))
    (bool_override "unlimited_stock" kw (Product.unlimited_stock p))
    (ref_override "user" kw (Product.user p)) (Product.tags p) (Product.attributes p)
    (Product.variants p) (Product.options p) (Product.stats p) (Product.allow_modification p)
    (bool_override "visible" kw (Product.visible p))
    (bool_override "has_variations" kw (Product.has_variations p))
    (Product.supplier p) (Product.date_created p) (Product.last_updated p).

#[export] Instance product_entity : Entity Product.t := {
  from_kwargs := Product.from_kwargs;
  merge_kwargs := merge_product;
  date_created := Product.date_created;
  last_updated := Product.last_updated;
  set_last_updated := Product.with_last_updated
}.

#[export] Instance product_entity_ok : EntityOk Product.t.
Proof. split; try apply _; done. Qed.
End ProductEntity.
Export ProductEntity.

Section ProductService.
Implicit Types (s : SvcSt Product.t) (kw : kwargs) (p : Product.t).

(** C8: In [ProductService], after [delete(k)] succeeds, [read(k)] raises
    [NotFoundError]. *)
Theorem product_delete_then_read k s s' :
  delete (E:=Product.t) k s = (Ok tt, s') -> fst (read k s') = Err NotFoundError.
Proof. apply delete_then_read. Qed.

(** C9: Every state [ProductService] reaches from a well-formed one (each
    product filed under its own key, ObjectIds below the driver's counter,
    [date_created <= last_updated <= now]) is well-formed, whatever the
    calls, store outages and passing of time. *)
Theorem product_svc_invariant s s' : svc_reach s s' -> svc_wf s -> svc_wf s'.
Proof. apply svc_invariant. Qed.

(** C10: A product's [last_updated] never goes back: whenever key [k] holds
    a product in a later reachable state, its stamp is at least that of
    the product [k] held before, even if it was deleted and created again
    in between. *)
Theorem product_last_updated_monotone s s' k p p' :
  svc_reach s s' -> stamps_wf s -> snd s !! k = Some p -> snd s' !! k = Some p' ->
  (Product.last_updated p <= Product.last_updated p')%Z.
Proof. exact (last_updated_monotone s s' k p p'). Qed.

(** C21: [ProductService.register( **kwargs)] on a well-formed store files
    a new product under a fresh ObjectId, both timestamps set to the
    current UTC time, and [read] of that key returns it. *)
Theorem register_then_read kw env coll p s' :
  coll_wf env coll -> register kw (env, coll) = (Ok p, s') ->
  exists k, pk p = Some k /\ coll !! k = None /\
            Product.date_created p = clock env /\ Product.last_updated p = clock env /\
            fst (read k s') = Ok p.
Proof. exact (create_then_read kw env coll p s'). Qed.

(** C22: [ProductService.update(k, **kwargs)] of a stored product saves,
    under the same key and with the same [_id] and [date_created], the
    product with [last_updated] set to the current UTC time and the
    keyword arguments merged: a text field named by a [str] argument takes
    it, by [None] is cleared, and one not named keeps its value;
    [quantity] takes an [int] argument and [location] the raw reference. *)
Theorem product_update_spec k kw env coll p p' s' :
  coll_wf env coll -> store_up env = true -> coll !! k = Some p ->
  update k kw (env, coll) = (Ok p', s') ->
  snd s' = <[k := p']> coll /\
  Product.id p' = Product.id p /\ Product.date_created p' = Product.date_created p /\
  Product.last_updated p' = clock env /\
  Forall (fun fg : string * (Product.t -> option string) =>
            (forall str, kw !! fg.1 = Some (PStr str) -> fg.2 p' = Some str) /\
            (kw !! fg.1 = Some PNone -> fg.2 p' = None) /\
            (kw !! fg.1 = None -> fg.2 p' = fg.2 p))
    [("name", Product.name); ("sku", Product.sku); ("code", Product.code);
     ("description", Product.description); ("caption", Product.caption)] /\
  (forall z, kw !! "quantity" = Some (PInt z) -> Product.quantity p' = Some z) /\
  (forall v, kw !! "location" = Some v -> Product.location p' = Raw v).
Proof.
  intros Hwf Hup Hp Hu. destruct (update_spec k kw env coll p p' s' Hwf Hup Hp Hu) as [-> Hs].
  split_and!; try done; cbn;
    unfold ProductEntity.ostr_override, ProductEntity.oint_override, ProductEntity.ref_override;
    [|by intros ? ->..].
  repeat apply Forall_cons_2; [..|apply Forall_nil_2]; cbn; split_and!;
    unfold ProductEntity.ostr_override; first [by intros ? ->|by intros ->].
Qed.


(** [ProductService.delete(k)] of an absent key raises
    [NotFoundError] after one lookup and removes nothing. *)
Lemma product_delete_missing k env (coll : gmap pkey Product.t) :
  store_up env = true -> coll !! k = None ->
  delete k (env, coll) = (Err NotFoundError, (log_trip (TFind "product" (pyval_of_pkey k)) env, coll)).
Proof. exact (delete_missing k env coll). Qed.

(** [ProductService.update(k, **kwargs)] of an absent key raises
    [NotFoundError] and writes nothing. *)
Lemma product_update_missing k kw env (coll : gmap pkey Product.t) :
  store_up env = true -> coll !! k = None ->
  update k kw (env, coll) = (Err NotFoundError, (log_trip (TFind "product" (pyval_of_pkey k)) env, coll)).
Proof. exact (update_missing k kw env coll). Qed.
End ProductService.

Module ProductExamples.
Definition env0 : Env := mkEnv 1000 0 true 7 0 [].
Definition s0 : SvcSt Product.t := (env0, ∅).
Definition kw_widget : kwargs := {[ "name" := PStr "Widget"; "user" := POid 42 ]}.
Definition registered := register kw_widget s0.
Definition s1 : SvcSt Product.t := snd registered.
Definition widget : Product.t :=
  match fst registered with Ok p => p | Err _ => Product.from_kwargs 0 ∅ end.
Definition s2 : SvcSt Product.t := (advance 50 (fst s1), snd s1).
Definition kw_qty : kwargs := {[ "quantity" := PInt 5 ]}.
Definition updated := update (KOid 7) kw_qty s2.
Definition s3 : SvcSt Product.t := snd updated.
Definition deleted := delete (KOid 7) s1.

Lemma s1_coll : snd s1 = <[KOid 7 := widget]> ∅.
Proof. vm_compute. reflexivity. Qed.

Lemma s1_wf : coll_wf (fst s2) (snd s2).
Proof.
  intros k p Hp. change (snd s2) with (snd s1) in Hp. rewrite s1_coll in Hp.
  destruct (decide (k = KOid 7)) as [->|Hne].
  - rewrite lookup_insert_eq in Hp. injection Hp as <-.
    split; [reflexivity|]. intros n [= <-]. vm_compute. reflexivity.
  - rewrite lookup_insert_ne in Hp by congruence. by rewrite lookup_empty in Hp.
Qed.

Lemma s1_s3_reach : svc_reach s1 s3.
Proof.
  apply (svc_trans _ s2); [change s1 with (fst s1, snd s1); apply step_tick; lia|].
  apply (svc_trans _ s3); [apply (step_update _ _ (KOid 7) kw_qty (fst updated)); vm_compute; reflexivity|].
  apply svc_refl.
Qed.

Lemma product_delete_then_read_witness : fst (read (KOid 7) (snd deleted)) = Err NotFoundError.
Proof. refine (product_delete_then_read (KOid 7) s1 (snd deleted) _). vm_compute. reflexivity. Defined.

Lemma product_delete_missing_witness :
  delete (KOid 3) (env0, ∅) =
    (Err NotFoundError, (log_trip (TFind "product" (POid 3)) env0, ∅ : gmap pkey Product.t)).
Proof. refine (product_delete_missing (KOid 3) env0 ∅ _ _); reflexivity. Defined.

Lemma register_then_read_witness :
  exists k, pk widget = Some k /\ (∅ : gmap pkey Product.t) !! k = None /\
            Product.date_created widget = clock env0 /\ Product.last_updated widget = clock env0 /\
            fst (read k s1) = Ok widget.
Proof.
  refine (register_then_read kw_widget env0 ∅ widget s1 _ _);
    [apply map_Forall_empty|vm_compute; reflexivity].
Defined.

Definition updated_product : Product.t := match fst updated with Ok p => p | Err _ => widget end.

Lemma product_update_spec_witness :
  snd s3 = <[KOid 7 := updated_product]> (snd s2) /\
  Product.id updated_product = Product.id widget /\
  Product.date_created updated_product = Product.date_created widget /\
  Product.last_updated updated_product = clock (fst s2) /\
  Forall (fun fg : string * (Product.t -> option string) =>
            (forall str, kw_qty !! fg.1 = Some (PStr str) -> fg.2 updated_product = Some str) /\
            (kw_qty !! fg.1 = Some PNone -> fg.2 updated_product = None) /\
            (kw_qty !! fg.1 = None -> fg.2 updated_product = fg.2 widget))
    [("name", Product.name); ("sku", Product.sku); ("code", Product.code);
     ("description", Product.description); ("caption", Product.caption)] /\
  (forall z, kw_qty !! "quantity" = Some (PInt z) -> Product.quantity updated_product = Some z) /\
  (forall v, kw_qty !! "location" = Some v -> Product.location updated_product = Raw v).
Proof.
  refine (product_update_spec (KOid 7) kw_qty (fst s2) (snd s2) widget _ s3 s1_wf _ _ _);
    [reflexivity|vm_compute; reflexivity|vm_compute; reflexivity].
Defined.



Lemma product_svc_invariant_witness : svc_wf s3.
Proof.
  refine (product_svc_invariant s1 s3 s1_s3_reach _). split; [exact s1_wf|].
  unfold stamps_wf. rewrite s1_coll. apply map_Forall_insert_2; [split; vm_compute; discriminate|].
  apply map_Forall_empty.
Defined.

Lemma product_last_updated_monotone_witness :
  (Product.last_updated widget <=
   Product.last_updated (match fst updated with Ok p => p | Err _ => widget end))%Z.
Proof.
  refine (product_last_updated_monotone s1 s3 (KOid 7) _ _ s1_s3_reach _ _ _);
    [|vm_compute; reflexivity|vm_compute; reflexivity].
  unfold stamps_wf. rewrite s1_coll. apply map_Forall_insert_2; [split; vm_compute; discriminate|].
  apply map_Forall_empty.
Defined.

Lemma product_update_missing_witness :
  update (KOid 3) kw_qty (env0, ∅) =
    (Err NotFoundError, (log_trip (TFind "product" (POid 3)) env0, ∅ : gmap pkey Product.t)).
Proof. refine (product_update_missing (KOid 3) kw_qty env0 ∅ _ _); reflexivity. Defined.
End ProductExamples.
