(* ===== verification/App.v ===== *)
(** * The application: the routes of [app.py] and the product resource

    [src/app.py] adds two resources behind the gate, [/register] and
    [/login] (lines 12-17); [src/src/resources/product.py] declares
    [ProductResource] with [ProductRequestSchema] and
    [ProductResponseSchema] as its serializers, schemas that declare no
    field.  The resource base class that loads a request with the
    serializer and calls the service is not among the sources; the
    theorems here compose what is: the gate with the routes, and the
    request schema with [ProductService.register]. *)

From S2P Require Import Prelude Store Entities Schemas Token Gate Service.

(** The resources [app.py] adds. *)
Inductive endpoint := ERegister | ELogin.

(** [add_resource(register, '/register')], [add_resource(login, '/login')] *)
Definition app_routes : list (string * endpoint) :=
  [("/register", ERegister); ("/login", ELogin)].

(** [ProductResource.serializers]: the request and the response schema,
    both without fields. *)
Definition product_resource_serializers : list (string * list schema_field) :=
  [("default", product_request_fields); ("response", product_request_fields)].

(** Every route [app.py] adds is exempt from the gate. *)
Lemma routes_allowlisted p h : (p, h) ∈ app_routes -> p ∈ app_ignored_endpoints.
Proof. unfold app_routes, app_ignored_endpoints. set_solver. Qed.

(** So a request to a routed path reaches the app without a token. *)
Lemma routed_requests_pass `{Jwt} {S R} settings now (next : request -> PyM S R) req h :
  (path req, h) ∈ app_routes -> app_wsgi settings now next req = next req.
Proof. intros Hr. apply gate_allowlisted. by eapply routes_allowlisted. Qed.

Section ProductRequest.
Context (utf8_decode : list Byte.byte -> option string) (parse_iso : string -> option Z).

(** [ProductRequestSchema().load(data)] drops every key. *)
Lemma product_request_load_empty data :
  load_fields utf8_decode parse_iso product_request_fields data = (∅, []).
Proof. done. Qed.

(** C33: Whatever a product request carries, [ProductRequestSchema]
    ([unknown = EXCLUDE], no declared field) loads it to [{}], and
    [ProductService.register] on [{}] raises [ValidationError] for the
    required [name] without touching the store: a product cannot be
    created from what the resource's request schema lets through. *)
Theorem product_request_rejected {S} data (s : S) env coll :
  load utf8_decode parse_iso product_request_fields data s = (Ok ∅, s) /\
  register (E:=Product.t) ∅ (env, coll) = (Err (ValidationError "name"), (env, coll)).
Proof.
  split; [unfold load; by rewrite product_request_load_empty|].
  unfold register. rewrite create_run. unfold save. done.
Qed.
End ProductRequest.
