(* ===== verification/Flows.v ===== *)
(** * Registration, login and the gate, composed

    The parts of the program meet in the login flow: [User.set_password]
    (models.py 98-114) stores the hash and saves the user, [LoginSchema]
    (schemas.py 38-45) accepts the stored email, [User.check_password]
    (models.py 116-135) compares the password with the stored hash,
    [User.auth_token] (models.py 138-149) issues the JWT, and
    [AuthMiddleware] in front of the app (app.py 8-10) lets the token in.
    [LoginResource], which calls these in the repository, is not among the
    sources; the theorem below threads the state through the modelled
    steps in the order a login takes them. *)

From S2P Require Import Prelude Store Entities Queries Schemas Credentials Token Gate.

Section LoginFlow.
Context `{BcryptOk} `{Jwt}.
Context (utf8_decode : list Byte.byte -> option string) (parse_iso : string -> option Z).
Variable settings : Settings.

(** C7: After [set_password(p)] succeeds on a user with email [e], a
    login with [e] and [p] goes through every step: [LoginSchema] loads
    the request (one count round trip) against the users now stored,
    [check_password(p)] answers [True] on the saved user, [auth_token]
    issues a token for the user's new ObjectId, and that token, presented
    before its expiry on a path [app.py] does not exempt, passes
    [AuthMiddleware] with the user's names and ObjectId attached. *)
Theorem login_flow {S R} st p e u st' data now path_ (next : request -> PyM S R) s :
  password_rejected (PStr p) = false -> User.email (self st) = Some e ->
  set_password (PStr p) st = (Ok u, st') ->
  data !! "password" = Some (PStr p) -> data !! "email" = Some (PStr e) ->
  (now < clock (env st) + tz_offset (env st) + 3600 * JWT_EXPIRES_IN_HOURS settings)%Z ->
  path_ ∉ app_ignored_endpoints ->
  let env2 := log_trip (TCountWhere "user" [("email", PStr e)]) (env st') in
  let st2 := mkUserSt env2 (users st') u in
  load_login utf8_decode parse_iso (users st') data (env st') = (Ok (<["password" := PStr p]> (<["email" := PStr e]> ∅)), env2) /\
  check_password (PStr p) st2 = (Ok true, st2) /\
  exists n t, User.id u = Some n /\ auth_token settings st2 = (Ok t, st2) /\
    app_wsgi settings now next (mkRequest path_ (Some t) None) s =
      next (mkRequest path_ (Some t) (Some (issued_payload settings st2 n))) s /\
    p_first_name (issued_payload settings st2 n) = User.first_name (self st) /\
    p_id (issued_payload settings st2 n) = ObjectId.to_str n.
Proof.
  intros Hp He Hset Hdp Hde Hnow Hpath env2 st2.
  destruct (set_password_ok p st u st' Hp Hset)
    as (Hup & Hclk & Htz & _ & _ & Hpw & Hem & Hfn & _ & _ & n & Hn & Hus).
  split_and!.
  - rewrite (load_login_strings utf8_decode parse_iso (users st') data p e (env st') Hdp Hde Hup).
    destruct (raw_where (users st') [("email", PStr e)]) eqn:Hr; [|done].
    exfalso. apply (proj1 (users_with_email_nil (users st') e) Hr (KOid n) u); [|congruence].
    rewrite Hus. apply lookup_insert_eq.
  - rewrite (check_password_hashed p p (salt_seed (env st)) st2 Hp Hpw). by rewrite bool_decide_true.
  - destruct (auth_token settings st2) as [r st3] eqn:Htok.
    pose proof (auth_token_run settings st2 n Hn) as Hrun. rewrite Htok in Hrun.
    injection Hrun as -> ->.
    eexists n, _. split_and!; [done|done| |cbn; congruence|done].
    eapply gate_forwards_valid; [done|done|].
    rewrite validate_issued. cbn. rewrite Hclk, Htz.
    destruct (Z.leb_spec (clock (env st) + tz_offset (env st) +
              3600 * JWT_EXPIRES_IN_HOURS settings) now); [lia|done].
Qed.
End LoginFlow.

(** ** The flow on a concrete user *)

Module FlowExamples.
Import ToyBcrypt ToyJwt.

Definition settings : Settings := mkSettings "s3cret" "HS256" 1.
Definition env0 : Env := mkEnv 1000 0 true 7 0 [].
Definition ada : User.t := User.new 900 (Some "ada@example.com") (Some "Ada") (Some "Lovelace").
Definition st0 : UserSt := mkUserSt env0 ∅ ada.
Definition set0 := set_password (PStr "hunter2") st0.
Definition saved : User.t := match fst set0 with Ok u => u | Err _ => ada end.
(** a login request with a key the schema drops *)
Definition data0 : json :=
  <["remember" := PBool true]> (<["email" := PStr "ada@example.com"]>
    (<["password" := PStr "hunter2"]> ∅)).
Definition echo (req : request) : PyM unit (option Payload) := py_ret (identity req).

Lemma login_flow_witness :
  let env2 := log_trip (TCountWhere "user" [("email", PStr "ada@example.com")]) (env (snd set0)) in
  let st2 := mkUserSt env2 (users (snd set0)) saved in
  load_login (fun _ => None) (fun _ => None) (users (snd set0)) data0 (env (snd set0)) =
    (Ok (<["password" := PStr "hunter2"]> (<["email" := PStr "ada@example.com"]> ∅)), env2) /\
  check_password (PStr "hunter2") st2 = (Ok true, st2) /\
  exists n t, User.id saved = Some n /\ auth_token settings st2 = (Ok t, st2) /\
    app_wsgi settings 2000 echo (mkRequest "/products" (Some t) None) tt =
      echo (mkRequest "/products" (Some t) (Some (issued_payload settings st2 n))) tt /\
    p_first_name (issued_payload settings st2 n) = User.first_name (self st0) /\
    p_id (issued_payload settings st2 n) = ObjectId.to_str n.
Proof.
  refine (login_flow (fun _ => None) (fun _ => None) settings st0 "hunter2" "ada@example.com"
            saved (snd set0) data0 2000 "/products" echo tt _ _ _ _ _ _ _);
    [reflexivity|reflexivity|vm_compute; reflexivity|vm_compute; reflexivity
    |vm_compute; reflexivity|vm_compute; reflexivity|unfold app_ignored_endpoints; set_solver].
Defined.
End FlowExamples.
